(** * Doctor-appointment backend: a shallow embedding of the request handlers

    The development follows the JavaScript sources:
    - the upload middleware (multer configuration: [fileFilter], the disk
      storage [filename] callback and the size limit);
    - the two server entry points with the Stripe checkout and webhook
      handlers: module [Server] is the one that checks the webhook secret
      itself and processes the event inside one [try]; module [ServerBasic]
      is the one whose [try] surrounds the update only;
    - the admin controller ([addDoctor], [loginAdmin], [allDoctors],
      [appointmentsAdmin], [appointmentCancel], [adminDashboard]);
      [addDoctor] is given twice: in [Multipart] for any body the form
      parser can leave, and in [AdminController] for bodies whose text
      fields are strings or absent, on which the two agree.

    Modelling conventions.
    - A JavaScript string is a [string]; one character stands for one code
      unit (code units below 256).  [undefined] is [None].
    - A collection of the object-document mapper is the list of its documents
      in storage order; [find({})] returns that list.
    - [slots_booked] is a JavaScript object used as a map from a date key to
      an array of time strings: a [gmap string (list string)] of its own
      properties.  A bracket lookup that finds no own property falls back
      on the names inherited from [Object.prototype] ([Js.inherited]).
    - A handler is a computation over a [World]: the database, the console
      and an oracle that says, for each awaited call to an outside service
      (database driver, payment provider, image host, hashing, token
      signing), whether that call throws.  A handler that returns [Throw]
      lets the exception escape without sending a response.
    - A console line is recorded as its stream and its leading text,
      followed by the error message or the string printed with it; objects
      printed for inspection and the pictograph some lines start with are
      left out.
    - Library functions whose code is not part of the repository
      (validator, bcrypt, JSON.parse, path.extname, the provider's signature
      check) are fields of the class [Externals]. *)

From Stdlib Require Import ZArith NArith String Ascii List Lia.
From stdpp Require Import base option list strings gmap pretty.

Local Open Scope string_scope.
Local Open Scope N_scope.

(** ** JavaScript strings *)
Module Js.

Definition dquote : ascii := "034"%char.

(** [String.prototype.startsWith]. *)
Definition startsWith (s pre : string) : bool := String.prefix pre s.

(** Truthiness of a value that is a string or [undefined]: [!v] is true for
    [undefined] and for the empty string. *)
Definition truthy (v : option string) : bool :=
  match v with
  | Some s => negb (String.eqb s "")
  | None => false
  end.

(** White space and line terminators removed by [String.prototype.trim],
    among the code units below 256: TAB, LF, VT, FF, CR, SP, NBSP. *)
Definition is_space (c : ascii) : bool :=
  match N_of_ascii c with
  | 9 | 10 | 11 | 12 | 13 | 32 | 160 => true
  | _ => false
  end.

Fixpoint trimStart (s : string) : string :=
  match s with
  | EmptyString => EmptyString
  | String c s' => if is_space c then trimStart s' else s
  end.

Fixpoint trimEnd (s : string) : string :=
  match s with
  | EmptyString => EmptyString
  | String c s' =>
      match trimEnd s' with
      | EmptyString => if is_space c then EmptyString else String c EmptyString
      | r => String c r
      end
  end.

Definition trim (s : string) : string := trimEnd (trimStart s).

(** The two alternatives of the pattern [/^"|"$/g]: a quote at index 0 and a
    quote at the last index.  The scan goes left to right, so the leading
    quote is consumed first. *)
Definition dropLeadingQuote (s : string) : string :=
  match s with
  | String c s' => if Ascii.eqb c dquote then s' else s
  | EmptyString => EmptyString
  end.

Fixpoint dropTrailingQuote (s : string) : string :=
  match s with
  | EmptyString => EmptyString
  | String c EmptyString => if Ascii.eqb c dquote then EmptyString else s
  | String c s' => String c (dropTrailingQuote s')
  end.

(** [cleanQuotes]: values that are not strings are returned as they are. *)
Definition cleanQuotes (v : option string) : option string :=
  match v with
  | None => None
  | Some str => Some (trim (dropTrailingQuote (dropLeadingQuote str)))
  end.

(** Template-literal / [+] rendering of a non-negative integer. *)
Definition showN (n : N) : string := pretty n.

(** The property names every plain object inherits from
    [Object.prototype].  A bracket lookup [object[key]] with one of these
    names finds the inherited method (for [__proto__], the prototype
    object itself) unless the object has an own property of that name. *)
Definition Object_prototype : list string :=
  [ "constructor"; "hasOwnProperty"; "isPrototypeOf"; "propertyIsEnumerable";
    "toLocaleString"; "toString"; "valueOf"; "__proto__";
    "__defineGetter__"; "__defineSetter__"; "__lookupGetter__"; "__lookupSetter__" ].

Definition inherited (key : string) : bool :=
  existsb (String.eqb key) Object_prototype.

End Js.

(** ** JSON values, as sent by [res.json] *)
Module Json.

#[local] Unset Elimination Schemes.
Inductive t : Type :=
| Null
| Bool (b : bool)
| Num (z : Z)
| Str (s : string)
| Arr (l : list t)
| Obj (fields : list (string * t)).
#[local] Set Elimination Schemes.

(** Own property lookup in an object literal. *)
Fixpoint assoc (k : string) (fields : list (string * t)) : option t :=
  match fields with
  | [] => None
  | (k', v) :: rest => if String.eqb k k' then Some v else assoc k rest
  end.

Definition get (k : string) (j : t) : option t :=
  match j with
  | Obj fields => assoc k fields
  | _ => None
  end.

(** Removal of a path from a document, as done by a projection. *)
Definition without (k : string) (j : t) : t :=
  match j with
  | Obj fields => Obj (List.filter (fun kv => negb (String.eqb k (fst kv))) fields)
  | _ => j
  end.

End Json.

(** ** Documents, collections and the world a handler runs in *)
Module Db.

(** [slots_booked]: date key to the array of booked time strings. *)
Abbreviation Slots := (gmap string (list string)).

Record Doctor : Type := mkDoctor {
  doc_id : string;
  doc_name : string;
  doc_email : string;
  doc_image : string;
  doc_password : string;
  doc_speciality : string;
  doc_degree : string;
  doc_experience : string;
  doc_about : string;
  doc_fees : Json.t;
  doc_address : Json.t;
  doc_date : N;
  doc_slots_booked : option Slots
}.

Record Appointment : Type := mkAppointment {
  appt_id : string;
  appt_userId : option string;
  appt_docId : string;
  appt_slotDate : string;
  appt_slotTime : string;
  appt_payment : bool;
  appt_cancelled : bool;
  appt_rest : list (string * Json.t)
}.

Record User : Type := mkUser {
  user_id : string;
  user_fields : list (string * Json.t)
}.

Record Database : Type := mkDatabase {
  doctors : list Doctor;
  users : list User;
  appointments : list Appointment
}.

(** Field updates written [{ payment: true }], [{ cancelled: true }] and
    [{ slots_booked }] in the update documents. *)
Definition set_payment (v : bool) (a : Appointment) : Appointment :=
  mkAppointment (appt_id a) (appt_userId a) (appt_docId a) (appt_slotDate a)
    (appt_slotTime a) v (appt_cancelled a) (appt_rest a).

Definition set_cancelled (v : bool) (a : Appointment) : Appointment :=
  mkAppointment (appt_id a) (appt_userId a) (appt_docId a) (appt_slotDate a)
    (appt_slotTime a) (appt_payment a) v (appt_rest a).

Definition set_slots_booked (s : Slots) (d : Doctor) : Doctor :=
  mkDoctor (doc_id d) (doc_name d) (doc_email d) (doc_image d) (doc_password d)
    (doc_speciality d) (doc_degree d) (doc_experience d) (doc_about d)
    (doc_fees d) (doc_address d) (doc_date d) (Some s).

Definition set_password (p : string) (d : Doctor) : Doctor :=
  mkDoctor (doc_id d) (doc_name d) (doc_email d) (doc_image d) p
    (doc_speciality d) (doc_degree d) (doc_experience d) (doc_about d)
    (doc_fees d) (doc_address d) (doc_date d) (doc_slots_booked d).

(** A model of the object-document mapper: which collection it reads and
    writes, and the [_id] of a document. *)
Record Model (A : Type) : Type := mkModel {
  coll : Database -> list A;
  set_coll : list A -> Database -> Database;
  id_of : A -> string
}.
Arguments coll {A} _ _.
Arguments set_coll {A} _ _ _.
Arguments id_of {A} _ _.

Definition doctorModel : Model Doctor :=
  mkModel Doctor doctors
    (fun l d => mkDatabase l (users d) (appointments d)) doc_id.

Definition userModel : Model User :=
  mkModel User users
    (fun l d => mkDatabase (doctors d) l (appointments d)) user_id.

Definition appointmentModel : Model Appointment :=
  mkModel Appointment appointments
    (fun l d => mkDatabase (doctors d) (users d) l) appt_id.

(** Serialisation of documents by [res.json]. *)
Definition slots_to_json (s : Slots) : Json.t :=
  Json.Obj (List.map (fun kv => (fst kv, Json.Arr (List.map Json.Str (snd kv))))
              (map_to_list s)).

Definition doctor_to_json (d : Doctor) : Json.t :=
  Json.Obj
    ([ ("_id", Json.Str (doc_id d));
       ("name", Json.Str (doc_name d));
       ("email", Json.Str (doc_email d));
       ("image", Json.Str (doc_image d));
       ("password", Json.Str (doc_password d));
       ("speciality", Json.Str (doc_speciality d));
       ("degree", Json.Str (doc_degree d));
       ("experience", Json.Str (doc_experience d));
       ("about", Json.Str (doc_about d));
       ("fees", doc_fees d);
       ("address", doc_address d);
       ("date", Json.Num (Z.of_N (doc_date d))) ]
     ++ match doc_slots_booked d with
        | Some s => [ ("slots_booked", slots_to_json s) ]
        | None => []
        end).

Definition appointment_to_json (a : Appointment) : Json.t :=
  Json.Obj
    ([ ("_id", Json.Str (appt_id a)) ]
     ++ match appt_userId a with
        | Some u => [ ("userId", Json.Str u) ]
        | None => []
        end
     ++ [ ("docId", Json.Str (appt_docId a));
          ("slotDate", Json.Str (appt_slotDate a));
          ("slotTime", Json.Str (appt_slotTime a));
          ("payment", Json.Bool (appt_payment a));
          ("cancelled", Json.Bool (appt_cancelled a)) ]
     ++ appt_rest a).

(** Console output: the stream and the text. *)
Inductive Stream : Type := Stdout | Stderr.

Record World : Type := mkWorld {
  db : Database;
  console : list (Stream * string);
  faults : list (option string)
}.

Definition with_db (d : Database) (w : World) : World :=
  mkWorld d (console w) (faults w).

End Db.

(** ** Results of calls that may throw *)
Inductive outcome (A : Type) : Type :=
| Ok (a : A)
| Throw (message : string).
Arguments Ok {A} a.
Arguments Throw {A} message.

(** ** The payment provider's event, as the webhook handlers read it *)
Module Stripe.

Record Metadata : Type := mkMetadata {
  appointmentId : option string
}.

(** [event.data.object] of a checkout event.  The provider declares
    [metadata] as nullable. *)
Record Session : Type := mkSession {
  id : string;
  metadata : option Metadata
}.

Record Event : Type := mkEvent {
  type : string;
  data_object : Session
}.

End Stripe.

(** ** Library functions outside the repository *)
Class Externals : Type := mkExternals {
  (** [validator.isEmail] on a string *)
  validator_isEmail : string -> bool;
  (** [bcrypt.hash(password, salt)] *)
  bcrypt_hash : string -> string -> string;
  (** [JSON.parse]; [None] is a [SyntaxError] *)
  JSON_parse : string -> option Json.t;
  (** [Number(..)] of a string *)
  js_Number : string -> Json.t;
  (** [path.extname] *)
  path_extname : string -> string;
  (** [path.join(__dirname, "..", "uploads")] *)
  uploadsDir : string;
  (** [stripe.webhooks.constructEvent(body, signature, secret)] *)
  stripe_constructEvent : string -> option string -> option string -> outcome Stripe.Event;
  (** [jwt.sign(payload, secret)] *)
  jwt_sign : string -> option string -> outcome string;
  (** what the mapper does with the filter [{ _id: undefined }]: match
      nothing ([false]) or act as the empty filter ([true]) *)
  orm_undefined_id_is_any : bool;
  (** value of [slots_booked] in a document built without it *)
  schema_default_slots : option Db.Slots;
  (** multer's enforcement of [limits.fileSize]: for the configured limit
      and the length of the incoming file, the message of the error the
      upload is aborted with, or [None] when the file is let through *)
  multer_fileSize : N -> N -> option string;
  (** message of the [TypeError] that validator throws when it is given a
      value that is not a string *)
  validator_not_a_string : Json.t -> string;
  (** message of the error [bcrypt.hash] rejects with when the password
      is not a string *)
  bcrypt_not_a_string : Json.t -> string;
  (** [v.length < n] for a value that is neither a string nor an array *)
  js_length_below : Json.t -> N -> bool;
  (** what the object-document mapper makes of a value that is not a
      string and is given for a String path: the string it stores, or the
      validation error [save] rejects with *)
  orm_cast_String : Json.t -> outcome string;
  (** [Number(..)] of a value that is not a string *)
  js_Number_of : Json.t -> Json.t
}.

(** ** Handlers as computations over the world *)
Module Eff.
Import Db.

Definition M (A : Type) : Type := World -> outcome A * World.

Definition ret {A : Type} (a : A) : M A := fun w => (Ok a, w).

Definition throw {A : Type} (message : string) : M A := fun w => (Throw message, w).

Definition bind {A B : Type} (m : M A) (k : A -> M B) : M B :=
  fun w =>
    match m w with
    | (Ok a, w') => k a w'
    | (Throw e, w') => (Throw e, w')
    end.

(** [try { m } catch (error) { h error }]: what [m] did to the world before
    it threw stays done. *)
Definition tryCatch {A : Type} (m : M A) (h : string -> M A) : M A :=
  fun w =>
    match m w with
    | (Ok a, w') => (Ok a, w')
    | (Throw e, w') => h e w'
    end.

Definition lift {A : Type} (o : outcome A) : M A := fun w => (o, w).

Definition console_write (s : Stream) (text : string) : M unit :=
  fun w => (Ok tt, mkWorld (db w) (console w ++ [(s, text)]) (faults w)).

Definition console_log : string -> M unit := console_write Stdout.
Definition console_error : string -> M unit := console_write Stderr.

(** One awaited call to an outside service: the next entry of the oracle
    says whether it throws.  An exhausted oracle means no more failures. *)
Definition await_service : M unit :=
  fun w =>
    match faults w with
    | Some e :: rest => (Throw e, mkWorld (db w) (console w) rest)
    | None :: rest => (Ok tt, mkWorld (db w) (console w) rest)
    | [] => (Ok tt, w)
    end.

End Eff.

Declare Scope eff_scope.
Delimit Scope eff_scope with eff.
Notation "'let!' x ':=' m 'in' k" := (Eff.bind m (fun x => k))
  (at level 10, x name, m at level 100, k at level 200) : eff_scope.
Notation "m ';;;' k" := (Eff.bind m (fun _ => k))
  (at level 100, k at level 200, right associativity) : eff_scope.
Local Open Scope eff_scope.

(** ** The object-document mapper *)
Module Orm.
Import Db Eff.

Section WithExternals.
Context `{Externals}.

(** [Model.find({})] *)
Definition find {A : Type} (m : Model A) : M (list A) :=
  await_service ;;;
  fun w => (Ok (coll m (db w)), w).

(** [Model.findOne(filter)] *)
Definition findOne {A : Type} (m : Model A) (filter : A -> bool) : M (option A) :=
  await_service ;;;
  fun w => (Ok (List.find filter (coll m (db w))), w).

(** The filter [{ _id: id }]. *)
Definition by_id {A : Type} (m : Model A) (id : option string) : A -> bool :=
  match id with
  | Some i => fun a => String.eqb (id_of m a) i
  | None => fun _ => orm_undefined_id_is_any
  end.

(** [Model.findById(id)] with a string. *)
Definition findById {A : Type} (m : Model A) (id : string) : M (option A) :=
  findOne m (by_id m (Some id)).

(** The first document matching the filter is replaced by its update. *)
Fixpoint update_first {A : Type} (filter : A -> bool) (f : A -> A) (l : list A) : list A :=
  match l with
  | [] => []
  | a :: rest => if filter a then f a :: rest else a :: update_first filter f rest
  end.

(** [Model.findOneAndUpdate(filter, update, { new: returnNew })] *)
Definition findOneAndUpdate {A : Type} (m : Model A) (filter : A -> bool)
    (f : A -> A) (returnNew : bool) : M (option A) :=
  await_service ;;;
  fun w =>
    match List.find filter (coll m (db w)) with
    | None => (Ok None, w)
    | Some a =>
        (Ok (Some (if returnNew then f a else a)),
         with_db (set_coll m (update_first filter f (coll m (db w))) (db w)) w)
    end.

(** [Model.findByIdAndUpdate(id, update, options)] *)
Definition findByIdAndUpdate {A : Type} (m : Model A) (id : option string)
    (f : A -> A) (returnNew : bool) : M (option A) :=
  findOneAndUpdate m (by_id m id) f returnNew.

(** [document.save()] of a new document. *)
Definition save {A : Type} (m : Model A) (a : A) : M unit :=
  await_service ;;;
  fun w => (Ok tt, with_db (set_coll m (coll m (db w) ++ [a]) (db w)) w).

End WithExternals.
End Orm.

(** ** HTTP responses *)
Module Http.

Inductive Body : Type :=
| Text (s : string)
| JsonBody (j : Json.t).

Record Response : Type := mkResponse {
  status : N;
  body : Body
}.

(** [res.status(code).json(j)], [res.json(j)] and [res.status(code).send(s)] *)
Definition status_json (code : N) (j : Json.t) : Response := mkResponse code (JsonBody j).
Definition json (j : Json.t) : Response := mkResponse 200 (JsonBody j).
Definition status_send (code : N) (s : string) : Response := mkResponse code (Text s).

(** Field of a JSON body. *)
Definition body_get (k : string) (r : Response) : option Json.t :=
  match body r with
  | JsonBody j => Json.get k j
  | Text _ => None
  end.

End Http.

(** [process.env] *)
Record ProcessEnv : Type := mkProcessEnv {
  NODE_ENV : option string;
  STRIPE_WEBHOOK_SECRET : option string;
  ADMIN_EMAIL : option string;
  ADMIN_PASSWORD : option string;
  JWT_SECRET : option string
}.

(** Rendering of a string-or-undefined value inside a template literal. *)
Definition show_opt (v : option string) : string := default "undefined" v.

(** ** Upload middleware *)
Module Upload.

(** The part of multer's file object the configuration reads, and the
    length of the incoming stream. *)
Record File : Type := mkFile {
  fieldname : string;
  originalname : string;
  mimetype : string;
  size : N
}.

(** Result passed to the filter's callback: [callback(null, true)] or
    [callback(new Error(..), false)]. *)
Inductive FilterResult : Type :=
| Accept
| Reject (message : string).

Definition fileFilter (file : File) : FilterResult :=
  if Js.startsWith (mimetype file) "image/"
  then Accept
  else Reject "Not an image! Please upload an image.".

(** [limits.fileSize] *)
Definition limits_fileSize : N := 1024 * 1024 * 5.

Record StoredFile : Type := mkStored {
  stored_destination : string;
  stored_filename : string
}.

Section WithExternals.
Context `{Externals}.

(** The [filename] callback of the disk storage.  [now] is [Date.now()],
    [rnd] is [Math.round(Math.random() * 1E9)]. *)
Definition filename (now rnd : N) (file : File) : string :=
  let uniqueSuffix := Js.showN now ++ "-" ++ Js.showN rnd in
  let extension := path_extname (originalname file) in
  fieldname file ++ "-" ++ uniqueSuffix ++ extension.

(** The [destination] callback. *)
Definition destination (file : File) : string := uploadsDir.

(** multer's handling of one file under this configuration: the filter is
    asked first; an accepted file is streamed to [destination/filename]
    with [limits.fileSize] handed to the library, which aborts the upload
    with its own error when it finds the file too long; nothing is kept
    then. *)
Definition upload (now rnd : N) (file : File) : outcome StoredFile :=
  match fileFilter file with
  | Reject e => Throw e
  | Accept =>
      match multer_fileSize limits_fileSize (size file) with
      | Some e => Throw e
      | None => Ok (mkStored (destination file) (filename now rnd file))
      end
  end.

End WithExternals.
End Upload.

(** ** Checkout sessions *)
Module Checkout.
Import Db Eff Http.

Record Request : Type := mkRequest {
  body_appointmentId : option string;
  headers_origin : option string
}.

Record SessionConfig : Type := mkSessionConfig {
  payment_method_types : list string;
  currency : string;
  product_name : string;
  unit_amount : N;
  quantity : N;
  mode : string;
  success_url : string;
  cancel_url : string;
  metadata_appointmentId : option string
}.

Definition sessionConfig (baseUrl : string) (appointmentId : option string) : SessionConfig :=
  mkSessionConfig ["card"] "usd" "Appointment Booking" 5000 1 "payment"
    (baseUrl ++ "/success?session_id={CHECKOUT_SESSION_ID}")
    (baseUrl ++ "/cancel")
    appointmentId.

(** [await stripe.checkout.sessions.create(config)]; [reply_id] is the
    [id] of the session the provider answers with. *)
Definition sessions_create (config : SessionConfig) (reply_id : string) : M string :=
  await_service ;;; ret reply_id.

(** [a || b] on strings-or-undefined. *)
Definition or_else (a : option string) (b : string) : string :=
  if Js.truthy a then default b a else b.

End Checkout.

(** ** Server entry point with the guarded secret *)
Module Server.
Import Db Eff Http Orm.

Record WebhookRequest : Type := mkWebhookRequest {
  raw_body : string;
  stripe_signature : option string
}.

Definition TypeError_metadata : string :=
  "Cannot read properties of null (reading 'appointmentId')".

Section WithExternals.
Context `{Externals}.

(** [app.post("/api/create-checkout-session", ...)] *)
Definition create_checkout_session_try (env : ProcessEnv) (req : Checkout.Request)
    (reply_id : string) : M Response :=
  let appointmentId := Checkout.body_appointmentId req in
  console_log ("Creating checkout session for appointment: " ++ show_opt appointmentId) ;;;
  if negb (Js.truthy appointmentId)
  then throw "Missing appointmentId in request body"
  else
    let baseUrl :=
      if decide (NODE_ENV env = Some "production")
      then "https://doctor-appointment-frontend-eta.vercel.app"
      else Checkout.or_else (Checkout.headers_origin req) "http://localhost:5173" in
    console_log ("Using base URL: " ++ baseUrl) ;;;
    let config := Checkout.sessionConfig baseUrl appointmentId in
    console_log "Creating Stripe session with config:" ;;;
    let! session_id := Checkout.sessions_create config reply_id in
    console_log "Checkout session created:" ;;;
    ret (json (Json.Obj [("success", Json.Bool true); ("sessionId", Json.Str session_id)])).

Definition create_checkout_session_catch (error : string) : M Response :=
  console_error ("Error creating checkout session: " ++ error) ;;;
  ret (status_json 500 (Json.Obj [("success", Json.Bool false); ("error", Json.Str error)])).

Definition create_checkout_session (env : ProcessEnv) (req : Checkout.Request)
    (reply_id : string) : M Response :=
  tryCatch (create_checkout_session_try env req reply_id) create_checkout_session_catch.

(** What the first [try] block of the webhook handler computes: the secret
    is read and checked, then the provider's routine builds the event. *)
Definition verification (env : ProcessEnv) (req : WebhookRequest) : outcome Stripe.Event :=
  let sig := stripe_signature req in
  let webhookSecret := STRIPE_WEBHOOK_SECRET env in
  if negb (Js.truthy webhookSecret)
  then Throw "Missing Stripe webhook secret"
  else stripe_constructEvent (raw_body req) sig webhookSecret.

(** The first [try] block with its console output. *)
Definition verify (env : ProcessEnv) (req : WebhookRequest) : M Stripe.Event :=
  console_log "Webhook secret exists:" ;;;
  let! event := lift (verification env req) in
  console_log ("Webhook verified, event type: " ++ Stripe.type event) ;;;
  ret event.

(** The [switch] on the event type, inside the second [try] block. *)
Definition handle_event (event : Stripe.Event) : M unit :=
  if String.eqb (Stripe.type event) "checkout.session.completed"
  then
    let session := Stripe.data_object event in
    console_log "Processing completed checkout session:" ;;;
    let! appointmentId :=
      match Stripe.metadata session with
      | Some md => ret (Stripe.appointmentId md)
      | None => throw TypeError_metadata
      end in
    console_log ("Appointment ID from metadata: " ++ show_opt appointmentId) ;;;
    if negb (Js.truthy appointmentId)
    then throw "No appointmentId found in session metadata"
    else
      let! updatedAppointment :=
        findByIdAndUpdate appointmentModel appointmentId (set_payment true) true in
      match updatedAppointment with
      | None => throw ("Appointment " ++ show_opt appointmentId ++ " not found")
      | Some _ => console_log "Payment successful for appointment:"
      end
  else console_log ("Unhandled event type " ++ Stripe.type event).

(** [app.post(webhookPath, ...)] *)
Definition webhook (env : ProcessEnv) (req : WebhookRequest) : M Response :=
  console_log "Webhook received" ;;;
  console_log "Webhook headers:" ;;;
  let! verified :=
    tryCatch
      (let! event := verify env req in ret (inr event))
      (fun err =>
         console_error ("Webhook signature verification failed: " ++ err) ;;;
         ret (inl (status_send 400 ("Webhook Error: " ++ err)))) in
  match verified with
  | inl response => ret response
  | inr event =>
      tryCatch
        (handle_event event ;;;
         ret (json (Json.Obj [("received", Json.Bool true)])))
        (fun error =>
           console_error ("Error processing webhook: " ++ error) ;;;
           ret (json (Json.Obj [("received", Json.Bool true); ("error", Json.Str error)])))
  end.

End WithExternals.
End Server.

(** ** Server entry point with the inner [try] around the update *)
Module ServerBasic.
Import Db Eff Http Orm.

Section WithExternals.
Context `{Externals}.

(** [app.post("/api/create-checkout-session", ...)] *)
Definition create_checkout_session_try (req : Checkout.Request) (reply_id : string) : M Response :=
  console_log "Received request for checkout session:" ;;;
  let appointmentId := Checkout.body_appointmentId req in
  let baseUrl := Checkout.or_else (Checkout.headers_origin req) "http://localhost:5173" in
  console_log "Creating Stripe checkout session..." ;;;
  let! session_id :=
    Checkout.sessions_create (Checkout.sessionConfig baseUrl appointmentId) reply_id in
  console_log ("Stripe session created successfully: " ++ session_id) ;;;
  console_log ("Success URL: " ++ baseUrl ++ "/success?session_id={CHECKOUT_SESSION_ID}") ;;;
  console_log ("Cancel URL: " ++ baseUrl ++ "/cancel") ;;;
  ret (json (Json.Obj [("success", Json.Bool true); ("sessionId", Json.Str session_id)])).

Definition create_checkout_session_catch (error : string) : M Response :=
  console_error ("Error creating checkout session: " ++ error) ;;;
  ret (status_json 500 (Json.Obj [("success", Json.Bool false); ("error", Json.Str error)])).

Definition create_checkout_session (req : Checkout.Request) (reply_id : string) : M Response :=
  tryCatch (create_checkout_session_try req reply_id) create_checkout_session_catch.

(** The [switch] on the event type.  The metadata is read before the
    [try] that surrounds the update. *)
Definition handle_event (event : Stripe.Event) : M unit :=
  if String.eqb (Stripe.type event) "checkout.session.completed"
  then
    let session := Stripe.data_object event in
    console_log ("Checkout session completed: " ++ Stripe.id session) ;;;
    console_log "Metadata:" ;;;
    let! appointmentId :=
      match Stripe.metadata session with
      | Some md => ret (Stripe.appointmentId md)
      | None => throw Server.TypeError_metadata
      end in
    tryCatch
      (console_log ("Updating appointment: " ++ show_opt appointmentId) ;;;
       let! updatedAppointment :=
         findByIdAndUpdate appointmentModel appointmentId (set_payment true) true in
       match updatedAppointment with
       | Some _ =>
           console_log ("Payment for appointment " ++ show_opt appointmentId
                        ++ " marked as successful") ;;;
           console_log "Updated appointment:"
       | None => console_error ("Appointment " ++ show_opt appointmentId ++ " not found")
       end)
      (fun error => console_error ("Error updating appointment payment status: " ++ error))
  else console_log ("Unhandled event type " ++ Stripe.type event).

(** What the first [try] block computes. *)
Definition verification (env : ProcessEnv) (req : Server.WebhookRequest) : outcome Stripe.Event :=
  let sig := Server.stripe_signature req in
  stripe_constructEvent (Server.raw_body req) sig (STRIPE_WEBHOOK_SECRET env).

(** [app.post('/webhook', ...)] *)
Definition webhook (env : ProcessEnv) (req : Server.WebhookRequest) : M Response :=
  let! verified :=
    tryCatch
      (let! event := lift (verification env req) in
       ret (inr event))
      (fun err =>
         console_error ("Webhook signature verification failed: " ++ err) ;;;
         ret (inl (status_send 400 ("Webhook Error: " ++ err)))) in
  match verified with
  | inl response => ret response
  | inr event =>
      console_log ("Received webhook event: " ++ Stripe.type event) ;;;
      handle_event event ;;;
      ret (json (Json.Obj [("received", Json.Bool true)]))
  end.

End WithExternals.
End ServerBasic.

(** ** Admin controller *)
Module AdminController.
Import Db Eff Http Orm.

(** A field of [req.body]: absent, a string, or something else (an array
    or an object, described by its JSON value).  [address] is parsed when
    it is a string and used as it is when it is an object. *)
Inductive BodyValue : Type :=
| VUndefined
| VString (s : string)
| VObject (j : Json.t).

Definition value_truthy (v : BodyValue) : bool :=
  match v with
  | VUndefined => false
  | VString s => negb (String.eqb s "")
  | VObject _ => true
  end.

Definition value_to_json (v : BodyValue) : Json.t :=
  match v with
  | VUndefined => Json.Null
  | VString s => Json.Str s
  | VObject j => j
  end.

(** The body of a request whose eight text fields were each sent once or
    not at all, so that each is a string or [undefined].  The handler on
    any body the form parser can leave is [Multipart.addDoctor]; the two
    agree on these requests ([FormProps.addDoctor_on_text]). *)
Record AddDoctorBody : Type := mkAddDoctorBody {
  name : option string;
  email : option string;
  password : option string;
  speciality : option string;
  degree : option string;
  experience : option string;
  about : option string;
  fees : option string;
  address : BodyValue
}.

(** [req.file] as left by the upload middleware. *)
Record AddDoctorRequest : Type := mkAddDoctorRequest {
  add_body : AddDoctorBody;
  add_file : option Upload.StoredFile
}.

(** Answers of the outside world during one [addDoctor] call: the salt
    from [bcrypt.genSalt(10)], the [secure_url] of the image host, the
    clock and the [_id] given to the new document. *)
Record AddDoctorReplies : Type := mkAddDoctorReplies {
  reply_salt : string;
  reply_secure_url : string;
  reply_now : N;
  reply_new_id : string
}.

(** The string held by a value already known to be truthy. *)
Definition str (v : option string) : string := default "" v.

Section WithExternals.
Context `{Externals}.

(** [new doctorModel(doctorData)] *)
Definition new_doctor (new_id name email image password speciality degree
    experience about : string) (fees address : Json.t) (date : N) : Doctor :=
  mkDoctor new_id name email image password speciality degree experience about
    fees address date schema_default_slots.

Definition addDoctor_try (req : AddDoctorRequest) (replies : AddDoctorReplies) : M Response :=
    (let name := Js.cleanQuotes (name (add_body req)) in
     let email := Js.cleanQuotes (email (add_body req)) in
     let password := Js.cleanQuotes (password (add_body req)) in
     let speciality := Js.cleanQuotes (speciality (add_body req)) in
     let degree := Js.cleanQuotes (degree (add_body req)) in
     let experience := Js.cleanQuotes (experience (add_body req)) in
     let about := Js.cleanQuotes (about (add_body req)) in
     let fees := Js.cleanQuotes (fees (add_body req)) in
     let address := address (add_body req) in
     console_log "Cleaned data:" ;;;
     match add_file req with
     | None =>
         ret (status_json 400
                (Json.Obj [("success", Json.Bool false);
                           ("message", Json.Str "Image file is required")]))
     | Some file =>
     if negb (Js.truthy name) || negb (Js.truthy email) || negb (Js.truthy password)
        || negb (Js.truthy speciality) || negb (Js.truthy degree)
        || negb (Js.truthy experience) || negb (Js.truthy about)
        || negb (Js.truthy fees) || negb (value_truthy address)
     then
       ret (status_json 400
              (Json.Obj [("success", Json.Bool false);
                         ("message", Json.Str "Missing Details");
                         ("received",
                          Json.Obj [("name", Json.Bool (Js.truthy name));
                                    ("email", Json.Bool (Js.truthy email));
                                    ("password", Json.Bool (Js.truthy password));
                                    ("speciality", Json.Bool (Js.truthy speciality));
                                    ("degree", Json.Bool (Js.truthy degree));
                                    ("experience", Json.Bool (Js.truthy experience));
                                    ("about", Json.Bool (Js.truthy about));
                                    ("fees", Json.Bool (Js.truthy fees));
                                    ("address", Json.Bool (value_truthy address))])]))
     else if negb (validator_isEmail (str email))
     then
       ret (status_json 400
              (Json.Obj [("success", Json.Bool false);
                         ("message", Json.Str "Please enter a valid email");
                         ("receivedEmail", Json.Str (str email))]))
     else if N.of_nat (String.length (str password)) <? 8
     then
       ret (status_json 400
              (Json.Obj [("success", Json.Bool false);
                         ("message", Json.Str "Password must be at least 8 characters long")]))
     else
       let! existingDoctor :=
         findOne doctorModel (fun d => String.eqb (doc_email d) (str email)) in
       match existingDoctor with
       | Some _ =>
           ret (status_json 400
                  (Json.Obj [("success", Json.Bool false);
                             ("message", Json.Str "Doctor with this email already exists")]))
       | None =>
           (* bcrypt.genSalt, bcrypt.hash *)
           await_service ;;;
           let salt := reply_salt replies in
           await_service ;;;
           let hashedPassword := bcrypt_hash (str password) salt in
           (* cloudinary.uploader.upload; the local file is unlinked afterwards *)
           await_service ;;;
           let imageUrl := reply_secure_url replies in
           match
             match address with
             | VString s => JSON_parse s
             | other => Some (value_to_json other)
             end
           with
           | None =>
               ret (status_json 400
                      (Json.Obj [("success", Json.Bool false);
                                 ("message",
                                  Json.Str "Invalid address format. Please provide a valid JSON object");
                                 ("receivedAddress", value_to_json address)]))
           | Some parsedAddress =>
               let newDoctor :=
                 new_doctor (reply_new_id replies) (str name) (str email) imageUrl
                   hashedPassword (str speciality) (str degree) (str experience)
                   (str about) (js_Number (str fees)) parsedAddress (reply_now replies) in
               save doctorModel newDoctor ;;;
               ret (status_json 201
                      (Json.Obj [("success", Json.Bool true);
                                 ("message", Json.Str "Doctor added successfully");
                                 ("doctor",
                                  Json.Obj [("name", Json.Str (doc_name newDoctor));
                                            ("email", Json.Str (doc_email newDoctor));
                                            ("speciality", Json.Str (doc_speciality newDoctor));
                                            ("image", Json.Str (doc_image newDoctor))])]))
           end
       end
     end).

Definition addDoctor_catch (error : string) : M Response :=
  console_error ("Error in addDoctor: " ++ error) ;;;
  ret (status_json 500
         (Json.Obj [("success", Json.Bool false);
                    ("message", Json.Str "Internal server error");
                    ("error", Json.Str error)])).

Definition addDoctor (req : AddDoctorRequest) (replies : AddDoctorReplies) : M Response :=
  tryCatch (addDoctor_try req replies) addDoctor_catch.

(** [email + password] on two values that are strings or [undefined]:
    two [undefined] add up to [NaN], otherwise the values are concatenated
    as strings. *)
Definition plus (a b : option string) : string :=
  match a, b with
  | None, None => "NaN"
  | _, _ => show_opt a ++ show_opt b
  end.

Record LoginRequest : Type := mkLoginRequest {
  login_email : option string;
  login_password : option string;
  login_origin : option string
}.

Definition failure (code : N) (message : string) : Response :=
  status_json code (Json.Obj [("success", Json.Bool false); ("message", Json.Str message)]).

(** The [catch] block shared, word for word, by [loginAdmin], [allDoctors],
    [appointmentsAdmin] and [adminDashboard]:
    [console.log(error); res.json({ success: false, message: error.message })]. *)
Definition log_and_report (error : string) : M Response :=
  console_log error ;;;
  ret (json (Json.Obj [("success", Json.Bool false); ("message", Json.Str error)])).

Definition loginAdmin_try (env : ProcessEnv) (req : LoginRequest) : M Response :=
  let email := login_email req in
  let password := login_password req in
  if bool_decide (email = ADMIN_EMAIL env) && bool_decide (password = ADMIN_PASSWORD env)
  then
    let! token := lift (jwt_sign (plus email password) (JWT_SECRET env)) in
    ret (json (Json.Obj [("success", Json.Bool true); ("token", Json.Str token)]))
  else
    ret (json (Json.Obj [("success", Json.Bool false);
                         ("message", Json.Str "Invalid credentials")])).

Definition loginAdmin (env : ProcessEnv) (req : LoginRequest) : M Response :=
  console_log ("Admin login attempt from: " ++ show_opt (login_origin req)) ;;;
  tryCatch (loginAdmin_try env req) log_and_report.

(** [.select("-password")] on the documents of a query. *)
Definition select_without_password (l : list Doctor) : list Json.t :=
  List.map (fun d => Json.without "password" (doctor_to_json d)) l.

Definition allDoctors_try : M Response :=
  let! doctors := find doctorModel in
  ret (json (Json.Obj [("success", Json.Bool true);
                       ("doctors", Json.Arr (select_without_password doctors))])).

Definition allDoctors : M Response := tryCatch allDoctors_try log_and_report.

Definition appointmentsAdmin_try : M Response :=
  let! appointments := find appointmentModel in
  ret (json (Json.Obj [("success", Json.Bool true);
                       ("appointments", Json.Arr (List.map appointment_to_json appointments))])).

Definition appointmentsAdmin : M Response := tryCatch appointmentsAdmin_try log_and_report.

Record CancelRequest : Type := mkCancelRequest {
  cancel_userId : option string;
  cancel_appointmentId : option string
}.

Definition TypeError_filter : string :=
  "slots_booked[slotDate].filter is not a function".

(** [if (slots_booked[slotDate]) slots_booked[slotDate] =
    slots_booked[slotDate].filter(e => e !== slotTime)].  The lookup goes
    through the prototype chain: an own key gives its array, which is
    filtered; a name that is not an own key but is inherited gives a
    method or the prototype object, which is truthy and has no [filter],
    so the call throws a [TypeError]; any other name gives [undefined] and
    the table stays as it is. *)
Definition release_slot (slotDate slotTime : string) (slots_booked : Slots)
  : outcome Slots :=
  match slots_booked !! slotDate with
  | Some times =>
      Ok (<[slotDate := List.filter (fun e => negb (String.eqb e slotTime)) times]>
            slots_booked)
  | None =>
      if Js.inherited slotDate then Throw TypeError_filter else Ok slots_booked
  end.

Definition appointmentCancel_try (req : CancelRequest) : M Response :=
    (let userId := cancel_userId req in
     let appointmentId := cancel_appointmentId req in
     if negb (Js.truthy userId) || negb (Js.truthy appointmentId)
     then ret (failure 400 "Missing userId or appointmentId")
     else
       let! appointmentData := findById appointmentModel (str appointmentId) in
       match appointmentData with
       | None => ret (failure 404 "Appointment not found")
       | Some appointmentData =>
           if negb (Js.truthy (appt_userId appointmentData))
           then ret (failure 500 "Appointment data is corrupted")
           else if negb (String.eqb (str (appt_userId appointmentData)) (str userId))
           then ret (failure 403 "Unauthorized Action")
           else
             findByIdAndUpdate appointmentModel appointmentId (set_cancelled true) false ;;;
             (* Releasing doctor's time slot *)
             let docId := appt_docId appointmentData in
             let slotDate := appt_slotDate appointmentData in
             let slotTime := appt_slotTime appointmentData in
             let! doctorData := findById doctorModel docId in
             match doctorData with
             | None => ret (failure 404 "Doctor not found")
             | Some doctorData =>
                 let slots_booked := default ∅ (doc_slots_booked doctorData) in
                 let! slots_booked := lift (release_slot slotDate slotTime slots_booked) in
                 findByIdAndUpdate doctorModel (Some docId) (set_slots_booked slots_booked) false ;;;
                 ret (json (Json.Obj [("success", Json.Bool true);
                                      ("message", Json.Str "Appointment Cancelled")]))
             end
       end).

Definition appointmentCancel_catch (error : string) : M Response :=
  console_error ("Error in appointmentCancel: " ++ error) ;;;
  ret (failure 500 error).

Definition appointmentCancel (req : CancelRequest) : M Response :=
  tryCatch (appointmentCancel_try req) appointmentCancel_catch.

(** [appointments.reverse().slice(0, 5)] *)
Definition latest (appointments : list Appointment) : list Appointment :=
  List.firstn 5 (List.rev appointments).

Definition dashData (doctors : list Doctor) (users : list User)
    (appointments : list Appointment) : Json.t :=
  Json.Obj [("doctors", Json.Num (Z.of_nat (List.length doctors)));
            ("appointments", Json.Num (Z.of_nat (List.length appointments)));
            ("patients", Json.Num (Z.of_nat (List.length users)));
            ("latestAppointments",
             Json.Arr (List.map appointment_to_json (latest appointments)))].

Definition adminDashboard_try : M Response :=
  let! doctors := find doctorModel in
  let! users := find userModel in
  let! appointments := find appointmentModel in
  ret (json (Json.Obj [("success", Json.Bool true);
                       ("dashData", dashData doctors users appointments)])).

Definition adminDashboard : M Response := tryCatch adminDashboard_try log_and_report.

End WithExternals.
End AdminController.

(** ** Notions used in the statements *)
Module Spec.
Import Db Eff Http Orm.

(** No awaited call to an outside service throws during the run. *)
Definition quiet (w : World) : Prop := faults w = [].

(** The error, if any, that the next awaited call throws. *)
Definition next_call_throws (w : World) : option string :=
  match faults w with
  | Some e :: _ => Some e
  | _ => None
  end.

(** The world after a console line has been written. *)
Definition logged (s : Stream) (text : string) (w : World) : World :=
  mkWorld (db w) (console w ++ [(s, text)]) (faults w).

(** A JSON body of the shape [{ success: false, message }] carrying the
    given message. *)
Definition error_shape (message : string) (r : Response) : Prop :=
  body_get "success" r = Some (Json.Bool false) /\
  body_get "message" r = Some (Json.Str message).

(** An operation made of a [try] block and what surrounds it reports
    errors in that shape when every error thrown by the [try] block is
    answered, not rethrown, with a body of that shape carrying its
    message. *)
Definition reports_with_message (attempt operation : M Response) : Prop :=
  forall w e w1,
    attempt w = (Throw e, w1) ->
    exists r w2, operation w = (Ok r, w2) /\ error_shape e r.

(** The [try] block's error is caught, answered with [answer e], written
    to the console as [line e], and nothing else is done: the database and
    the remaining outside calls are as the [try] block left them. *)
Definition catches_with (attempt operation : M Response)
    (answer : string -> Response) (line : string -> Stream * string) : Prop :=
  forall w e w1,
    attempt w = (Throw e, w1) ->
    operation w = (Ok (answer e), mkWorld (db w1) (console w1 ++ [line e]) (faults w1)).

(** The operation always sends a response: no exception leaves it. *)
Definition always_responds (operation : M Response) : Prop :=
  forall w, exists r w', operation w = (Ok r, w').

(** The acknowledgement of a webhook: status 200 and [received: true]. *)
Definition acknowledged (r : Response) : Prop :=
  status r = 200 /\ body_get "received" r = Some (Json.Bool true).

(** Two appointments that differ at most in [payment]. *)
Definition same_but_payment (a b : Appointment) : Prop :=
  appt_id a = appt_id b /\ appt_userId a = appt_userId b /\
  appt_docId a = appt_docId b /\ appt_slotDate a = appt_slotDate b /\
  appt_slotTime a = appt_slotTime b /\ appt_cancelled a = appt_cancelled b /\
  appt_rest a = appt_rest b.

(** Two appointments that differ at most in [cancelled]. *)
Definition same_but_cancelled (a b : Appointment) : Prop :=
  appt_id a = appt_id b /\ appt_userId a = appt_userId b /\
  appt_docId a = appt_docId b /\ appt_slotDate a = appt_slotDate b /\
  appt_slotTime a = appt_slotTime b /\ appt_payment a = appt_payment b /\
  appt_rest a = appt_rest b.

(** Two doctors that differ at most in [slots_booked]. *)
Definition same_but_slots (d e : Doctor) : Prop :=
  set_slots_booked ∅ d = set_slots_booked ∅ e.

(** The document a collection holds under an [_id]. *)
Definition lookup_id {A : Type} (m : Model A) (id : string) (d : Database) : option A :=
  List.find (fun a => String.eqb (id_of m a) id) (coll m d).

(** The slot table of a doctor, [slots_booked || {}]. *)
Definition slots_of (d : Doctor) : Slots := default ∅ (doc_slots_booked d).

Section WithExternals.
Context `{Externals}.

(** The validation gates of [addDoctor], on the cleaned fields: a file is
    present, the nine required fields are non-empty, the email is valid,
    the password has at least 8 characters and no doctor has the email. *)
Definition file_present (req : AdminController.AddDoctorRequest) : bool :=
  match AdminController.add_file req with Some _ => true | None => false end.

Definition fields_present (b : AdminController.AddDoctorBody) : bool :=
  Js.truthy (Js.cleanQuotes (AdminController.name b)) &&
  Js.truthy (Js.cleanQuotes (AdminController.email b)) &&
  Js.truthy (Js.cleanQuotes (AdminController.password b)) &&
  Js.truthy (Js.cleanQuotes (AdminController.speciality b)) &&
  Js.truthy (Js.cleanQuotes (AdminController.degree b)) &&
  Js.truthy (Js.cleanQuotes (AdminController.experience b)) &&
  Js.truthy (Js.cleanQuotes (AdminController.about b)) &&
  Js.truthy (Js.cleanQuotes (AdminController.fees b)) &&
  AdminController.value_truthy (AdminController.address b).

Definition cleaned_email (b : AdminController.AddDoctorBody) : string :=
  AdminController.str (Js.cleanQuotes (AdminController.email b)).

Definition cleaned_password (b : AdminController.AddDoctorBody) : string :=
  AdminController.str (Js.cleanQuotes (AdminController.password b)).

Definition email_valid (b : AdminController.AddDoctorBody) : bool :=
  validator_isEmail (cleaned_email b).

Definition password_long_enough (b : AdminController.AddDoctorBody) : bool :=
  8 <=? N.of_nat (String.length (cleaned_password b)).

Definition email_unused (b : AdminController.AddDoctorBody) (d : Database) : bool :=
  forallb (fun doc => negb (String.eqb (doc_email doc) (cleaned_email b))) (doctors d).

(** The four gates that are decided without the database. *)
Definition static_gates (req : AdminController.AddDoctorRequest) : bool :=
  file_present req &&
  fields_present (AdminController.add_body req) &&
  email_valid (AdminController.add_body req) &&
  password_long_enough (AdminController.add_body req).

Definition passes_gates (req : AdminController.AddDoctorRequest) (d : Database) : bool :=
  file_present req &&
  fields_present (AdminController.add_body req) &&
  email_valid (AdminController.add_body req) &&
  password_long_enough (AdminController.add_body req) &&
  email_unused (AdminController.add_body req) d.

(** The database after the first write of [appointmentCancel]. *)
Definition after_cancel (aid : string) (d : Database) : Database :=
  mkDatabase (doctors d) (users d)
    (update_first (by_id appointmentModel (Some aid)) (set_cancelled true) (appointments d)).

(** The database after its second write, [slots] being the table that is
    written. *)
Definition after_release (aid : string) (a : Appointment) (slots : Slots)
    (d : Database) : Database :=
  mkDatabase
    (update_first (by_id doctorModel (Some (appt_docId a))) (set_slots_booked slots)
       (doctors d))
    (users d)
    (appointments (after_cancel aid d)).

End WithExternals.
End Spec.

(** ** Concrete data for the examples *)
Module Sample.
Import Db.

Definition has_at (s : string) : bool :=
  match String.index 0 "@" s with Some _ => true | None => false end.

Fixpoint after_last_dot (s : string) (acc : string) : string :=
  match s with
  | EmptyString => acc
  | String c s' =>
      if Ascii.eqb c "."%char then after_last_dot s' s else after_last_dot s' acc
  end.

Definition paid_event (appointment : option string) : Stripe.Event :=
  Stripe.mkEvent "checkout.session.completed"
    (Stripe.mkSession "cs_test_1" (Some (Stripe.mkMetadata appointment))).

Definition bare_event : Stripe.Event :=
  Stripe.mkEvent "checkout.session.completed" (Stripe.mkSession "cs_test_2" None).

Definition other_event : Stripe.Event :=
  Stripe.mkEvent "payment_intent.created" (Stripe.mkSession "pi_1" (Some (Stripe.mkMetadata None))).

(** A stand-in for the provider's check: the signature must be [t=1,v1=ok]
    and the secret [whsec_1]; the body selects the event. *)
Definition constructEvent (body : string) (sig secret : option string) : outcome Stripe.Event :=
  if bool_decide (sig = Some "t=1,v1=ok") && bool_decide (secret = Some "whsec_1")
  then
    if String.eqb body "paid a1" then Ok (paid_event (Some "a1"))
    else if String.eqb body "paid nobody" then Ok (paid_event (Some "zz"))
    else if String.eqb body "paid unmarked" then Ok (paid_event None)
    else if String.eqb body "paid bare" then Ok bare_event
    else Ok other_event
  else Throw "No signatures found matching the expected signature for payload".

Definition externals : Externals :=
  mkExternals
    has_at
    (fun password salt => salt ++ "." ++ Js.showN (N.of_nat (String.length password)))
    (fun s => if String.eqb s "{}" then Some (Json.Obj []) else None)
    (fun s => Json.Num (Z.of_nat (String.length s)))
    (fun s => after_last_dot s "")
    "/srv/backend/uploads"
    constructEvent
    (fun payload secret =>
       match secret with
       | Some k => Ok (payload ++ "." ++ k)
       | None => Throw "secretOrPrivateKey must have a value"
       end)
    false
    (Some ∅)
    (fun limit size => if limit <=? size then Some "File too large" else None)
    (fun _ => "Expected a string but received a Array")
    (fun _ => "Illegal arguments: object, string")
    (fun _ _ => false)
    (fun _ => Throw "doctor validation failed")
    (fun _ => Json.Null).

Definition env : ProcessEnv :=
  mkProcessEnv None (Some "whsec_1") (Some "admin@example.com") (Some "qwerty123") (Some "jwt").

Definition a1 : Appointment :=
  mkAppointment "a1" (Some "u1") "d1" "12_5_2025" "10:30" false false [].

Definition a2 : Appointment :=
  mkAppointment "a2" (Some "u1") "d9" "12_5_2025" "11:00" false false [].

Definition d1 : Doctor :=
  mkDoctor "d1" "Dr. A" "a@example.com" "https://img/a.png" "$2a$10$abc" "Dermatologist"
    "MBBS" "4 Years" "About" (Json.Num 50) (Json.Obj []) 1700000000000
    (Some (<["12_5_2025" := ["10:00"; "10:30"; "11:00"; "10:30"] ]>
             (<["13_5_2025" := ["10:30"] ]> ∅))).

Definition d1' : Doctor := set_password "$2a$10$xyz" d1.

Definition db0 : Database := mkDatabase [d1] [mkUser "u1" []] [a1; a2].
Definition db0' : Database := mkDatabase [d1'] [mkUser "u1" []] [a1; a2].

Definition world0 : World := mkWorld db0 [] [].

(** An appointment whose date key is a name every object inherits. *)
Definition a3 : Appointment :=
  mkAppointment "a3" (Some "u1") "d1" "constructor" "10:30" false false [].

Definition world_odd : World :=
  mkWorld (mkDatabase [d1] [mkUser "u1" []] [a3]) [] [].
Definition world0' : World := mkWorld db0' [] [].

(** A world in which the next awaited call throws. *)
Definition world_down : World := mkWorld db0 [] [Some "connection lost"].

(** Seven bookings, stored in the order 1 to 7. *)
Definition booking (n : N) : Appointment :=
  mkAppointment ("b" ++ Js.showN n) (Some "u1") "d1" "14_5_2025" (Js.showN n ++ ":00")
    false false [].

Definition busy_world : World :=
  mkWorld (mkDatabase [d1] [mkUser "u1" []; mkUser "u2" []]
             (List.map booking [1; 2; 3; 4; 5; 6; 7])) [] [].

Definition signed (body : string) : Server.WebhookRequest :=
  Server.mkWebhookRequest body (Some "t=1,v1=ok").

Definition forged : Server.WebhookRequest :=
  Server.mkWebhookRequest "paid a1" (Some "t=1,v1=bad").

Definition image : Upload.File := Upload.mkFile "image" "portrait.final.png" "image/png" 4096.

Definition new_doctor_request : AdminController.AddDoctorRequest :=
  AdminController.mkAddDoctorRequest
    (AdminController.mkAddDoctorBody (Some "Dr. B") (Some "b@example.com")
       (Some "longpassword") (Some "Neurologist") (Some "MD") (Some "2 Years")
       (Some "About B") (Some "80") (AdminController.VString "{}"))
    (Some (Upload.mkStored "/srv/backend/uploads" "image-1-2.png")).

Definition short_password_request : AdminController.AddDoctorRequest :=
  AdminController.mkAddDoctorRequest
    (AdminController.mkAddDoctorBody (Some "Dr. B") (Some "b@example.com")
       (Some "short") (Some "Neurologist") (Some "MD") (Some "2 Years")
       (Some "About B") (Some "80") (AdminController.VString "{}"))
    (Some (Upload.mkStored "/srv/backend/uploads" "image-1-2.png")).

Definition bad_address_request : AdminController.AddDoctorRequest :=
  AdminController.mkAddDoctorRequest
    (AdminController.mkAddDoctorBody (Some "Dr. B") (Some "b@example.com")
       (Some "longpassword") (Some "Neurologist") (Some "MD") (Some "2 Years")
       (Some "About B") (Some "80") (AdminController.VString "line 1, line 2"))
    (Some (Upload.mkStored "/srv/backend/uploads" "image-1-2.png")).

Definition replies : AdminController.AddDoctorReplies :=
  AdminController.mkAddDoctorReplies "$2a$10$salt" "https://img/b.png" 1700000000500 "d2".

End Sample.

(** ** Cross-origin policy of the entry point that checks the secret *)
Module Cors.
Import Db Eff.

Definition allowedOrigins : list string :=
  [ "http://localhost:5173";
    "http://localhost:5174";
    "https://doctor-appointment-frontend-eta.vercel.app" ].

(** [allowedOrigins.indexOf(origin) === -1] *)
Definition not_listed (origin : string) : bool :=
  negb (existsb (String.eqb origin) allowedOrigins).

(** The [origin] function given to the cors middleware: [callback(null,
    true)] is [Ok true], [callback(new Error(..))] is a thrown error. *)
Definition origin (origin : option string) : M bool :=
  if negb (Js.truthy origin)
  then ret true
  else if not_listed (default "" origin)
  then
    console_log ("CORS blocked for origin: " ++ show_opt origin) ;;;
    throw "Not allowed by CORS"
  else
    console_log ("CORS allowed for origin: " ++ show_opt origin) ;;;
    ret true.

End Cors.

(** ** Further notions used in the statements *)
Module Laws.
Import Db Eff Http Orm Spec.

Definition dash : ascii := "-"%char.

Fixpoint has_dash (s : string) : bool :=
  match s with
  | EmptyString => false
  | String c s' => Ascii.eqb c dash || has_dash s'
  end.

Definition starts_with (p : ascii -> bool) (s : string) : bool :=
  match s with
  | EmptyString => false
  | String c _ => p c
  end.

Fixpoint ends_with (p : ascii -> bool) (s : string) : bool :=
  match s with
  | EmptyString => false
  | String c EmptyString => p c
  | String _ s' => ends_with p s'
  end.

Fixpoint all_chars (p : ascii -> bool) (s : string) : bool :=
  match s with
  | EmptyString => true
  | String c s' => p c && all_chars p s'
  end.

Definition is_quote (c : ascii) : bool := Ascii.eqb c Js.dquote.

(** No white space at either end. *)
Definition trimmed (s : string) : Prop :=
  starts_with Js.is_space s = false /\ ends_with Js.is_space s = false.

(** No two doctors share an email. *)
Definition emails_unique (d : Database) : Prop :=
  NoDup (List.map doc_email (doctors d)).

(** An appointment after a webhook: the same but for [payment], which is
    never cleared. *)
Definition payment_only_set (a b : Appointment) : Prop :=
  same_but_payment a b /\ (appt_payment a = true -> appt_payment b = true).

(** A doctor and an appointment after a cancellation. *)
Definition cancelled_only_set (a b : Appointment) : Prop :=
  same_but_cancelled a b /\ (appt_cancelled a = true -> appt_cancelled b = true).

Section WithExternals.
Context `{Externals}.

(** The database with the targeted appointment marked as paid; [None]
    is "no update". *)
Definition mark_paid (target : option (option string)) (d : Database) : Database :=
  match target with
  | None => d
  | Some id =>
      mkDatabase (doctors d) (users d)
        (update_first (by_id appointmentModel id) (set_payment true) (appointments d))
  end.

(** The update a request asks of each webhook handler, read off the
    request alone. *)
Definition guarded_target (env : ProcessEnv) (req : Server.WebhookRequest)
  : option (option string) :=
  match Server.verification env req with
  | Throw _ => None
  | Ok event =>
      if String.eqb (Stripe.type event) "checkout.session.completed"
      then match Stripe.metadata (Stripe.data_object event) with
           | Some md =>
               if Js.truthy (Stripe.appointmentId md)
               then Some (Stripe.appointmentId md) else None
           | None => None
           end
      else None
  end.

Definition basic_target (env : ProcessEnv) (req : Server.WebhookRequest)
  : option (option string) :=
  match ServerBasic.verification env req with
  | Throw _ => None
  | Ok event =>
      if String.eqb (Stripe.type event) "checkout.session.completed"
      then match Stripe.metadata (Stripe.data_object event) with
           | Some md => Some (Stripe.appointmentId md)
           | None => None
           end
      else None
  end.

(** The database a cancellation request leads to when no outside call
    fails (shown to be what [appointmentCancel] does in
    [OrderProps.cancel_effect_spec]). *)
Definition cancel_effect (req : AdminController.CancelRequest) (d : Database) : Database :=
  match AdminController.cancel_userId req, AdminController.cancel_appointmentId req with
  | Some uid, Some aid =>
      if negb (String.eqb uid "") && negb (String.eqb aid "")
      then
        match lookup_id appointmentModel aid d with
        | Some a =>
            if bool_decide (appt_userId a = Some uid)
            then
              match lookup_id doctorModel (appt_docId a) d with
              | Some doctor =>
                  match AdminController.release_slot (appt_slotDate a) (appt_slotTime a)
                          (slots_of doctor) with
                  | Ok slots => after_release aid a slots d
                  | Throw _ => after_cancel aid d
                  end
              | None => after_cancel aid d
              end
            else d
        | None => d
        end
      else d
  | _, _ => d
  end.

(** [typeof address === "string" ? JSON.parse(address) : address], with
    [None] for a [SyntaxError]. *)
Definition parsed_address (v : AdminController.BodyValue) : option Json.t :=
  match v with
  | AdminController.VString s => JSON_parse s
  | other => Some (AdminController.value_to_json other)
  end.

(** The document [addDoctor] saves for a request that passed the gates. *)
Definition created_doctor (req : AdminController.AddDoctorRequest)
    (replies : AdminController.AddDoctorReplies) (parsedAddress : Json.t) : Doctor :=
  let b := AdminController.add_body req in
  AdminController.new_doctor (AdminController.reply_new_id replies)
    (AdminController.str (Js.cleanQuotes (AdminController.name b)))
    (cleaned_email b)
    (AdminController.reply_secure_url replies)
    (bcrypt_hash (cleaned_password b) (AdminController.reply_salt replies))
    (AdminController.str (Js.cleanQuotes (AdminController.speciality b)))
    (AdminController.str (Js.cleanQuotes (AdminController.degree b)))
    (AdminController.str (Js.cleanQuotes (AdminController.experience b)))
    (AdminController.str (Js.cleanQuotes (AdminController.about b)))
    (js_Number (AdminController.str (Js.cleanQuotes (AdminController.fees b))))
    parsedAddress
    (AdminController.reply_now replies).

End WithExternals.
End Laws.

(** ** [addDoctor] on any body the form parser can leave *)
Module Multipart.
Import Db Eff Http Orm.
Import AdminController (BodyValue, VUndefined, VString, VObject, value_truthy, value_to_json,
                        AddDoctorReplies, reply_salt, reply_secure_url, reply_now,
                        reply_new_id, new_doctor, addDoctor_catch).

(** [req.body] after the upload middleware.  A field that was sent once is
    a string and a field that was not sent is [undefined]; a field that was
    sent several times, or with brackets in its name, is an array or an
    object ([VObject]).  [AdminController.AddDoctorBody] is the case in
    which the eight text fields are strings or absent. *)
Record Body : Type := mkBody {
  name : BodyValue;
  email : BodyValue;
  password : BodyValue;
  speciality : BodyValue;
  degree : BodyValue;
  experience : BodyValue;
  about : BodyValue;
  fees : BodyValue;
  address : BodyValue
}.

Record Request : Type := mkRequest {
  body : Body;
  file : option Upload.StoredFile
}.

Definition of_option (v : option string) : BodyValue :=
  match v with
  | Some s => VString s
  | None => VUndefined
  end.

(** A request whose text fields are strings or absent, as a request. *)
Definition of_text (req : AdminController.AddDoctorRequest) : Request :=
  let b := AdminController.add_body req in
  mkRequest
    (mkBody (of_option (AdminController.name b)) (of_option (AdminController.email b))
       (of_option (AdminController.password b)) (of_option (AdminController.speciality b))
       (of_option (AdminController.degree b)) (of_option (AdminController.experience b))
       (of_option (AdminController.about b)) (of_option (AdminController.fees b))
       (AdminController.address b))
    (AdminController.add_file req).

(** The same request with another password field. *)
Definition with_password (v : BodyValue) (req : Request) : Request :=
  let b := body req in
  mkRequest
    (mkBody (name b) (email b) v (speciality b) (degree b) (experience b) (about b)
       (fees b) (address b))
    (file req).

(** [typeof v === "string"], or the field is absent. *)
Definition is_text (v : BodyValue) : bool :=
  match v with
  | VObject _ => false
  | _ => true
  end.

(** [cleanQuotes] on any value:
    [if (typeof str !== "string") return str;
     return str.replace(/^"|"$/g, "").trim();]
    with [Js.cleanQuotes] for what is done to a string. *)
Definition cleanQuotes (str : BodyValue) : BodyValue :=
  match str with
  | VString s => of_option (Js.cleanQuotes (Some s))
  | other => other
  end.

Definition TypeError_length : string :=
  "Cannot read properties of undefined (reading 'length')".

Section WithExternals.
Context `{Externals}.

(** [validator.isEmail(email)]: the library throws a [TypeError] for a
    value that is not a string. *)
Definition isEmail (email : BodyValue) : outcome bool :=
  match email with
  | VString s => Ok (validator_isEmail s)
  | other => Throw (validator_not_a_string (value_to_json other))
  end.

(** [v.length < n]: the number of code units of a string, the number of
    elements of an array. *)
Definition length_below (v : BodyValue) (n : N) : outcome bool :=
  match v with
  | VString s => Ok (N.of_nat (String.length s) <? n)
  | VObject (Json.Arr l) => Ok (N.of_nat (List.length l) <? n)
  | VObject other => Ok (js_length_below other n)
  | VUndefined => Throw TypeError_length
  end.

(** The filter [{ email }]; the handler reaches it with a string only. *)
Definition by_email (email : BodyValue) (d : Doctor) : bool :=
  match email with
  | VString s => String.eqb (doc_email d) s
  | _ => false
  end.

(** [bcrypt.hash(password, salt)]: the library rejects a password that is
    not a string. *)
Definition hash (password : BodyValue) (salt : string) : outcome string :=
  match password with
  | VString s => Ok (bcrypt_hash s salt)
  | other => Throw (bcrypt_not_a_string (value_to_json other))
  end.

(** The value of a String path of [new doctorModel(doctorData)]; a value
    that cannot be cast makes [save] reject before anything is written. *)
Definition cast_String (v : BodyValue) : outcome string :=
  match v with
  | VString s => Ok s
  | other => orm_cast_String (value_to_json other)
  end.

(** [Number(fees)] *)
Definition Number (v : BodyValue) : Json.t :=
  match v with
  | VString s => js_Number s
  | other => js_Number_of (value_to_json other)
  end.

(** [typeof address === "string" ? JSON.parse(address) : address], with
    [None] for a [SyntaxError]. *)
Definition parse (address : BodyValue) : option Json.t :=
  match address with
  | VString s => JSON_parse s
  | other => Some (value_to_json other)
  end.

Definition addDoctor_try (req : Request) (replies : AddDoctorReplies) : M Response :=
    (let name := cleanQuotes (name (body req)) in
     let email := cleanQuotes (email (body req)) in
     let password := cleanQuotes (password (body req)) in
     let speciality := cleanQuotes (speciality (body req)) in
     let degree := cleanQuotes (degree (body req)) in
     let experience := cleanQuotes (experience (body req)) in
     let about := cleanQuotes (about (body req)) in
     let fees := cleanQuotes (fees (body req)) in
     let address := address (body req) in
     console_log "Cleaned data:" ;;;
     match file req with
     | None =>
         ret (status_json 400
                (Json.Obj [("success", Json.Bool false);
                           ("message", Json.Str "Image file is required")]))
     | Some file =>
     if negb (value_truthy name) || negb (value_truthy email)
        || negb (value_truthy password) || negb (value_truthy speciality)
        || negb (value_truthy degree) || negb (value_truthy experience)
        || negb (value_truthy about) || negb (value_truthy fees)
        || negb (value_truthy address)
     then
       ret (status_json 400
              (Json.Obj [("success", Json.Bool false);
                         ("message", Json.Str "Missing Details");
                         ("received",
                          Json.Obj [("name", Json.Bool (value_truthy name));
                                    ("email", Json.Bool (value_truthy email));
                                    ("password", Json.Bool (value_truthy password));
                                    ("speciality", Json.Bool (value_truthy speciality));
                                    ("degree", Json.Bool (value_truthy degree));
                                    ("experience", Json.Bool (value_truthy experience));
                                    ("about", Json.Bool (value_truthy about));
                                    ("fees", Json.Bool (value_truthy fees));
                                    ("address", Json.Bool (value_truthy address))])]))
     else
       let! valid := lift (isEmail email) in
       if negb valid
       then
         ret (status_json 400
                (Json.Obj [("success", Json.Bool false);
                           ("message", Json.Str "Please enter a valid email");
                           ("receivedEmail", value_to_json email)]))
       else
       let! short := lift (length_below password 8) in
       if short
       then
         ret (status_json 400
                (Json.Obj [("success", Json.Bool false);
                           ("message",
                            Json.Str "Password must be at least 8 characters long")]))
       else
         let! existingDoctor := findOne doctorModel (by_email email) in
         match existingDoctor with
         | Some _ =>
             ret (status_json 400
                    (Json.Obj [("success", Json.Bool false);
                               ("message",
                                Json.Str "Doctor with this email already exists")]))
         | None =>
             (* bcrypt.genSalt, bcrypt.hash *)
             await_service ;;;
             let salt := reply_salt replies in
             await_service ;;;
             let! hashedPassword := lift (hash password salt) in
             (* cloudinary.uploader.upload; the local file is unlinked afterwards *)
             await_service ;;;
             let imageUrl := reply_secure_url replies in
             match parse address with
             | None =>
                 ret (status_json 400
                        (Json.Obj [("success", Json.Bool false);
                                   ("message",
                                    Json.Str "Invalid address format. Please provide a valid JSON object");
                                   ("receivedAddress", value_to_json address)]))
             | Some parsedAddress =>
                 (* new doctorModel(doctorData); newDoctor.save() *)
                 let! name := lift (cast_String name) in
                 let! email := lift (cast_String email) in
                 let! speciality := lift (cast_String speciality) in
                 let! degree := lift (cast_String degree) in
                 let! experience := lift (cast_String experience) in
                 let! about := lift (cast_String about) in
                 let newDoctor :=
                   new_doctor (reply_new_id replies) name email imageUrl hashedPassword
                     speciality degree experience about (Number fees) parsedAddress
                     (reply_now replies) in
                 save doctorModel newDoctor ;;;
                 ret (status_json 201
                        (Json.Obj [("success", Json.Bool true);
                                   ("message", Json.Str "Doctor added successfully");
                                   ("doctor",
                                    Json.Obj [("name", Json.Str (doc_name newDoctor));
                                              ("email", Json.Str (doc_email newDoctor));
                                              ("speciality",
                                               Json.Str (doc_speciality newDoctor));
                                              ("image", Json.Str (doc_image newDoctor))])]))
             end
         end
     end).

Definition addDoctor (req : Request) (replies : AddDoctorReplies) : M Response :=
  tryCatch (addDoctor_try req replies) addDoctor_catch.

(** The gates, on the cleaned fields: nine fields are non-empty; the email
    is a string that the validator accepts; the password is a string of
    at least 8 characters; no doctor has the email. *)
Definition fields_present (b : Body) : bool :=
  value_truthy (cleanQuotes (name b)) &&
  value_truthy (cleanQuotes (email b)) &&
  value_truthy (cleanQuotes (password b)) &&
  value_truthy (cleanQuotes (speciality b)) &&
  value_truthy (cleanQuotes (degree b)) &&
  value_truthy (cleanQuotes (experience b)) &&
  value_truthy (cleanQuotes (about b)) &&
  value_truthy (cleanQuotes (fees b)) &&
  value_truthy (address b).

Definition email_valid (b : Body) : bool :=
  match cleanQuotes (email b) with
  | VString s => validator_isEmail s
  | _ => false
  end.

Definition password_long_enough (b : Body) : bool :=
  match cleanQuotes (password b) with
  | VString s => 8 <=? N.of_nat (String.length s)
  | _ => false
  end.

Definition email_unused (b : Body) (d : Database) : bool :=
  forallb (fun doc => negb (by_email (cleanQuotes (email b)) doc)) (doctors d).

Definition static_gates (req : Request) : bool :=
  match file req with Some _ => true | None => false end &&
  fields_present (body req) &&
  email_valid (body req) &&
  password_long_enough (body req).

Definition passes_gates (req : Request) (d : Database) : bool :=
  static_gates req && email_unused (body req) d.

End WithExternals.
End Multipart.

(** ** Sample forms *)
Module FormSample.
Import AdminController (BodyValue, VUndefined, VString, VObject).

Definition quoted (s : string) : string := String Js.dquote (s ++ String Js.dquote "").

Definition form (email password : BodyValue) : Multipart.Request :=
  Multipart.mkRequest
    (Multipart.mkBody (VString "Dr. B") email password (VString "Neurologist")
       (VString "MD") (VString "2 Years") (VString "About B") (VString "80")
       (VString "{}"))
    (Some (Upload.mkStored "/srv/backend/uploads" "image-1-2.png")).

(** Every field sent once; the password in double quotes, with blanks
    inside them. *)
Definition quoted_password : Multipart.Request :=
  form (VString "b@example.com") (VString (quoted " longpassword ")).

(** The email field sent twice: the form parser leaves an array. *)
Definition repeated_email : Multipart.Request :=
  form (VObject (Json.Arr [Json.Str "b@example.com"; Json.Str "c@example.com"]))
    (VString "longpassword").

(** The library stand-ins of [Sample.externals] with a hash that ignores
    the password. *)
Definition blind : Externals :=
  mkExternals
    (@validator_isEmail Sample.externals)
    (fun _ salt => salt)
    (@JSON_parse Sample.externals)
    (@js_Number Sample.externals)
    (@path_extname Sample.externals)
    (@uploadsDir Sample.externals)
    (@stripe_constructEvent Sample.externals)
    (@jwt_sign Sample.externals)
    (@orm_undefined_id_is_any Sample.externals)
    (@schema_default_slots Sample.externals)
    (@multer_fileSize Sample.externals)
    (@validator_not_a_string Sample.externals)
    (@bcrypt_not_a_string Sample.externals)
    (@js_length_below Sample.externals)
    (@orm_cast_String Sample.externals)
    (@js_Number_of Sample.externals).

End FormSample.

(** * Properties *)

(** ** Strings and lists *)
Module Facts.
Import Db Eff Http Orm Spec.

Lemma prefix_app (p s : string) :
  String.prefix p s = true <-> exists rest, s = p ++ rest.
Proof.
  revert s. induction p as [|c p IH]; intros [|c' s]; simpl.
  - split; [intros _; exists ""; reflexivity | reflexivity].
  - split; [intros _; exists (String c' s); reflexivity | reflexivity].
  - split; [discriminate | intros [rest Hr]; discriminate].
  - destruct (Ascii.ascii_dec c c') as [->|Hne].
    + rewrite IH. split; intros [rest Hr]; exists rest.
      * now rewrite Hr.
      * now injection Hr.
    + split; [discriminate | intros [rest Hr]; injection Hr; congruence].
Qed.

Lemma append_assoc (a b c : string) : (a ++ b) ++ c = a ++ (b ++ c).
Proof.
  induction a as [|x a IH]; [reflexivity|].
  change (String x ((a ++ b) ++ c) = String x (a ++ (b ++ c))). now rewrite IH.
Qed.

Lemma filter_keeps_order {A : Type} (f : A -> bool) (l : list A) :
  sublist (List.filter f l) l.
Proof.
  induction l as [|a l IH]; simpl.
  - constructor.
  - destruct (f a); now constructor.
Qed.

Lemma filter_drops (slotTime : string) (times : list string) :
  slotTime ∉ List.filter (fun e => negb (String.eqb e slotTime)) times.
Proof.
  rewrite list_elem_of_In, List.filter_In. intros [_ Hneq].
  now rewrite String.eqb_refl in Hneq.
Qed.

Lemma filter_keeps_others (slotTime e : string) (times : list string) :
  e <> slotTime ->
  count_occ string_dec (List.filter (fun x => negb (String.eqb x slotTime)) times) e
  = count_occ string_dec times e.
Proof.
  intros Hne. induction times as [|x times IH]; simpl; [reflexivity|].
  destruct (String.eqb_spec x slotTime) as [->|Hx]; simpl.
  - destruct (string_dec slotTime e); [congruence | exact IH].
  - destruct (string_dec x e); now rewrite IH.
Qed.

(** The first match of a filter is the only element [update_first]
    replaces. *)
Lemma update_first_insert {A : Type} (p : A -> bool) (f : A -> A) (l : list A) (a : A) :
  List.find p l = Some a ->
  exists i : nat, l !! i = Some a /\ update_first p f l = <[i := f a]> l.
Proof.
  induction l as [|b l IH]; simpl; [discriminate|].
  destruct (p b) eqn:Hb.
  - intros [= ->]. now exists 0%nat.
  - intros Hf. destruct (IH Hf) as (i & Hi & Hu).
    exists (S i). simpl. now rewrite Hu.
Qed.

Lemma latest_is_reversed_tail (l : list Appointment) :
  AdminController.latest l
  = List.rev (List.skipn (List.length l - Nat.min 5 (List.length l)) l).
Proof.
  unfold AdminController.latest. rewrite List.firstn_rev. do 2 f_equal. lia.
Qed.

Lemma latest_length (l : list Appointment) :
  List.length (AdminController.latest l) = Nat.min 5 (List.length l).
Proof.
  unfold AdminController.latest. now rewrite List.length_firstn, List.length_rev.
Qed.

Lemma await_quiet (w : World) : quiet w -> await_service w = (Ok tt, w).
Proof. unfold quiet, await_service. now intros ->. Qed.

Lemma password_not_serialised (d : Doctor) :
  Json.get "password" (Json.without "password" (doctor_to_json d)) = None.
Proof. destruct d as [? ? ? ? ? ? ? ? ? ? ? ? [s|]]; reflexivity. Qed.

Lemma password_not_read (d : Doctor) (p : string) :
  Json.without "password" (doctor_to_json (set_password p d))
  = Json.without "password" (doctor_to_json d).
Proof. destruct d as [? ? ? ? ? ? ? ? ? ? ? ? [s|]]; reflexivity. Qed.

Lemma map_through {A B : Type} (f : A -> A) (g : A -> B) (l1 l2 : list A) :
  (forall a, g (f a) = g a) ->
  List.map f l1 = List.map f l2 -> List.map g l1 = List.map g l2.
Proof.
  intros Hg Hm.
  rewrite <- (List.map_ext _ _ Hg l1), <- (List.map_ext _ _ Hg l2).
  rewrite <- (List.map_map f g l1), <- (List.map_map f g l2). now rewrite Hm.
Qed.

Lemma select_ignores_passwords (l1 l2 : list Doctor) :
  List.map (set_password "") l1 = List.map (set_password "") l2 ->
  AdminController.select_without_password l1 = AdminController.select_without_password l2.
Proof.
  apply map_through. intros d. apply password_not_read.
Qed.

End Facts.

(** ** The upload middleware *)
Module UploadProps.

(** C7.  The file filter accepts a file exactly when its mimetype starts
    with "image/" and rejects every other file with an error; the size
    limit handed to the library is 1024*1024*5 bytes (5 MB); a file is
    stored exactly when the filter accepts it and the library lets its
    length through under that limit, and then in the uploads directory
    under fieldname-<timestamp>-<random> followed by the extension of the
    original name; with a library that aborts every upload longer than the
    limit it is given, no file of more than 5 MB is stored. *)
Theorem upload_accepts_images_only `{Externals} (now rnd : N) (file : Upload.File) :
  (Upload.fileFilter file = Upload.Accept
   <-> exists rest, Upload.mimetype file = "image/" ++ rest)
  /\ (Upload.fileFilter file = Upload.Accept
      \/ Upload.fileFilter file = Upload.Reject "Not an image! Please upload an image.")
  /\ Upload.limits_fileSize = 5 * (1024 * 1024)
  /\ Upload.limits_fileSize = 5242880
  /\ (forall stored,
        Upload.upload now rnd file = Ok stored
        <-> (exists rest, Upload.mimetype file = "image/" ++ rest)
            /\ multer_fileSize 5242880 (Upload.size file) = None
            /\ stored =
               Upload.mkStored uploadsDir
                 (Upload.fieldname file ++ "-" ++ Js.showN now ++ "-" ++ Js.showN rnd
                  ++ path_extname (Upload.originalname file)))
  /\ ((forall limit size, limit < size -> multer_fileSize limit size <> None) ->
      5242880 < Upload.size file ->
      exists e, Upload.upload now rnd file = Throw e).
Proof.
  assert (Hacc : Upload.fileFilter file = Upload.Accept
                 <-> exists rest, Upload.mimetype file = "image/" ++ rest).
  { rewrite <- Facts.prefix_app. unfold Upload.fileFilter, Js.startsWith.
    destruct (String.prefix "image/" (Upload.mimetype file)); split; congruence. }
  split; [exact Hacc|]. split.
  { unfold Upload.fileFilter. destruct (Js.startsWith _ _); auto. }
  split; [reflexivity|]. split; [reflexivity|]. split.
  - intros stored. rewrite <- Hacc.
    unfold Upload.upload, Upload.filename, Upload.destination.
    change Upload.limits_fileSize with 5242880.
    destruct (Upload.fileFilter file) eqn:Hf.
    + destruct (multer_fileSize 5242880 (Upload.size file)) as [e|] eqn:Hsize.
      * split; [discriminate | intros (_ & Hs & _); discriminate].
      * split.
        -- intros [= <-]. repeat split.
           f_equal. cbn zeta. now rewrite !Facts.append_assoc.
        -- intros (_ & _ & ->). f_equal. f_equal. cbn zeta.
           now rewrite !Facts.append_assoc.
    + split; [discriminate | intros (Hc & _); discriminate].
  - intros Hlib Hlong. unfold Upload.upload.
    change Upload.limits_fileSize with 5242880.
    destruct (Upload.fileFilter file) as [|e]; [|now exists e].
    destruct (multer_fileSize 5242880 (Upload.size file)) as [e|] eqn:Hsize;
      [now exists e|].
    now destruct (Hlib _ _ Hlong).
Qed.

Lemma upload_accepts_images_only_witness :
  (forall limit size, limit < size -> @multer_fileSize Sample.externals limit size <> None)
  /\ exists e,
       @Upload.upload Sample.externals 1700000000123 42
         (Upload.mkFile "image" "big.png" "image/png" 5242881) = Throw e.
Proof.
  assert (Hlib : forall limit size,
             limit < size -> @multer_fileSize Sample.externals limit size <> None).
  { intros limit size Hlt. cbn. destruct (N.leb_spec limit size); [discriminate | lia]. }
  split; [exact Hlib|].
  exact (proj2 (proj2 (proj2 (proj2 (proj2
           (@upload_accepts_images_only Sample.externals 1700000000123 42
              (Upload.mkFile "image" "big.png" "image/png" 5242881))))))
           Hlib ltac:(reflexivity)).
Defined.

End UploadProps.

(** ** The admin listing and the dashboard *)
Module AdminReadProps.
Import Db Eff Http Spec.

(** C10.  When no database call fails, the dashboard response carries the
    three collection sizes, and latestAppointments is the last min(5, n)
    elements of the appointments query result, most recently stored
    first; it never has more than 5 entries. *)
Theorem adminDashboard_counts_and_latest (w : World) :
  quiet w ->
  let d := db w in
  let n := List.length (appointments d) in
  let latestAppointments := List.rev (List.skipn (n - Nat.min 5 n) (appointments d)) in
  AdminController.adminDashboard w =
    (Ok (json
           (Json.Obj
              [("success", Json.Bool true);
               ("dashData",
                Json.Obj
                  [("doctors", Json.Num (Z.of_nat (List.length (doctors d))));
                   ("appointments", Json.Num (Z.of_nat n));
                   ("patients", Json.Num (Z.of_nat (List.length (users d))));
                   ("latestAppointments",
                    Json.Arr (List.map appointment_to_json latestAppointments))])])),
     w)
  /\ List.length latestAppointments = Nat.min 5 n
  /\ (List.length latestAppointments <= 5)%nat.
Proof.
  intros Hq d n latestAppointments.
  assert (Hl : latestAppointments = AdminController.latest (appointments d)).
  { symmetry. apply Facts.latest_is_reversed_tail. }
  split.
  - rewrite Hl.
    unfold AdminController.adminDashboard, AdminController.adminDashboard_try,
      tryCatch, Orm.find, bind.
    rewrite !(Facts.await_quiet w Hq). reflexivity.
  - rewrite Hl, Facts.latest_length. split; [reflexivity | lia].
Qed.

Lemma adminDashboard_counts_and_latest_witness :
  quiet Sample.busy_world /\
  body_get "dashData"
    (mkResponse 200
       (match fst (AdminController.adminDashboard Sample.busy_world) with
        | Ok r => body r
        | Throw e => Text e
        end))
  = Some (Json.Obj
            [("doctors", Json.Num 1); ("appointments", Json.Num 7); ("patients", Json.Num 2);
             ("latestAppointments",
              Json.Arr (List.map appointment_to_json
                          (List.map Sample.booking [7; 6; 5; 4; 3])))]).
Proof.
  split; [reflexivity|].
  destruct (adminDashboard_counts_and_latest Sample.busy_world eq_refl)
    as [Hrun _].
  rewrite Hrun. reflexivity.
Defined.

(** C9.  The doctors array answered by allDoctors has no password field
    in any of its documents, and two databases that differ only in the
    doctors' passwords get the same response. *)
Theorem allDoctors_hides_passwords (w1 w2 : World) :
  List.map (set_password "") (doctors (db w1)) = List.map (set_password "") (doctors (db w2)) ->
  faults w1 = faults w2 ->
  fst (AdminController.allDoctors w1) = fst (AdminController.allDoctors w2)
  /\ (forall r l,
        fst (AdminController.allDoctors w1) = Ok r ->
        body_get "doctors" r = Some (Json.Arr l) ->
        Forall (fun j => Json.get "password" j = None) l).
Proof.
  intros Hd Hf.
  unfold AdminController.allDoctors, AdminController.allDoctors_try,
    AdminController.log_and_report, tryCatch, Orm.find, bind, await_service, console_log,
    console_write, ret.
  rewrite <- Hf. split.
  - destruct (faults w1) as [|[e|] rest]; simpl; try reflexivity;
      now rewrite (Facts.select_ignores_passwords _ _ Hd).
  - intros r l Hr Hl.
    assert (Hall : Forall (fun j => Json.get "password" j = None)
                     (AdminController.select_without_password (doctors (db w1)))).
    { unfold AdminController.select_without_password. apply Forall_forall.
      intros j Hj. apply list_elem_of_In, List.in_map_iff in Hj.
      destruct Hj as (d & <- & _). apply Facts.password_not_serialised. }
    destruct (faults w1) as [|[e|] rest]; simpl in Hr; injection Hr as <-;
      cbn in Hl; try discriminate Hl; injection Hl as <-; exact Hall.
Qed.

Lemma allDoctors_hides_passwords_witness :
  Sample.world0 <> Sample.world0' /\
  fst (AdminController.allDoctors Sample.world0)
  = fst (AdminController.allDoctors Sample.world0').
Proof.
  split; [discriminate|].
  exact (proj1 (allDoctors_hides_passwords Sample.world0 Sample.world0' eq_refl eq_refl)).
Defined.

End AdminReadProps.

(** ** The payment webhook *)
Module WebhookProps.
Import Db Eff Http Orm Spec.

Ltac unfold_eff :=
  unfold bind, ret, throw, tryCatch, lift, console_log, console_error, console_write,
    await_service in *.

(** When the first [try] block throws, the guarded handler answers 400 and
    the database is the one it started with. *)
Lemma guarded_rejects `{Externals} env req w e :
  Server.verification env req = Throw e ->
  Server.webhook env req w
  = (Ok (status_send 400 ("Webhook Error: " ++ e)),
     mkWorld (db w)
       (console w ++ [(Stdout, "Webhook received")] ++ [(Stdout, "Webhook headers:")]
        ++ [(Stdout, "Webhook secret exists:")]
        ++ [(Stderr, "Webhook signature verification failed: " ++ e)])
       (faults w)).
Proof.
  intros Hv. unfold Server.webhook, Server.verify. unfold_eff. simpl. rewrite Hv. simpl.
  now rewrite <- !app_assoc.
Qed.

Lemma basic_rejects `{Externals} env req w e :
  ServerBasic.verification env req = Throw e ->
  ServerBasic.webhook env req w
  = (Ok (status_send 400 ("Webhook Error: " ++ e)),
     logged Stderr ("Webhook signature verification failed: " ++ e) w).
Proof.
  intros Hv. unfold ServerBasic.webhook. unfold_eff. simpl. now rewrite Hv.
Qed.

(** C1.  Both webhook handlers change the database only after the
    provider's signature check has returned an event; whenever the check
    throws (and, in the guarded handler, whenever the webhook secret is
    missing) the answer is status 400 with the error text and the database
    is unchanged. *)
Theorem webhook_updates_only_after_verification `{Externals}
    (env : ProcessEnv) (req : Server.WebhookRequest) (w : World) :
  (forall e, Server.verification env req = Throw e ->
     fst (Server.webhook env req w) = Ok (status_send 400 ("Webhook Error: " ++ e))
     /\ db (snd (Server.webhook env req w)) = db w)
  /\ (Js.truthy (STRIPE_WEBHOOK_SECRET env) = false ->
      Server.verification env req = Throw "Missing Stripe webhook secret")
  /\ (db (snd (Server.webhook env req w)) <> db w ->
      exists event,
        stripe_constructEvent (Server.raw_body req) (Server.stripe_signature req)
          (STRIPE_WEBHOOK_SECRET env) = Ok event
        /\ Js.truthy (STRIPE_WEBHOOK_SECRET env) = true)
  /\ (forall e,
        stripe_constructEvent (Server.raw_body req) (Server.stripe_signature req)
          (STRIPE_WEBHOOK_SECRET env) = Throw e ->
        fst (ServerBasic.webhook env req w) = Ok (status_send 400 ("Webhook Error: " ++ e))
        /\ db (snd (ServerBasic.webhook env req w)) = db w)
  /\ (db (snd (ServerBasic.webhook env req w)) <> db w ->
      exists event,
        stripe_constructEvent (Server.raw_body req) (Server.stripe_signature req)
          (STRIPE_WEBHOOK_SECRET env) = Ok event).
Proof.
  split; [|split; [|split; [|split]]].
  - intros e He. now rewrite (guarded_rejects env req w e He).
  - intros Hs. unfold Server.verification. now rewrite Hs.
  - intros Hdb. destruct (Server.verification env req) as [event|e] eqn:Hv.
    + unfold Server.verification in Hv.
      destruct (Js.truthy (STRIPE_WEBHOOK_SECRET env)); [|discriminate].
      exists event. now split.
    + exfalso. apply Hdb. now rewrite (guarded_rejects env req w e Hv).
  - intros e He. now rewrite (basic_rejects env req w e He).
  - intros Hdb.
    destruct (stripe_constructEvent (Server.raw_body req) (Server.stripe_signature req)
                (STRIPE_WEBHOOK_SECRET env)) as [event|e] eqn:Hv.
    + now exists event.
    + exfalso. apply Hdb. now rewrite (basic_rejects env req w e Hv).
Qed.

Lemma webhook_updates_only_after_verification_witness :
  @Server.verification Sample.externals Sample.env Sample.forged
  = Throw "No signatures found matching the expected signature for payload"
  /\ fst (@Server.webhook Sample.externals Sample.env Sample.forged Sample.world0)
     = Ok (status_send 400
             "Webhook Error: No signatures found matching the expected signature for payload")
  /\ db (snd (@Server.webhook Sample.externals Sample.env Sample.forged Sample.world0))
     = Sample.db0.
Proof.
  split; [reflexivity|].
  exact (proj1 (@webhook_updates_only_after_verification Sample.externals Sample.env
                  Sample.forged Sample.world0) _ eq_refl).
Defined.

(** *** What a verified event does to the database *)

Lemma guarded_marks `{Externals} env req w ev md id a :
  Server.verification env req = Ok ev ->
  Stripe.type ev = "checkout.session.completed" ->
  Stripe.metadata (Stripe.data_object ev) = Some md ->
  Stripe.appointmentId md = Some id ->
  id <> "" ->
  lookup_id appointmentModel id (db w) = Some a ->
  next_call_throws w = None ->
  fst (Server.webhook env req w) = Ok (json (Json.Obj [("received", Json.Bool true)]))
  /\ db (snd (Server.webhook env req w))
     = mkDatabase (doctors (db w)) (users (db w))
         (update_first (by_id appointmentModel (Some id)) (set_payment true)
            (appointments (db w))).
Proof.
  intros Hv Ht Hm Hid Hne Ha Hnc.
  unfold Server.webhook, Server.verify, Server.handle_event, findByIdAndUpdate,
    findOneAndUpdate. unfold_eff. simpl. rewrite Hv. simpl. rewrite Ht. simpl.
  rewrite Hm, Hid. simpl. destruct (String.eqb_spec id "") as [|_]; [contradiction|]. simpl.
  unfold next_call_throws in Hnc. unfold lookup_id in Ha. simpl in Ha.
  destruct (faults w) as [|[e|] rest]; try discriminate Hnc; simpl; rewrite Ha; simpl;
    split; reflexivity.
Qed.

Lemma basic_marks `{Externals} env req w ev md id a :
  ServerBasic.verification env req = Ok ev ->
  Stripe.type ev = "checkout.session.completed" ->
  Stripe.metadata (Stripe.data_object ev) = Some md ->
  Stripe.appointmentId md = Some id ->
  lookup_id appointmentModel id (db w) = Some a ->
  next_call_throws w = None ->
  fst (ServerBasic.webhook env req w) = Ok (json (Json.Obj [("received", Json.Bool true)]))
  /\ db (snd (ServerBasic.webhook env req w))
     = mkDatabase (doctors (db w)) (users (db w))
         (update_first (by_id appointmentModel (Some id)) (set_payment true)
            (appointments (db w))).
Proof.
  intros Hv Ht Hm Hid Ha Hnc.
  unfold ServerBasic.webhook, ServerBasic.handle_event, findByIdAndUpdate,
    findOneAndUpdate. unfold_eff. simpl. rewrite Hv. simpl. rewrite Ht. simpl.
  rewrite Hm, Hid. simpl.
  unfold next_call_throws in Hnc. unfold lookup_id in Ha. simpl in Ha.
  destruct (faults w) as [|[e|] rest]; try discriminate Hnc; simpl; rewrite Ha; simpl;
    split; reflexivity.
Qed.

Lemma guarded_ignores_other `{Externals} env req w ev :
  Server.verification env req = Ok ev ->
  Stripe.type ev <> "checkout.session.completed" ->
  fst (Server.webhook env req w) = Ok (json (Json.Obj [("received", Json.Bool true)]))
  /\ db (snd (Server.webhook env req w)) = db w
  /\ faults (snd (Server.webhook env req w)) = faults w.
Proof.
  intros Hv Ht.
  unfold Server.webhook, Server.verify, Server.handle_event. unfold_eff. simpl.
  rewrite Hv. simpl.
  destruct (String.eqb_spec (Stripe.type ev) "checkout.session.completed") as [|_];
    [contradiction|]. simpl. repeat split; reflexivity.
Qed.

Lemma basic_ignores_other `{Externals} env req w ev :
  ServerBasic.verification env req = Ok ev ->
  Stripe.type ev <> "checkout.session.completed" ->
  fst (ServerBasic.webhook env req w) = Ok (json (Json.Obj [("received", Json.Bool true)]))
  /\ db (snd (ServerBasic.webhook env req w)) = db w
  /\ faults (snd (ServerBasic.webhook env req w)) = faults w.
Proof.
  intros Hv Ht.
  unfold ServerBasic.webhook, ServerBasic.handle_event. unfold_eff. simpl.
  rewrite Hv. simpl.
  destruct (String.eqb_spec (Stripe.type ev) "checkout.session.completed") as [|_];
    [contradiction|]. simpl. repeat split; reflexivity.
Qed.

Lemma set_payment_frame (a : Appointment) :
  appt_payment (set_payment true a) = true /\ same_but_payment a (set_payment true a).
Proof. destruct a. unfold same_but_payment. simpl. repeat split; reflexivity. Qed.

(** C2.  For a verified event of type "checkout.session.completed" whose
    metadata carries the id of an existing appointment, and a database call
    that does not fail, each handler replaces that one appointment by a copy
    whose payment field is true and whose other fields are the same, and
    leaves every other appointment, the doctors and the users as they were;
    for every other event type the database is unchanged and no database
    call is made. *)
Theorem webhook_marks_only_the_paid_appointment `{Externals}
    (env : ProcessEnv) (req : Server.WebhookRequest) (w : World) (ev : Stripe.Event) :
  stripe_constructEvent (Server.raw_body req) (Server.stripe_signature req)
    (STRIPE_WEBHOOK_SECRET env) = Ok ev ->
  (forall md id a,
     Stripe.type ev = "checkout.session.completed" ->
     Stripe.metadata (Stripe.data_object ev) = Some md ->
     Stripe.appointmentId md = Some id ->
     lookup_id appointmentModel id (db w) = Some a ->
     next_call_throws w = None ->
     exists (i : nat) (paid : Appointment),
       appointments (db w) !! i = Some a
       /\ appt_payment paid = true
       /\ same_but_payment a paid
       /\ (Js.truthy (STRIPE_WEBHOOK_SECRET env) = true -> id <> "" ->
           db (snd (Server.webhook env req w))
           = mkDatabase (doctors (db w)) (users (db w)) (<[i := paid]> (appointments (db w))))
       /\ db (snd (ServerBasic.webhook env req w))
          = mkDatabase (doctors (db w)) (users (db w)) (<[i := paid]> (appointments (db w))))
  /\ (Stripe.type ev <> "checkout.session.completed" ->
      (Js.truthy (STRIPE_WEBHOOK_SECRET env) = true ->
       db (snd (Server.webhook env req w)) = db w
       /\ faults (snd (Server.webhook env req w)) = faults w)
      /\ db (snd (ServerBasic.webhook env req w)) = db w
      /\ faults (snd (ServerBasic.webhook env req w)) = faults w).
Proof.
  intros Hc.
  assert (Hg : Js.truthy (STRIPE_WEBHOOK_SECRET env) = true ->
               Server.verification env req = Ok ev).
  { intros Hs. unfold Server.verification. now rewrite Hs. }
  assert (Hb : ServerBasic.verification env req = Ok ev) by exact Hc.
  split.
  - intros md id a Ht Hm Hid Ha Hnc.
    destruct (Facts.update_first_insert (by_id appointmentModel (Some id))
                (set_payment true) (appointments (db w)) a Ha) as (i & Hi & Hu).
    destruct (set_payment_frame a) as [Hp Hsame].
    exists i, (set_payment true a). repeat split; try assumption; try apply Hsame.
    + intros Hs Hne. rewrite <- Hu.
      exact (proj2 (guarded_marks env req w ev md id a (Hg Hs) Ht Hm Hid Hne Ha Hnc)).
    + rewrite <- Hu. exact (proj2 (basic_marks env req w ev md id a Hb Ht Hm Hid Ha Hnc)).
  - intros Ht.
    split.
    + intros Hs.
      destruct (guarded_ignores_other env req w ev (Hg Hs) Ht) as (_ & Hd1 & Hf1).
      now split.
    + destruct (basic_ignores_other env req w ev Hb Ht) as (_ & Hd2 & Hf2). now split.
Qed.

Lemma webhook_marks_only_the_paid_appointment_witness :
  @stripe_constructEvent Sample.externals "paid a1" (Some "t=1,v1=ok") (Some "whsec_1")
  = Ok (Sample.paid_event (Some "a1"))
  /\ lookup_id appointmentModel "a1" Sample.db0 = Some Sample.a1
  /\ exists (i : nat) (paid : Appointment),
       appointments Sample.db0 !! i = Some Sample.a1
       /\ appt_payment paid = true
       /\ same_but_payment Sample.a1 paid
       /\ db (snd (@Server.webhook Sample.externals Sample.env (Sample.signed "paid a1")
                     Sample.world0))
          = mkDatabase (doctors Sample.db0) (users Sample.db0)
              (<[i := paid]> (appointments Sample.db0))
       /\ db (snd (@ServerBasic.webhook Sample.externals Sample.env (Sample.signed "paid a1")
                     Sample.world0))
          = mkDatabase (doctors Sample.db0) (users Sample.db0)
              (<[i := paid]> (appointments Sample.db0)).
Proof.
  split; [reflexivity|]. split; [reflexivity|].
  destruct (proj1 (@webhook_marks_only_the_paid_appointment Sample.externals Sample.env
                     (Sample.signed "paid a1") Sample.world0 (Sample.paid_event (Some "a1"))
                     eq_refl)
              (Stripe.mkMetadata (Some "a1")) "a1" Sample.a1
              eq_refl eq_refl eq_refl eq_refl eq_refl)
    as (i & paid & Hi & Hp & Hsame & Hguarded & Hbasic).
  exists i, paid.
  split; [exact Hi|]. split; [exact Hp|]. split; [exact Hsame|]. split; [|exact Hbasic].
  apply Hguarded; [reflexivity | discriminate].
Defined.

(** *** Acknowledgement of verified events *)

(** Case analysis on the innermost scrutinee that blocks evaluation. *)
Ltac case_split :=
  repeat (simpl;
          match goal with
          | |- context [match ?x with _ => _ end] =>
              lazymatch x with
              | context [match _ with _ => _ end] => fail
              | _ => destruct x eqn:?
              end
          end).

(** The guarded handler acknowledges every verified event: whatever
    happens while the event is processed, the answer is 200 with
    [received: true]; at most one database call is made.  A processing
    error is caught, written to the console and returned in the [error]
    field: the TypeError of a null metadata, the missing appointmentId,
    the error of the database call, or the appointment that was not found.
    Without a processing error the body is [received: true] alone. *)
Lemma guarded_acknowledges `{Externals} env req w ev :
  Server.verification env req = Ok ev ->
  exists r,
    fst (Server.webhook env req w) = Ok r
    /\ acknowledged r
    /\ (length (faults w) <= S (length (faults (snd (Server.webhook env req w)))))%nat
    /\ (forall e, body_get "error" r = Some (Json.Str e) ->
        exists earlier : list (Stream * string),
          console (snd (Server.webhook env req w))
          = (earlier ++ [(Stderr, ("Error processing webhook: " ++ e)%string)])%list)
    /\ (Stripe.type ev <> "checkout.session.completed" ->
        r = json (Json.Obj [("received", Json.Bool true)]))
    /\ (Stripe.type ev = "checkout.session.completed" ->
        let failed (e : string) :=
          json (Json.Obj [("received", Json.Bool true); ("error", Json.Str e)]) in
        match Stripe.metadata (Stripe.data_object ev) with
        | None => r = failed "Cannot read properties of null (reading 'appointmentId')"
        | Some md =>
            let appointmentId := Stripe.appointmentId md in
            if Js.truthy appointmentId
            then
              match next_call_throws w with
              | Some e => r = failed e
              | None =>
                  match List.find (by_id appointmentModel appointmentId)
                          (appointments (db w)) with
                  | Some _ => r = json (Json.Obj [("received", Json.Bool true)])
                  | None =>
                      r = failed ("Appointment " ++ show_opt appointmentId ++ " not found")
                  end
              end
            else r = failed "No appointmentId found in session metadata"
        end).
Proof.
  intros Hv.
  unfold Server.webhook, Server.verify, Server.handle_event, findByIdAndUpdate,
    findOneAndUpdate, acknowledged, next_call_throws. unfold_eff. simpl. rewrite Hv.
  destruct (String.eqb_spec (Stripe.type ev) "checkout.session.completed") as [Ht|Ht].
  - case_split;
      first
        [ solve [exfalso; simpl in *; congruence]
        | eexists; (split; [reflexivity|]); simpl;
          (split; [split; reflexivity|]); (split; [lia|]);
          (split;
           [ intros e' He'; cbn in He'; try discriminate He'; injection He' as <-;
             eexists; reflexivity |]);
          (split; [intros Hne; contradiction | intros _; reflexivity]) ].
  - simpl. eexists. split; [reflexivity|]. simpl.
    split; [split; reflexivity|]. split; [lia|].
    split; [intros e' He'; discriminate He'|].
    split; [reflexivity | intros Heq; contradiction].
Qed.

Lemma guarded_acknowledges_witness :
  @Server.verification Sample.externals Sample.env (Sample.signed "paid unmarked")
  = Ok (Sample.paid_event None)
  /\ exists r,
       fst (@Server.webhook Sample.externals Sample.env (Sample.signed "paid unmarked")
              Sample.world0) = Ok r
       /\ acknowledged r
       /\ r = json (Json.Obj [("received", Json.Bool true);
                              ("error",
                               Json.Str "No appointmentId found in session metadata")]).
Proof.
  split; [reflexivity|].
  destruct (@guarded_acknowledges Sample.externals Sample.env (Sample.signed "paid unmarked")
              Sample.world0 (Sample.paid_event None) eq_refl)
    as (r & Hr & Hack & _ & _ & _ & Herr).
  exists r. split; [exact Hr|]. split; [exact Hack|]. exact (Herr eq_refl).
Defined.

(** The handler with the inner [try] acknowledges a verified event unless
    it is a completed checkout whose metadata is null. *)
Lemma basic_acknowledges `{Externals} env req w ev :
  ServerBasic.verification env req = Ok ev ->
  Stripe.type ev <> "checkout.session.completed"
  \/ Stripe.metadata (Stripe.data_object ev) <> None ->
  fst (ServerBasic.webhook env req w) = Ok (json (Json.Obj [("received", Json.Bool true)]))
  /\ (length (faults w) <= S (length (faults (snd (ServerBasic.webhook env req w)))))%nat.
Proof.
  intros Hv Hcase.
  unfold ServerBasic.webhook, ServerBasic.handle_event, findByIdAndUpdate,
    findOneAndUpdate. unfold_eff. simpl. rewrite Hv. simpl.
  destruct (String.eqb_spec (Stripe.type ev) "checkout.session.completed") as [Ht|Ht].
  - destruct (Stripe.metadata (Stripe.data_object ev)) as [md|] eqn:Hm;
      [|destruct Hcase; congruence].
    case_split; split; first [reflexivity | lia].
  - simpl. split; [reflexivity | lia].
Qed.

(** In that case the metadata is read outside any [try]: the exception
    leaves the handler, no response is sent and nothing is written. *)
Lemma basic_escapes `{Externals} env req w ev :
  ServerBasic.verification env req = Ok ev ->
  Stripe.type ev = "checkout.session.completed" ->
  Stripe.metadata (Stripe.data_object ev) = None ->
  fst (ServerBasic.webhook env req w) = Throw Server.TypeError_metadata
  /\ db (snd (ServerBasic.webhook env req w)) = db w.
Proof.
  intros Hv Ht Hm.
  unfold ServerBasic.webhook, ServerBasic.handle_event. unfold_eff. simpl.
  rewrite Hv. simpl. rewrite Ht. simpl. rewrite Hm. simpl. now split.
Qed.

Lemma basic_acknowledges_witness :
  @ServerBasic.verification Sample.externals Sample.env (Sample.signed "paid nobody")
  = Ok (Sample.paid_event (Some "zz"))
  /\ fst (@ServerBasic.webhook Sample.externals Sample.env (Sample.signed "paid nobody")
            Sample.world_down)
     = Ok (json (Json.Obj [("received", Json.Bool true)])).
Proof.
  split; [reflexivity|].
  refine (proj1 (@basic_acknowledges Sample.externals Sample.env (Sample.signed "paid nobody")
                   Sample.world_down (Sample.paid_event (Some "zz")) eq_refl _)).
  right. discriminate.
Defined.

(** C5, on the concrete request.  A signed "checkout.session.completed"
    event whose session has null metadata: the guarded handler logs the
    error and acknowledges with 200 and received:true, the handler with the
    inner [try] lets the TypeError escape and sends nothing. *)
Theorem webhook_null_metadata_unacknowledged :
  @ServerBasic.verification Sample.externals Sample.env (Sample.signed "paid bare")
  = Ok Sample.bare_event
  /\ fst (@ServerBasic.webhook Sample.externals Sample.env (Sample.signed "paid bare")
            Sample.world0)
     = Throw "Cannot read properties of null (reading 'appointmentId')"
  /\ fst (@Server.webhook Sample.externals Sample.env (Sample.signed "paid bare")
            Sample.world0)
     = Ok (json (Json.Obj
                   [("received", Json.Bool true);
                    ("error",
                     Json.Str "Cannot read properties of null (reading 'appointmentId')")])).
Proof. repeat split; reflexivity. Qed.

End WebhookProps.

(** ** Cancelling an appointment *)
Module CancelProps.
Import Db Eff Http Orm Spec.

(** The run of [appointmentCancel] for the owner of an existing
    appointment when no outside call fails: the appointment is written
    first, then the doctor is looked up, then the slot is released; a
    [TypeError] of the release is answered by the [catch] block. *)
Lemma cancel_run `{Externals} (w : World) (uid aid : string) (a : Appointment) :
  uid <> "" -> aid <> "" ->
  quiet w ->
  lookup_id appointmentModel aid (db w) = Some a ->
  appt_userId a = Some uid ->
  AdminController.appointmentCancel (AdminController.mkCancelRequest (Some uid) (Some aid)) w
  = match lookup_id doctorModel (appt_docId a) (db w) with
    | None =>
        (Ok (AdminController.failure 404 "Doctor not found"),
         with_db (after_cancel aid (db w)) w)
    | Some doctor =>
        match AdminController.release_slot (appt_slotDate a) (appt_slotTime a)
                (slots_of doctor) with
        | Ok slots =>
            (Ok (json (Json.Obj [("success", Json.Bool true);
                                 ("message", Json.Str "Appointment Cancelled")])),
             with_db (after_release aid a slots (db w)) w)
        | Throw e =>
            (Ok (AdminController.failure 500 e),
             logged Stderr ("Error in appointmentCancel: " ++ e)
               (with_db (after_cancel aid (db w)) w))
        end
    end.
Proof.
  intros Hu Hi Hq Ha Hown.
  unfold AdminController.appointmentCancel, AdminController.appointmentCancel_try,
    AdminController.appointmentCancel_catch, findById, findOne, findByIdAndUpdate,
    findOneAndUpdate, after_release, after_cancel, slots_of, logged.
  WebhookProps.unfold_eff. unfold quiet in Hq. unfold lookup_id in *. simpl in Ha. simpl.
  destruct (String.eqb_spec uid "") as [|_]; [contradiction|].
  destruct (String.eqb_spec aid "") as [|_]; [contradiction|]. simpl.
  rewrite Hq. simpl. rewrite Ha. simpl. rewrite Hown. simpl.
  destruct (String.eqb_spec uid "") as [|_]; [contradiction|]. simpl.
  rewrite String.eqb_refl. simpl. rewrite Hq. simpl. rewrite Ha. simpl. rewrite Hq. simpl.
  destruct (List.find _ (doctors (db w))) as [doctor|] eqn:Hd; simpl; [|reflexivity].
  destruct (AdminController.release_slot _ _ _) as [slots|e]; simpl;
    [|now rewrite Hq].
  rewrite Hq. simpl. rewrite Hd. reflexivity.
Qed.

Lemma set_cancelled_frame (a : Appointment) :
  appt_cancelled (set_cancelled true a) = true /\ same_but_cancelled a (set_cancelled true a).
Proof. destruct a. unfold same_but_cancelled. simpl. repeat split; reflexivity. Qed.

Lemma release_slot_same (slotDate slotTime : string) (s s' : Slots) :
  AdminController.release_slot slotDate slotTime s = Ok s' ->
  s' !! slotDate
  = List.filter (fun e => negb (String.eqb e slotTime)) <$> (s !! slotDate).
Proof.
  unfold AdminController.release_slot.
  destruct (s !! slotDate) as [times|] eqn:Hs; simpl.
  - intros [= <-]. apply lookup_insert_eq.
  - destruct (Js.inherited slotDate); [discriminate|]. now intros [= <-].
Qed.

Lemma release_slot_other (slotDate slotTime k : string) (s s' : Slots) :
  AdminController.release_slot slotDate slotTime s = Ok s' ->
  k <> slotDate ->
  s' !! k = s !! k.
Proof.
  unfold AdminController.release_slot. intros Hr Hk.
  destruct (s !! slotDate) as [times|].
  - injection Hr as <-. apply lookup_insert_ne. congruence.
  - destruct (Js.inherited slotDate); [discriminate|]. now injection Hr as <-.
Qed.

(** The release returns a table unless the date is not an own key and is
    an inherited name. *)
Lemma release_slot_returns (slotDate slotTime : string) (s : Slots) :
  s !! slotDate <> None \/ Js.inherited slotDate = false ->
  exists s', AdminController.release_slot slotDate slotTime s = Ok s'.
Proof.
  unfold AdminController.release_slot. intros Hkey.
  destruct (s !! slotDate) as [times|]; [eexists; reflexivity|].
  destruct Hkey as [Hkey | ->]; [contradiction | eexists; reflexivity].
Qed.






End CancelProps.

(** ** Adding a doctor *)
Module AddDoctorProps.
Import Db Eff Http Orm Spec.

Lemma fields_cond (b : AdminController.AddDoctorBody) :
  negb (Js.truthy (Js.cleanQuotes (AdminController.name b)))
  || negb (Js.truthy (Js.cleanQuotes (AdminController.email b)))
  || negb (Js.truthy (Js.cleanQuotes (AdminController.password b)))
  || negb (Js.truthy (Js.cleanQuotes (AdminController.speciality b)))
  || negb (Js.truthy (Js.cleanQuotes (AdminController.degree b)))
  || negb (Js.truthy (Js.cleanQuotes (AdminController.experience b)))
  || negb (Js.truthy (Js.cleanQuotes (AdminController.about b)))
  || negb (Js.truthy (Js.cleanQuotes (AdminController.fees b)))
  || negb (AdminController.value_truthy (AdminController.address b))
  = negb (fields_present b).
Proof. unfold fields_present. now rewrite !negb_andb. Qed.

Lemma length_cond (b : AdminController.AddDoctorBody) :
  (N.of_nat (String.length (AdminController.str (Js.cleanQuotes (AdminController.password b))))
   <? 8)
  = negb (password_long_enough b).
Proof. unfold password_long_enough, cleaned_password. apply N.ltb_antisym. Qed.

Lemma forallb_find {A : Type} (p : A -> bool) (l : list A) :
  forallb (fun a => negb (p a)) l
  = match List.find p l with Some _ => false | None => true end.
Proof.
  induction l as [|a l IH]; simpl; [reflexivity|].
  destruct (p a); simpl; [reflexivity | exact IH].
Qed.

Ltac reduce_world :=
  cbn [db console faults fst snd coll set_coll doctorModel with_db
         doctors users appointments].

Ltac crunch :=
  repeat (reduce_world;
          match goal with
          | |- context [match ?x with _ => _ end] =>
              lazymatch x with
              | context [match _ with _ => _ end] => fail
              | _ => destruct x eqn:?
              end
          end).

End AddDoctorProps.

(** ** Errors at the controller boundary *)
Module ErrorProps.
Import Db Eff Http Orm Spec.

Lemma tryCatch_caught {A : Type} (m : M A) (h : string -> M A) w e w1 :
  m w = (Throw e, w1) -> tryCatch m h w = h e w1.
Proof. intros Hm. unfold tryCatch. now rewrite Hm. Qed.

Lemma tryCatch_responds {A : Type} (m : M A) (h : string -> M A) :
  (forall e w, exists a w', h e w = (Ok a, w')) ->
  forall w, exists a w', tryCatch m h w = (Ok a, w').
Proof.
  intros Hh w. unfold tryCatch. destruct (m w) as [[a|e] w1]; [now exists a, w1 | apply Hh].
Qed.

(** C8, as stated, fails on the checkout-session endpoint: when the
    provider call throws "connection lost" the answer is status 500 with
    the fields success and error, and no message field. *)
Lemma checkout_error_has_no_message_field :
  @Server.create_checkout_session_try Sample.env
    (Checkout.mkRequest (Some "a1") None) "cs_test_1" Sample.world_down
  = (Throw "connection lost",
     mkWorld Sample.db0
       [(Stdout, "Creating checkout session for appointment: a1");
        (Stdout, "Using base URL: http://localhost:5173");
        (Stdout, "Creating Stripe session with config:")] [])
  /\ fst (@Server.create_checkout_session Sample.env
            (Checkout.mkRequest (Some "a1") None) "cs_test_1" Sample.world_down)
     = Ok (status_json 500
             (Json.Obj [("success", Json.Bool false);
                        ("error", Json.Str "connection lost")]))
  /\ ~ reports_with_message
         (@Server.create_checkout_session_try Sample.env
            (Checkout.mkRequest (Some "a1") None) "cs_test_1")
         (@Server.create_checkout_session Sample.env
            (Checkout.mkRequest (Some "a1") None) "cs_test_1").
Proof.
  split; [reflexivity|]. split; [reflexivity|].
  intros Hclaim.
  destruct (Hclaim Sample.world_down "connection lost" _ eq_refl) as (r & w2 & Hrun & _ & Hmsg).
  injection Hrun as <- _. discriminate Hmsg.
Qed.

Lemma log_and_report_responds e w :
  exists r w', AdminController.log_and_report e w = (Ok r, w').
Proof. unfold AdminController.log_and_report. WebhookProps.unfold_eff. eauto. Qed.

(** C8, amended.  Every controller operation and both checkout-session
    endpoints catch an error thrown in their [try] block, write it to the
    console and answer without retrying, and no exception leaves them.  The
    answer is {success:false, message: error.message} for loginAdmin,
    allDoctors, appointmentsAdmin, adminDashboard and (with status 500)
    appointmentCancel; addDoctor answers 500 with the fixed message
    "Internal server error" and the error text in the field error; the
    checkout-session endpoints answer 500 with {success:false, error}. *)
Theorem controller_errors_are_caught `{Externals} (env : ProcessEnv) :
  let reported (e : string) :=
    json (Json.Obj [("success", Json.Bool false); ("message", Json.Str e)]) in
  (forall req,
     catches_with
       (console_log ("Admin login attempt from: "
                     ++ show_opt (AdminController.login_origin req)) ;;;
        AdminController.loginAdmin_try env req)
       (AdminController.loginAdmin env req) reported (fun e => (Stdout, e))
     /\ always_responds (AdminController.loginAdmin env req))
  /\ (catches_with AdminController.allDoctors_try AdminController.allDoctors
        reported (fun e => (Stdout, e))
      /\ always_responds AdminController.allDoctors)
  /\ (catches_with AdminController.appointmentsAdmin_try AdminController.appointmentsAdmin
        reported (fun e => (Stdout, e))
      /\ always_responds AdminController.appointmentsAdmin)
  /\ (catches_with AdminController.adminDashboard_try AdminController.adminDashboard
        reported (fun e => (Stdout, e))
      /\ always_responds AdminController.adminDashboard)
  /\ (forall req,
        catches_with (AdminController.appointmentCancel_try req)
          (AdminController.appointmentCancel req)
          (fun e => status_json 500
                      (Json.Obj [("success", Json.Bool false); ("message", Json.Str e)]))
          (fun e => (Stderr, "Error in appointmentCancel: " ++ e))
        /\ always_responds (AdminController.appointmentCancel req))
  /\ (forall req replies,
        catches_with (AdminController.addDoctor_try req replies)
          (AdminController.addDoctor req replies)
          (fun e => status_json 500
                      (Json.Obj [("success", Json.Bool false);
                                 ("message", Json.Str "Internal server error");
                                 ("error", Json.Str e)]))
          (fun e => (Stderr, "Error in addDoctor: " ++ e))
        /\ always_responds (AdminController.addDoctor req replies))
  /\ (forall req reply_id,
        catches_with (Server.create_checkout_session_try env req reply_id)
          (Server.create_checkout_session env req reply_id)
          (fun e => status_json 500
                      (Json.Obj [("success", Json.Bool false); ("error", Json.Str e)]))
          (fun e => (Stderr, "Error creating checkout session: " ++ e))
        /\ always_responds (Server.create_checkout_session env req reply_id))
  /\ (forall req reply_id,
        catches_with (ServerBasic.create_checkout_session_try req reply_id)
          (ServerBasic.create_checkout_session req reply_id)
          (fun e => status_json 500
                      (Json.Obj [("success", Json.Bool false); ("error", Json.Str e)]))
          (fun e => (Stderr, "Error creating checkout session: " ++ e))
        /\ always_responds (ServerBasic.create_checkout_session req reply_id)).
Proof.
  intros reported.
  assert (Hcatch : forall (m : M Response) h answer line,
             (forall e w, h e w = (Ok (answer e),
                                   mkWorld (db w) (console w ++ [line e]) (faults w))) ->
             catches_with m (tryCatch m h) answer line /\ always_responds (tryCatch m h)).
  { intros m h answer line Hh. split.
    - intros w e w1 Hm. rewrite (tryCatch_caught m h w e w1 Hm). apply Hh.
    - intros w. apply tryCatch_responds. intros e w0. rewrite Hh. eauto. }
  split.
  { intros req. split.
    - intros w e w1. unfold AdminController.loginAdmin, tryCatch, bind, console_log,
        console_write. cbn beta iota.
      destruct (AdminController.loginAdmin_try env req _) as [[r|e'] w'];
        intros [= <- <-]. reflexivity.
    - intros w. unfold AdminController.loginAdmin, bind, console_log, console_write.
      cbn beta iota. apply tryCatch_responds. apply log_and_report_responds. }
  repeat first
    [ solve [apply Hcatch; intros; reflexivity]
    | match goal with
      | |- _ /\ _ => split
      | |- forall _, _ => intro
      end ].
Qed.

Lemma controller_errors_are_caught_witness :
  AdminController.allDoctors_try Sample.world_down
  = (Throw "connection lost", mkWorld Sample.db0 [] [])
  /\ AdminController.allDoctors Sample.world_down
     = (Ok (json (Json.Obj [("success", Json.Bool false);
                            ("message", Json.Str "connection lost")])),
        mkWorld Sample.db0 [(Stdout, "connection lost")] []).
Proof.
  split; [reflexivity|].
  exact (proj1 (proj1 (proj2 (@controller_errors_are_caught Sample.externals Sample.env)))
           Sample.world_down "connection lost" _ eq_refl).
Defined.

End ErrorProps.

(** ** Worked examples *)
Module Examples.
Import Db Eff Http Spec.

Example showN_clock : Js.showN 1700000000123 = "1700000000123".
Proof. reflexivity. Qed.

Example cleanQuotes_quoted :
  Js.cleanQuotes (Some (String Js.dquote (" Dr. A " ++ String Js.dquote "")))
  = Some "Dr. A".
Proof. reflexivity. Qed.

Example cleanQuotes_lone_quote : Js.cleanQuotes (Some (String Js.dquote "")) = Some "".
Proof. reflexivity. Qed.

Example cleanQuotes_inner_quote_kept :
  Js.cleanQuotes (Some ("a" ++ String Js.dquote "b")) = Some ("a" ++ String Js.dquote "b").
Proof. reflexivity. Qed.

Example upload_image :
  @Upload.upload Sample.externals 1700000000123 42 Sample.image
  = Ok (Upload.mkStored "/srv/backend/uploads" "image-1700000000123-42.png").
Proof. reflexivity. Qed.

Example upload_pdf_refused :
  @Upload.upload Sample.externals 1700000000123 42
    (Upload.mkFile "image" "report.pdf" "application/pdf" 10)
  = Throw "Not an image! Please upload an image.".
Proof. reflexivity. Qed.

Example upload_too_large :
  @Upload.upload Sample.externals 1700000000123 42
    (Upload.mkFile "image" "big.png" "image/png" 5242881)
  = Throw "File too large".
Proof. reflexivity. Qed.

Example cancel_releases_both_occurrences :
  slots_of <$>
    doctors (db (snd (@AdminController.appointmentCancel Sample.externals
                        (AdminController.mkCancelRequest (Some "u1") (Some "a1"))
                        Sample.world0)))
  = [ <["12_5_2025" := ["10:00"; "11:00"] ]> (<["13_5_2025" := ["10:30"] ]> ∅) ].
Proof. vm_compute. reflexivity. Qed.

Example cancel_by_other_user_refused :
  @AdminController.appointmentCancel Sample.externals
    (AdminController.mkCancelRequest (Some "u2") (Some "a1")) Sample.world0
  = (Ok (AdminController.failure 403 "Unauthorized Action"), Sample.world0).
Proof. reflexivity. Qed.

Example short_password_refused :
  fst (@AdminController.addDoctor Sample.externals Sample.short_password_request
         Sample.replies Sample.world0)
  = Ok (status_json 400
          (Json.Obj [("success", Json.Bool false);
                     ("message", Json.Str "Password must be at least 8 characters long")])).
Proof. reflexivity. Qed.

Example unsigned_event_changes_nothing :
  db (snd (@ServerBasic.webhook Sample.externals Sample.env Sample.forged Sample.world0))
  = Sample.db0.
Proof. reflexivity. Qed.

Example unknown_appointment_acknowledged :
  fst (@Server.webhook Sample.externals Sample.env (Sample.signed "paid nobody") Sample.world0)
  = Ok (json (Json.Obj [("received", Json.Bool true);
                        ("error", Json.Str "Appointment zz not found")])).
Proof. reflexivity. Qed.

(** The second write of a cancellation can fail on its own: with the
    doctor lookup throwing, the appointment stays cancelled and the answer
    is 500. *)
Example cancel_half_done :
  let run :=
    @AdminController.appointmentCancel Sample.externals
      (AdminController.mkCancelRequest (Some "u1") (Some "a1"))
      (mkWorld Sample.db0 [] [None; None; Some "connection lost"]) in
  fst run = Ok (AdminController.failure 500 "connection lost")
  /\ appt_cancelled <$> appointments (db (snd run)) = [true; false]
  /\ doctors (db (snd run)) = doctors Sample.db0.
Proof. vm_compute. repeat split; reflexivity. Qed.

End Examples.

(** ** Strings: trimming, quote cleaning and generated file names *)
Module StringProps.
Import Laws.

Lemma app_cons (c : ascii) (s t : string) : String c s ++ t = String c (s ++ t).
Proof. reflexivity. Qed.

Lemma app_nil_r (a : string) : a ++ "" = a.
Proof. induction a as [|c a IH]; [reflexivity|]. now rewrite app_cons, IH. Qed.

Lemma length_app (a b : string) :
  String.length (a ++ b) = (String.length a + String.length b)%nat.
Proof. induction a as [|c a IH]; [reflexivity|]. rewrite app_cons. simpl. now rewrite IH. Qed.

Lemma app_inv_head (a b c : string) : a ++ b = a ++ c -> b = c.
Proof.
  induction a as [|x a IH]; [trivial|]. rewrite !app_cons. intros [= Heq]. now apply IH.
Qed.

Lemma app_inv_tail (a b c : string) : a ++ c = b ++ c -> a = b.
Proof.
  revert b. induction a as [|x a IH]; intros [|y b] Heq.
  - reflexivity.
  - apply (f_equal String.length) in Heq. rewrite !length_app in Heq. cbn in Heq. lia.
  - apply (f_equal String.length) in Heq. rewrite !length_app in Heq. cbn in Heq. lia.
  - rewrite !app_cons in Heq. injection Heq as -> Heq. f_equal. now apply IH.
Qed.

Lemma trimStart_split (s : string) :
  exists pre, s = pre ++ Js.trimStart s /\ all_chars Js.is_space pre = true.
Proof.
  induction s as [|c s IH]; simpl.
  - now exists "".
  - destruct (Js.is_space c) eqn:Hc.
    + destruct IH as (pre & Hs & Hpre). exists (String c pre). split.
      * rewrite app_cons. now f_equal.
      * simpl. now rewrite Hc.
    + now exists "".
Qed.

Lemma trimStart_starts (s : string) : starts_with Js.is_space (Js.trimStart s) = false.
Proof.
  induction s as [|c s IH]; simpl; [reflexivity|].
  destruct (Js.is_space c) eqn:Hc; [exact IH | simpl; exact Hc].
Qed.

Lemma trimEnd_split (s : string) :
  exists post, s = Js.trimEnd s ++ post /\ all_chars Js.is_space post = true.
Proof.
  induction s as [|c s IH]; simpl.
  - now exists "".
  - destruct IH as (post & Hs & Hpost). destruct (Js.trimEnd s) as [|a r].
    + destruct (Js.is_space c) eqn:Hc.
      * exists (String c s). split; [reflexivity|]. simpl. rewrite Hc. simpl.
        change ("" ++ post) with post in Hs. now rewrite Hs.
      * exists s. split; [reflexivity | now rewrite Hs].
    + exists post. split; [|exact Hpost]. rewrite app_cons. now f_equal.
Qed.

Lemma trimEnd_ends (s : string) : ends_with Js.is_space (Js.trimEnd s) = false.
Proof.
  induction s as [|c s IH]; simpl; [reflexivity|].
  destruct (Js.trimEnd s) as [|a r].
  - destruct (Js.is_space c) eqn:Hc; simpl; [reflexivity | exact Hc].
  - exact IH.
Qed.

Lemma trimEnd_starts (s : string) :
  starts_with Js.is_space s = false -> starts_with Js.is_space (Js.trimEnd s) = false.
Proof.
  destruct s as [|c s]; simpl; [trivial|]. intros Hc.
  destruct (Js.trimEnd s); [now rewrite Hc | exact Hc].
Qed.

Lemma trimEnd_id (s : string) : ends_with Js.is_space s = false -> Js.trimEnd s = s.
Proof.
  induction s as [|c s IH]; [reflexivity|]. destruct s as [|a r].
  - simpl. now intros ->.
  - intros He. change (ends_with Js.is_space (String a r) = false) in He.
    specialize (IH He). cbn [Js.trimEnd] in *. now rewrite IH.
Qed.

Lemma trim_trimmed (s : string) : trimmed (Js.trim s).
Proof.
  unfold trimmed, Js.trim. split; [|apply trimEnd_ends].
  apply trimEnd_starts, trimStart_starts.
Qed.

Lemma trim_id (s : string) : trimmed s -> Js.trim s = s.
Proof.
  intros [Hs He]. unfold Js.trim.
  assert (Hstart : Js.trimStart s = s).
  { destruct s as [|c s]; [reflexivity|]. simpl in *. now rewrite Hs. }
  rewrite Hstart. now apply trimEnd_id.
Qed.

Lemma trim_split (s : string) : exists pre post, s = pre ++ Js.trim s ++ post.
Proof.
  destruct (trimStart_split s) as (pre & Hs & _).
  destruct (trimEnd_split (Js.trimStart s)) as (post & Ht & _).
  exists pre, post. unfold Js.trim. now rewrite <- Ht.
Qed.

Lemma dropLeadingQuote_split (s : string) :
  exists pre, s = pre ++ Js.dropLeadingQuote s
              /\ (starts_with is_quote s = false -> pre = "").
Proof.
  destruct s as [|c s]; simpl; [now exists ""|]. unfold is_quote.
  destruct (Ascii.eqb c Js.dquote).
  - exists (String c ""). split; [reflexivity | discriminate].
  - now exists "".
Qed.

Lemma dropTrailingQuote_split (s : string) :
  exists post, s = Js.dropTrailingQuote s ++ post
               /\ (ends_with is_quote s = false -> post = "").
Proof.
  induction s as [|c s IH]; [now exists ""|]. destruct s as [|a r].
  - simpl. unfold is_quote. destruct (Ascii.eqb c Js.dquote).
    + exists (String c ""). split; [reflexivity | discriminate].
    + now exists "".
  - destruct IH as (post & Hs & Hpost). exists post. split; [|exact Hpost].
    cbn [Js.dropTrailingQuote]. rewrite app_cons. now f_equal.
Qed.

(** [cleanQuotes] keeps [undefined]; on a string it returns a contiguous
    piece of it, never longer, with no white space at either end, and it
    returns the string itself when there is nothing to clean at its ends. *)
Theorem cleanQuotes_keeps_the_inside (s : string) :
  Js.cleanQuotes None = None
  /\ exists r,
       Js.cleanQuotes (Some s) = Some r
       /\ trimmed r
       /\ (exists pre post, s = pre ++ r ++ post)
       /\ (String.length r <= String.length s)%nat
       /\ (trimmed s -> starts_with is_quote s = false -> ends_with is_quote s = false ->
           r = s).
Proof.
  split; [reflexivity|].
  exists (Js.trim (Js.dropTrailingQuote (Js.dropLeadingQuote s))).
  split; [reflexivity|]. split; [apply trim_trimmed|].
  destruct (dropLeadingQuote_split s) as (q1 & H1 & Hq1).
  destruct (dropTrailingQuote_split (Js.dropLeadingQuote s)) as (q2 & H2 & Hq2).
  destruct (trim_split (Js.dropTrailingQuote (Js.dropLeadingQuote s))) as (pre & post & H3).
  assert (Hwhole : s = (q1 ++ pre) ++ Js.trim (Js.dropTrailingQuote (Js.dropLeadingQuote s))
                       ++ (post ++ q2)).
  { rewrite H1 at 1. rewrite H2 at 1. rewrite H3 at 1.
    now rewrite !Facts.append_assoc. }
  split; [now exists (q1 ++ pre), (post ++ q2)|]. split.
  - apply (f_equal String.length) in Hwhole. rewrite !length_app in Hwhole. lia.
  - intros Hs Hlead Htrail. specialize (Hq1 Hlead). subst q1.
    change ("" ++ Js.dropLeadingQuote s) with (Js.dropLeadingQuote s) in H1.
    rewrite <- H1 in *. specialize (Hq2 Htrail). subst q2.
    rewrite app_nil_r in H2. rewrite <- H2. now apply trim_id.
Qed.

(** *** Generated file names *)

Lemma digit_no_dash (x : N) : Ascii.eqb (pretty_N_char x) dash = false.
Proof. unfold pretty_N_char. repeat case_match; reflexivity. Qed.

Lemma pretty_go_no_dash (x : N) (s : string) :
  has_dash s = false -> has_dash (pretty_N_go x s) = false.
Proof.
  revert s. induction (N.lt_wf_0 x) as [x _ IH]. intros s Hs.
  destruct (decide (x = 0)) as [->|Hx].
  - now rewrite pretty_N_go_0.
  - rewrite pretty_N_go_step by lia. apply IH.
    + apply N.div_lt; lia.
    + simpl. now rewrite digit_no_dash.
Qed.

Lemma showN_no_dash (n : N) : has_dash (Js.showN n) = false.
Proof.
  unfold Js.showN, pretty, pretty_N. case_decide; [reflexivity|].
  now apply pretty_go_no_dash.
Qed.

Lemma split_at_dash (a a' r r' : string) :
  has_dash a = false -> has_dash a' = false ->
  a ++ String dash r = a' ++ String dash r' -> a = a' /\ r = r'.
Proof.
  revert a'. induction a as [|x a IH]; intros [|y a']; simpl; intros Ha Ha' Heq.
  - now injection Heq.
  - rewrite app_cons in Heq. change ("" ++ String dash r) with (String dash r) in Heq.
    injection Heq as <- _. apply orb_false_elim in Ha' as [Hy _].
    now rewrite Ascii.eqb_refl in Hy.
  - rewrite app_cons in Heq. change ("" ++ String dash r') with (String dash r') in Heq.
    injection Heq as -> _. apply orb_false_elim in Ha as [Hx _].
    now rewrite Ascii.eqb_refl in Hx.
  - rewrite !app_cons in Heq. injection Heq as -> Heq.
    apply orb_false_elim in Ha as [_ Ha]. apply orb_false_elim in Ha' as [_ Ha'].
    destruct (IH a' Ha Ha' Heq) as [-> ->]. now split.
Qed.

(** Two names generated for the same file are equal only when both the
    clock value and the random number are equal. *)
Theorem filename_collides_only_on_equal_suffix `{Externals}
    (now rnd now' rnd' : N) (file : Upload.File) :
  Upload.filename now rnd file = Upload.filename now' rnd' file ->
  now = now' /\ rnd = rnd'.
Proof.
  unfold Upload.filename. cbv zeta. intros Heq.
  apply app_inv_head in Heq. change ("-" ++ ?x) with (String dash x) in Heq.
  injection Heq as Heq. rewrite !Facts.append_assoc in Heq.
  apply split_at_dash in Heq; try apply showN_no_dash.
  destruct Heq as [Hnow Hrest]. apply app_inv_tail in Hrest.
  split; [exact (pretty_N_inj _ _ Hnow) | exact (pretty_N_inj _ _ Hrest)].
Qed.

Lemma filename_collides_only_on_equal_suffix_witness :
  @Upload.filename Sample.externals 1700000000123 42 Sample.image
  = @Upload.filename Sample.externals 1700000000123 42 Sample.image
  /\ 1700000000123 = 1700000000123 /\ 42 = 42.
Proof.
  split; [reflexivity|].
  exact (@filename_collides_only_on_equal_suffix Sample.externals 1700000000123 42
           1700000000123 42 Sample.image eq_refl).
Defined.

End StringProps.

(** ** Updating the first match of a collection *)
Module ListProps.
Import Db Orm.

Section UpdateFirst.
Context {A : Type}.
Implicit Types (p q : A -> bool) (f g : A -> A) (l : list A).

Lemma update_first_none p f l : List.find p l = None -> update_first p f l = l.
Proof.
  induction l as [|a l IH]; simpl; [reflexivity|].
  destruct (p a); [discriminate | intros Hf; now rewrite IH].
Qed.

Lemma update_first_ext p f g l :
  (forall a, f a = g a) -> update_first p f l = update_first p g l.
Proof.
  intros Hfg. induction l as [|a l IH]; simpl; [reflexivity|].
  destruct (p a); [now rewrite Hfg | now rewrite IH].
Qed.

Lemma update_first_related (R : A -> A -> Prop) p f l :
  (forall a, R a a) -> (forall a, R a (f a)) -> Forall2 R l (update_first p f l).
Proof.
  intros Hrefl Hf. induction l as [|a l IH]; simpl; [constructor|].
  destruct (p a); constructor; auto.
  clear IH. induction l; constructor; auto.
Qed.

Lemma related_refl (R : A -> A -> Prop) l : (forall a, R a a) -> Forall2 R l l.
Proof. intros Hrefl. induction l; constructor; auto. Qed.

Lemma update_first_map {B : Type} (h : A -> B) p f l :
  (forall a, h (f a) = h a) -> List.map h (update_first p f l) = List.map h l.
Proof.
  intros Hh. induction l as [|a l IH]; simpl; [reflexivity|].
  destruct (p a); simpl; [now rewrite Hh | now rewrite IH].
Qed.

Lemma update_first_twice p f g l :
  (forall a, p (f a) = p a) ->
  update_first p g (update_first p f l) = update_first p (fun a => g (f a)) l.
Proof.
  intros Hp. induction l as [|a l IH]; simpl; [reflexivity|].
  destruct (p a) eqn:Ha; simpl.
  - now rewrite Hp, Ha.
  - now rewrite Ha, IH.
Qed.

Lemma update_first_idem p f l :
  (forall a, p (f a) = p a) -> (forall a, f (f a) = f a) ->
  update_first p f (update_first p f l) = update_first p f l.
Proof.
  intros Hp Hf. rewrite update_first_twice by exact Hp. now apply update_first_ext.
Qed.

Lemma update_first_comm p q f g l :
  (forall a, p (g a) = p a) -> (forall a, q (f a) = q a) ->
  (forall a, f (g a) = g (f a)) ->
  update_first p f (update_first q g l) = update_first q g (update_first p f l).
Proof.
  intros Hp Hq Hfg. induction l as [|a l IH]; simpl; [reflexivity|].
  destruct (p a) eqn:Ha, (q a) eqn:Hb; simpl;
    rewrite ?Hp, ?Hq, ?Ha, ?Hb; try reflexivity.
  - now rewrite Hfg.
  - now rewrite IH.
Qed.

Lemma find_update_first_same p f l :
  (forall a, p (f a) = p a) ->
  List.find p (update_first p f l) = f <$> List.find p l.
Proof.
  intros Hp. induction l as [|a l IH]; simpl; [reflexivity|].
  destruct (p a) eqn:Ha; simpl; [now rewrite Hp, Ha | now rewrite Ha].
Qed.

Lemma find_update_first_other p q f l :
  (forall a, q (f a) = q a) ->
  match List.find q l with
  | None => List.find q (update_first p f l) = None
  | Some a =>
      List.find q (update_first p f l) = Some a
      \/ List.find q (update_first p f l) = Some (f a)
  end.
Proof.
  intros Hq. induction l as [|a l IH]; simpl; [reflexivity|].
  destruct (p a) eqn:Ha; simpl.
  - rewrite Hq. destruct (q a); [now right|]. destruct (List.find q l); auto.
  - destruct (q a); [now left | exact IH].
Qed.

End UpdateFirst.
End ListProps.

(** ** The payment webhook: what it leaves alone, and replays *)
Module WebhookMore.
Import Db Eff Http Orm Spec Laws.

Lemma payment_only_set_refl (a : Appointment) : payment_only_set a a.
Proof. unfold payment_only_set, same_but_payment. tauto. Qed.

Lemma payment_only_set_paid (a : Appointment) : payment_only_set a (set_payment true a).
Proof. destruct a. unfold payment_only_set, same_but_payment. simpl. tauto. Qed.

Lemma webhook_keeps_doctors `{Externals}
    (env : ProcessEnv) (req : Server.WebhookRequest) (w : World) :
  doctors (db (snd (Server.webhook env req w))) = doctors (db w)
  /\ doctors (db (snd (ServerBasic.webhook env req w))) = doctors (db w).
Proof.
  split.
  - unfold Server.webhook, Server.verify, Server.handle_event, findByIdAndUpdate,
      findOneAndUpdate. WebhookProps.unfold_eff.
    WebhookProps.case_split; reflexivity.
  - unfold ServerBasic.webhook, ServerBasic.handle_event, findByIdAndUpdate,
      findOneAndUpdate. WebhookProps.unfold_eff.
    WebhookProps.case_split; reflexivity.
Qed.

(** Whatever the request, the signature, the event and the failures of
    the database: a webhook call leaves the doctors and the users as they
    were, keeps every appointment in place, changes no field of it but
    [payment], and never clears a [payment] flag. *)
Theorem webhook_touches_payment_only `{Externals}
    (env : ProcessEnv) (req : Server.WebhookRequest) (w : World) :
  (doctors (db (snd (Server.webhook env req w))) = doctors (db w)
   /\ users (db (snd (Server.webhook env req w))) = users (db w)
   /\ Forall2 payment_only_set (appointments (db w))
        (appointments (db (snd (Server.webhook env req w)))))
  /\ (doctors (db (snd (ServerBasic.webhook env req w))) = doctors (db w)
      /\ users (db (snd (ServerBasic.webhook env req w))) = users (db w)
      /\ Forall2 payment_only_set (appointments (db w))
           (appointments (db (snd (ServerBasic.webhook env req w))))).
Proof.
  split.
  - unfold Server.webhook, Server.verify, Server.handle_event, findByIdAndUpdate,
      findOneAndUpdate. WebhookProps.unfold_eff.
    WebhookProps.case_split; (split; [reflexivity|]); (split; [reflexivity|]);
      first [ apply ListProps.related_refl, payment_only_set_refl
            | apply ListProps.update_first_related;
              [apply payment_only_set_refl | apply payment_only_set_paid] ].
  - unfold ServerBasic.webhook, ServerBasic.handle_event, findByIdAndUpdate,
      findOneAndUpdate. WebhookProps.unfold_eff.
    WebhookProps.case_split; (split; [reflexivity|]); (split; [reflexivity|]);
      first [ apply ListProps.related_refl, payment_only_set_refl
            | apply ListProps.update_first_related;
              [apply payment_only_set_refl | apply payment_only_set_paid] ].
Qed.

(** *** The effect of a call when nothing fails *)

Ltac settle_effect :=
  first
    [ split;
      [ first [ reflexivity
              | rewrite ListProps.update_first_none by assumption; reflexivity ]
      | reflexivity ]
    | exfalso; simpl in *; congruence ].

Lemma guarded_effect `{Externals} env req w :
  quiet w ->
  db (snd (Server.webhook env req w)) = mark_paid (guarded_target env req) (db w)
  /\ quiet (snd (Server.webhook env req w)).
Proof.
  destruct w as [[ds us aps] c f]. unfold quiet. simpl. intros ->.
  unfold Server.webhook, Server.verify, Server.handle_event, findByIdAndUpdate,
    findOneAndUpdate, mark_paid, guarded_target. WebhookProps.unfold_eff.
  WebhookProps.case_split; settle_effect.
Qed.

Lemma basic_effect `{Externals} env req w :
  quiet w ->
  db (snd (ServerBasic.webhook env req w)) = mark_paid (basic_target env req) (db w)
  /\ quiet (snd (ServerBasic.webhook env req w)).
Proof.
  destruct w as [[ds us aps] c f]. unfold quiet. simpl. intros ->.
  unfold ServerBasic.webhook, ServerBasic.handle_event, findByIdAndUpdate,
    findOneAndUpdate, mark_paid, basic_target. WebhookProps.unfold_eff.
  WebhookProps.case_split; settle_effect.
Qed.

Lemma by_id_set_payment `{Externals} id v a :
  by_id appointmentModel id (set_payment v a) = by_id appointmentModel id a.
Proof. destruct id, a; reflexivity. Qed.

Lemma mark_paid_idem `{Externals} target d :
  mark_paid target (mark_paid target d) = mark_paid target d.
Proof.
  destruct target as [id|]; [|reflexivity]. unfold mark_paid. simpl. f_equal.
  apply ListProps.update_first_idem.
  - intros a. apply by_id_set_payment.
  - intros a. now destruct a.
Qed.

(** Delivering the same request a second time changes nothing further:
    when no database call fails, the database after two calls is the
    database after one. *)
Theorem webhook_replay_changes_nothing `{Externals}
    (env : ProcessEnv) (req : Server.WebhookRequest) (w : World) :
  quiet w ->
  db (snd (Server.webhook env req (snd (Server.webhook env req w))))
  = db (snd (Server.webhook env req w))
  /\ db (snd (ServerBasic.webhook env req (snd (ServerBasic.webhook env req w))))
     = db (snd (ServerBasic.webhook env req w)).
Proof.
  intros Hq. split.
  - destruct (guarded_effect env req w Hq) as [Hdb Hq1].
    destruct (guarded_effect env req _ Hq1) as [Hdb2 _].
    rewrite Hdb2, Hdb. apply mark_paid_idem.
  - destruct (basic_effect env req w Hq) as [Hdb Hq1].
    destruct (basic_effect env req _ Hq1) as [Hdb2 _].
    rewrite Hdb2, Hdb. apply mark_paid_idem.
Qed.

Lemma webhook_replay_changes_nothing_witness :
  quiet Sample.world0
  /\ db (snd (@Server.webhook Sample.externals Sample.env (Sample.signed "paid a1")
                Sample.world0)) <> Sample.db0
  /\ db (snd (@Server.webhook Sample.externals Sample.env (Sample.signed "paid a1")
                (snd (@Server.webhook Sample.externals Sample.env (Sample.signed "paid a1")
                        Sample.world0))))
     = db (snd (@Server.webhook Sample.externals Sample.env (Sample.signed "paid a1")
                  Sample.world0)).
Proof.
  split; [reflexivity|]. split.
  - intros Heq. apply (f_equal (fun d => List.map appt_payment (appointments d))) in Heq.
    vm_compute in Heq. discriminate Heq.
  - exact (proj1 (@webhook_replay_changes_nothing Sample.externals Sample.env
                    (Sample.signed "paid a1") Sample.world0 eq_refl)).
Defined.

End WebhookMore.

(** ** Cancelling: what it leaves alone, who may cancel, repeated requests *)
Module CancelMore.
Import Db Eff Http Orm Spec Laws.

Lemma filter_filter {A : Type} (f : A -> bool) (l : list A) :
  List.filter f (List.filter f l) = List.filter f l.
Proof.
  induction l as [|a l IH]; simpl; [reflexivity|].
  destruct (f a) eqn:Ha; simpl; [now rewrite Ha, IH | exact IH].
Qed.

Lemma release_slot_idem (slotDate slotTime : string) (s s' : Slots) :
  AdminController.release_slot slotDate slotTime s = Ok s' ->
  AdminController.release_slot slotDate slotTime s' = Ok s'.
Proof.
  unfold AdminController.release_slot.
  destruct (s !! slotDate) as [times|] eqn:Hs.
  - intros [= <-]. rewrite lookup_insert_eq. now rewrite insert_insert_eq, filter_filter.
  - destruct (Js.inherited slotDate) eqn:Hin; [discriminate|].
    intros [= <-]. now rewrite Hs.
Qed.

Lemma release_slot_throws (slotDate slotTime : string) (s : Slots) (e : string) :
  AdminController.release_slot slotDate slotTime s = Throw e
  <-> e = AdminController.TypeError_filter
      /\ s !! slotDate = None /\ Js.inherited slotDate = true.
Proof.
  unfold AdminController.release_slot.
  destruct (s !! slotDate) as [times|].
  - split; [discriminate | intros (_ & Hs & _); discriminate].
  - destruct (Js.inherited slotDate).
    + split; [intros [= <-]; now repeat split | intros (-> & _); reflexivity].
    + split; [discriminate | intros (_ & _ & Hin); discriminate].
Qed.

(** The slot release reads [slots_booked[slotDate]] through the prototype
    chain.  It throws its [TypeError] exactly when the date is not an own
    key but is a name inherited from [Object.prototype].  When it returns,
    the table has the same date keys as before: a date whose last booked
    time is released stays as a key with an empty array, a date that is
    not a key is not added, and releasing again changes nothing. *)
Theorem release_slot_keeps_date_keys (slotDate slotTime : string) (s : Slots) :
  (forall e,
     AdminController.release_slot slotDate slotTime s = Throw e
     <-> e = "slots_booked[slotDate].filter is not a function"
         /\ s !! slotDate = None /\ slotDate ∈ Js.Object_prototype)
  /\ (forall s',
        AdminController.release_slot slotDate slotTime s = Ok s' ->
        dom s' = dom s
        /\ (s !! slotDate = None -> s' = s)
        /\ (forall times,
              s !! slotDate = Some times -> Forall (fun e => e = slotTime) times ->
              s' !! slotDate = Some [])
        /\ AdminController.release_slot slotDate slotTime s' = Ok s').
Proof.
  split.
  - intros e. rewrite release_slot_throws. unfold Js.inherited.
    change AdminController.TypeError_filter
      with "slots_booked[slotDate].filter is not a function".
    assert (Hin : existsb (String.eqb slotDate) Js.Object_prototype = true
                  <-> slotDate ∈ Js.Object_prototype).
    { rewrite existsb_exists, list_elem_of_In. split.
      - intros (x & Hx & Heq). apply String.eqb_eq in Heq. now subst.
      - intros Hx. exists slotDate. split; [exact Hx | apply String.eqb_refl]. }
    rewrite Hin. reflexivity.
  - intros s' Hr. split; [|split; [|split]].
    + revert Hr. unfold AdminController.release_slot.
      destruct (s !! slotDate) as [times|] eqn:Hs.
      * intros [= <-]. apply dom_insert_lookup_L. now rewrite Hs.
      * destruct (Js.inherited slotDate); [discriminate|]. now intros [= <-].
    + intros Hs. revert Hr. unfold AdminController.release_slot. rewrite Hs.
      destruct (Js.inherited slotDate); [discriminate|]. now intros [= <-].
    + intros times Hs Hall. rewrite (CancelProps.release_slot_same _ _ _ _ Hr), Hs.
      simpl. f_equal.
      clear Hs Hr. induction Hall as [|e times -> _ IH]; simpl; [reflexivity|].
      rewrite String.eqb_refl. exact IH.
    + exact (release_slot_idem _ _ _ _ Hr).
Qed.

Lemma cancelled_only_set_refl (a : Appointment) : cancelled_only_set a a.
Proof. unfold cancelled_only_set, same_but_cancelled. tauto. Qed.

Lemma cancelled_only_set_done (a : Appointment) : cancelled_only_set a (set_cancelled true a).
Proof. destruct a. unfold cancelled_only_set, same_but_cancelled. simpl. tauto. Qed.

Lemma same_but_slots_refl (d : Doctor) : same_but_slots d d.
Proof. reflexivity. Qed.

Lemma same_but_slots_set (s : Slots) (d : Doctor) : same_but_slots d (set_slots_booked s d).
Proof. reflexivity. Qed.

Lemma cancel_keeps_doctor_fields `{Externals}
    (req : AdminController.CancelRequest) (w : World) :
  Forall2 same_but_slots (doctors (db w))
    (doctors (db (snd (AdminController.appointmentCancel req w)))).
Proof.
  unfold AdminController.appointmentCancel, AdminController.appointmentCancel_try,
    AdminController.appointmentCancel_catch, findById, findOne, findByIdAndUpdate,
    findOneAndUpdate. WebhookProps.unfold_eff.
  WebhookProps.case_split;
    first [ apply ListProps.related_refl, same_but_slots_refl
          | apply ListProps.update_first_related;
            [apply same_but_slots_refl | apply same_but_slots_set] ].
Qed.

(** Whatever the request and the failures of the database, a cancellation
    leaves the users as they were, keeps every doctor and every appointment
    in place, changes no field of a doctor but [slots_booked] and no field
    of an appointment but [cancelled], and never clears a [cancelled]
    flag. *)
Theorem appointmentCancel_touches_flags_and_slots_only `{Externals}
    (req : AdminController.CancelRequest) (w : World) :
  let w' := snd (AdminController.appointmentCancel req w) in
  users (db w') = users (db w)
  /\ Forall2 same_but_slots (doctors (db w)) (doctors (db w'))
  /\ Forall2 cancelled_only_set (appointments (db w)) (appointments (db w')).
Proof.
  unfold AdminController.appointmentCancel, AdminController.appointmentCancel_try,
    AdminController.appointmentCancel_catch, findById, findOne, findByIdAndUpdate,
    findOneAndUpdate. WebhookProps.unfold_eff.
  WebhookProps.case_split; (split; [reflexivity|]); split;
    first [ apply ListProps.related_refl; first [apply same_but_slots_refl
                                                 | apply cancelled_only_set_refl]
          | apply ListProps.update_first_related;
            first [ apply same_but_slots_refl | apply same_but_slots_set
                  | apply cancelled_only_set_refl | apply cancelled_only_set_done ] ].
Qed.

Ltac unchanged := intros Hchanged; exfalso; apply Hchanged; reflexivity.

(** Only the owner cancels: whatever the failures of the database, when a
    cancellation request changes the database, the request names an
    existing appointment and the appointment's userId is the requester's. *)
Theorem appointmentCancel_only_by_owner `{Externals}
    (req : AdminController.CancelRequest) (w : World) :
  db (snd (AdminController.appointmentCancel req w)) <> db w ->
  exists uid aid a,
    AdminController.cancel_userId req = Some uid
    /\ AdminController.cancel_appointmentId req = Some aid
    /\ lookup_id appointmentModel aid (db w) = Some a
    /\ appt_userId a = Some uid.
Proof.
  unfold AdminController.appointmentCancel, AdminController.appointmentCancel_try,
    AdminController.appointmentCancel_catch, findById, findOne.
  WebhookProps.unfold_eff. simpl.
  destruct (AdminController.cancel_userId req) as [uid|] eqn:Hu; simpl; [|unchanged].
  destruct (AdminController.cancel_appointmentId req) as [aid|] eqn:Hi; simpl;
    [|destruct (uid =? "")%string; unchanged].
  destruct (String.eqb_spec uid "") as [|_]; simpl; [unchanged|].
  destruct (String.eqb_spec aid "") as [|_]; simpl; [unchanged|].
  destruct (faults w) as [|[e|] rest]; simpl; try unchanged;
    (destruct (List.find _ (appointments (db w))) as [a|] eqn:Ha; simpl; [|unchanged]);
    (destruct (appt_userId a) as [owner|] eqn:Howner; simpl; [|unchanged]);
    (destruct (String.eqb_spec owner "") as [|_]; simpl; [unchanged|]);
    (destruct (String.eqb_spec owner uid) as [->|_]; simpl; [|unchanged]);
    intros _; exists uid, aid, a; repeat split; assumption.
Qed.

Lemma appointmentCancel_only_by_owner_witness :
  db (snd (@AdminController.appointmentCancel Sample.externals
             (AdminController.mkCancelRequest (Some "u1") (Some "a1")) Sample.world0))
  <> db Sample.world0
  /\ exists uid aid a,
       Some "u1" = Some uid /\ Some "a1" = Some aid
       /\ lookup_id appointmentModel aid Sample.db0 = Some a
       /\ appt_userId a = Some uid.
Proof.
  assert (Hchanged :
            db (snd (@AdminController.appointmentCancel Sample.externals
                       (AdminController.mkCancelRequest (Some "u1") (Some "a1"))
                       Sample.world0)) <> db Sample.world0).
  { intros Heq. apply (f_equal (fun d => List.map appt_cancelled (appointments d))) in Heq.
    vm_compute in Heq. discriminate Heq. }
  split; [exact Hchanged|].
  exact (@appointmentCancel_only_by_owner Sample.externals
           (AdminController.mkCancelRequest (Some "u1") (Some "a1")) Sample.world0 Hchanged).
Defined.

(** *** Repeated requests *)

(** When nothing fails, a request either stops at one of the four checks
    and leaves the world as it is, or it comes from the owner of an
    existing appointment. *)
Lemma cancel_cases `{Externals} (req : AdminController.CancelRequest) (w : World) :
  quiet w ->
  (exists r, AdminController.appointmentCancel req w = (Ok r, w))
  \/ (exists uid aid a,
        req = AdminController.mkCancelRequest (Some uid) (Some aid)
        /\ uid <> "" /\ aid <> ""
        /\ lookup_id appointmentModel aid (db w) = Some a
        /\ appt_userId a = Some uid).
Proof.
  destruct w as [d c f]. unfold quiet. simpl. intros ->.
  destruct req as [[uid|] [aid|]];
    try (left; eexists; reflexivity).
  - unfold AdminController.appointmentCancel, AdminController.appointmentCancel_try,
      AdminController.appointmentCancel_catch, findById, findOne.
    WebhookProps.unfold_eff. unfold lookup_id. simpl.
    destruct (String.eqb_spec uid "") as [|Hu]; simpl; [left; eexists; reflexivity|].
    destruct (String.eqb_spec aid "") as [|Hi]; simpl; [left; eexists; reflexivity|].
    destruct (List.find _ (appointments d)) as [a|] eqn:Ha; simpl;
      [|left; eexists; reflexivity].
    destruct (appt_userId a) as [owner|] eqn:Howner; simpl; [|left; eexists; reflexivity].
    destruct (String.eqb_spec owner "") as [|_]; simpl; [left; eexists; reflexivity|].
    destruct (String.eqb_spec owner uid) as [->|_]; simpl; [|left; eexists; reflexivity].
    right. exists uid, aid, a. repeat split; assumption.
  - left. unfold AdminController.appointmentCancel, AdminController.appointmentCancel_try.
    WebhookProps.unfold_eff. simpl. destruct (uid =? "")%string; eexists; reflexivity.
Qed.

Lemma by_id_set_cancelled `{Externals} id v a :
  by_id appointmentModel id (set_cancelled v a) = by_id appointmentModel id a.
Proof. destruct id, a; reflexivity. Qed.

Lemma by_id_set_slots `{Externals} id s d :
  by_id doctorModel id (set_slots_booked s d) = by_id doctorModel id d.
Proof. destruct id, d; reflexivity. Qed.

Lemma lookup_after_cancel `{Externals} aid d :
  lookup_id appointmentModel aid (after_cancel aid d)
  = set_cancelled true <$> lookup_id appointmentModel aid d.
Proof.
  unfold lookup_id, after_cancel. simpl.
  apply (ListProps.find_update_first_same (by_id appointmentModel (Some aid))).
  intros a. exact (by_id_set_cancelled (Some aid) true a).
Qed.

Lemma after_cancel_idem `{Externals} aid d :
  after_cancel aid (after_cancel aid d) = after_cancel aid d.
Proof.
  unfold after_cancel. simpl. f_equal. apply ListProps.update_first_idem.
  - intros a. exact (by_id_set_cancelled (Some aid) true a).
  - intros a. now destruct a.
Qed.

(** Cancelling again: when nothing fails, the same request sent a second
    time gets the same answer and leaves the database as the first request
    left it (the handler does not look at the [cancelled] flag). *)
Theorem appointmentCancel_twice_is_once `{Externals}
    (req : AdminController.CancelRequest) (w : World) :
  quiet w ->
  let once := AdminController.appointmentCancel req w in
  let twice := AdminController.appointmentCancel req (snd once) in
  fst twice = fst once /\ db (snd twice) = db (snd once).
Proof.
  intros Hq once twice. subst twice once.
  destruct (cancel_cases req w Hq) as [(r & Hr) | (uid & aid & a & -> & Hu & Hi & Ha & Hown)].
  - rewrite Hr. simpl. rewrite Hr. now split.
  - rewrite (CancelProps.cancel_run w uid aid a Hu Hi Hq Ha Hown).
    assert (Ha' : forall d', appointments d' = appointments (after_cancel aid (db w)) ->
                    lookup_id appointmentModel aid d' = Some (set_cancelled true a)).
    { intros d' Hd'. unfold lookup_id in *. simpl in *. rewrite Hd'.
      pose proof (lookup_after_cancel aid (db w)) as Hl. unfold lookup_id in Hl.
      simpl in Hl. rewrite Hl, Ha. reflexivity. }
    assert (Hown' : appt_userId (set_cancelled true a) = Some uid) by (now destruct a).
    assert (Hfields : appt_docId (set_cancelled true a) = appt_docId a
                      /\ appt_slotDate (set_cancelled true a) = appt_slotDate a
                      /\ appt_slotTime (set_cancelled true a) = appt_slotTime a)
      by (now destruct a).
    destruct Hfields as (Hdoc & Hdate & Htime).
    destruct (lookup_id doctorModel (appt_docId a) (db w)) as [doctor|] eqn:Hd;
      cbn [fst snd].
    + destruct (AdminController.release_slot (appt_slotDate a) (appt_slotTime a)
                  (slots_of doctor)) as [slots|e] eqn:Hrel; cbn [fst snd].
      * rewrite (CancelProps.cancel_run (with_db (after_release aid a slots (db w)) w)
                   uid aid (set_cancelled true a) Hu Hi Hq (Ha' _ eq_refl) Hown').
        assert (Hd' : lookup_id doctorModel (appt_docId (set_cancelled true a))
                        (db (with_db (after_release aid a slots (db w)) w))
                      = Some (set_slots_booked slots doctor)).
        { unfold lookup_id in *. simpl in *.
          rewrite (ListProps.find_update_first_same
                     (by_id doctorModel (Some (appt_docId a)))).
          - simpl. now rewrite Hd.
          - intros d0. exact (by_id_set_slots (Some (appt_docId a)) slots d0). }
        rewrite Hd', Hdate, Htime.
        change (slots_of (set_slots_booked slots doctor)) with slots.
        rewrite (release_slot_idem _ _ _ _ Hrel).
        split; [reflexivity|]. simpl.
        unfold after_release. simpl. f_equal.
        -- apply ListProps.update_first_idem.
           ++ intros d0. exact (by_id_set_slots (Some (appt_docId a)) slots d0).
           ++ intros d0. now destruct d0.
        -- apply (f_equal appointments (after_cancel_idem aid (db w))).
      * set (w1 := logged Stderr ("Error in appointmentCancel: " ++ e)
                     (with_db (after_cancel aid (db w)) w)).
        rewrite (CancelProps.cancel_run w1 uid aid (set_cancelled true a) Hu Hi Hq
                   (Ha' _ eq_refl) Hown').
        assert (Hd' : lookup_id doctorModel (appt_docId (set_cancelled true a)) (db w1)
                      = Some doctor).
        { rewrite Hdoc. exact Hd. }
        rewrite Hd', Hdate, Htime, Hrel. split; [reflexivity|]. simpl.
        apply after_cancel_idem.
    + rewrite (CancelProps.cancel_run (with_db (after_cancel aid (db w)) w)
                 uid aid (set_cancelled true a) Hu Hi Hq (Ha' _ eq_refl) Hown').
      assert (Hd' : lookup_id doctorModel (appt_docId (set_cancelled true a))
                      (db (with_db (after_cancel aid (db w)) w)) = None).
      { rewrite Hdoc. exact Hd. }
      rewrite Hd'. split; [reflexivity|]. simpl. apply after_cancel_idem.
Qed.

Lemma appointmentCancel_twice_is_once_witness :
  quiet Sample.world0
  /\ fst (@AdminController.appointmentCancel Sample.externals
            (AdminController.mkCancelRequest (Some "u1") (Some "a1"))
            (snd (@AdminController.appointmentCancel Sample.externals
                    (AdminController.mkCancelRequest (Some "u1") (Some "a1"))
                    Sample.world0)))
     = Ok (json (Json.Obj [("success", Json.Bool true);
                           ("message", Json.Str "Appointment Cancelled")])).
Proof.
  split; [reflexivity|].
  rewrite (proj1 (@appointmentCancel_twice_is_once Sample.externals
                    (AdminController.mkCancelRequest (Some "u1") (Some "a1"))
                    Sample.world0 eq_refl)).
  reflexivity.
Defined.

End CancelMore.

(** ** The admin controller: reading, logging in, adding *)
Module AdminMore.
Import Db Eff Http Orm Spec Laws.

(** The three listing operations and the login never write to the
    database and always answer with status 200, also when they fail:
    a failure is only visible in the body. *)
Theorem read_operations_never_write `{Externals}
    (env : ProcessEnv) (req : AdminController.LoginRequest) (w : World) :
  ((exists r, fst (AdminController.allDoctors w) = Ok r /\ status r = 200)
   /\ db (snd (AdminController.allDoctors w)) = db w)
  /\ ((exists r, fst (AdminController.appointmentsAdmin w) = Ok r /\ status r = 200)
      /\ db (snd (AdminController.appointmentsAdmin w)) = db w)
  /\ ((exists r, fst (AdminController.adminDashboard w) = Ok r /\ status r = 200)
      /\ db (snd (AdminController.adminDashboard w)) = db w)
  /\ ((exists r, fst (AdminController.loginAdmin env req w) = Ok r /\ status r = 200)
      /\ db (snd (AdminController.loginAdmin env req w)) = db w).
Proof.
  unfold AdminController.allDoctors, AdminController.allDoctors_try,
    AdminController.appointmentsAdmin, AdminController.appointmentsAdmin_try,
    AdminController.adminDashboard, AdminController.adminDashboard_try,
    AdminController.loginAdmin, AdminController.loginAdmin_try,
    AdminController.log_and_report, find.
  WebhookProps.unfold_eff.
  repeat split; AddDoctorProps.crunch; AddDoctorProps.reduce_world;
    first [ reflexivity | eexists; split; reflexivity ].
Qed.

(** A token is answered exactly when the email and the password of the
    request equal the configured ones and the signing succeeds; the
    comparison is strict equality of possibly-undefined values, so an unset
    configuration is matched by a request that leaves both fields out.  Any
    other request is answered "Invalid credentials". *)
Theorem loginAdmin_token_iff_credentials `{Externals}
    (env : ProcessEnv) (req : AdminController.LoginRequest) (w : World) :
  (forall token,
     fst (AdminController.loginAdmin env req w)
     = Ok (json (Json.Obj [("success", Json.Bool true); ("token", Json.Str token)]))
     <-> AdminController.login_email req = ADMIN_EMAIL env
         /\ AdminController.login_password req = ADMIN_PASSWORD env
         /\ jwt_sign (AdminController.plus (AdminController.login_email req)
                        (AdminController.login_password req)) (JWT_SECRET env)
            = Ok token)
  /\ (AdminController.login_email req <> ADMIN_EMAIL env
      \/ AdminController.login_password req <> ADMIN_PASSWORD env ->
      fst (AdminController.loginAdmin env req w)
      = Ok (json (Json.Obj [("success", Json.Bool false);
                            ("message", Json.Str "Invalid credentials")]))).
Proof.
  unfold AdminController.loginAdmin, AdminController.loginAdmin_try,
    AdminController.log_and_report.
  WebhookProps.unfold_eff. cbn [fst snd].
  destruct (decide (AdminController.login_email req = ADMIN_EMAIL env)) as [He|He];
    destruct (decide (AdminController.login_password req = ADMIN_PASSWORD env)) as [Hp|Hp];
    rewrite ?(bool_decide_eq_true_2 _ He), ?(bool_decide_eq_false_2 _ He),
      ?(bool_decide_eq_true_2 _ Hp), ?(bool_decide_eq_false_2 _ Hp); cbn [andb fst snd].
  - split; [|intros [?|?]; contradiction].
    intros token.
    destruct (jwt_sign _ _) as [t|e]; cbn [fst snd]; split.
    + intros [= ->]. now repeat split.
    + intros (_ & _ & [= ->]). reflexivity.
    + discriminate.
    + intros (_ & _ & Hs). discriminate Hs.
  - split; [|reflexivity]. intros token. split; [discriminate | tauto].
  - split; [|reflexivity]. intros token. split; [discriminate | tauto].
  - split; [|reflexivity]. intros token. split; [discriminate | tauto].
Qed.

(** *** Adding a doctor *)

Lemma cleaned_field (v : option string) :
  Js.truthy (Js.cleanQuotes v) = true ->
  trimmed (AdminController.str (Js.cleanQuotes v))
  /\ AdminController.str (Js.cleanQuotes v) <> "".
Proof.
  destruct v as [s|]; [|discriminate]. intros Ht.
  split; [exact (StringProps.trim_trimmed _)|].
  intros Hempty. change (Js.trim (Js.dropTrailingQuote (Js.dropLeadingQuote s)) = "") in Hempty.
  change (negb (String.eqb (Js.trim (Js.dropTrailingQuote (Js.dropLeadingQuote s))) "") = true)
    in Ht.
  rewrite Hempty in Ht. discriminate Ht.
Qed.

Lemma gates_unfold `{Externals} req d :
  passes_gates req d = true ->
  (exists file, AdminController.add_file req = Some file)
  /\ fields_present (AdminController.add_body req) = true
  /\ validator_isEmail
       (AdminController.str (Js.cleanQuotes (AdminController.email (AdminController.add_body req))))
     = true
  /\ password_long_enough (AdminController.add_body req) = true
  /\ List.find
       (fun doc =>
          String.eqb (doc_email doc)
            (AdminController.str
               (Js.cleanQuotes (AdminController.email (AdminController.add_body req)))))
       (doctors d) = None.
Proof.
  unfold passes_gates. intros Hg.
  apply andb_prop in Hg as [Hg Hunused]. apply andb_prop in Hg as [Hg Hlen].
  apply andb_prop in Hg as [Hg Hemail]. apply andb_prop in Hg as [Hfile Hfields].
  unfold file_present in Hfile. unfold email_unused in Hunused.
  rewrite AddDoctorProps.forallb_find in Hunused. unfold cleaned_email in Hunused.
  repeat split; try assumption.
  - destruct (AdminController.add_file req) as [file|]; [now exists file | discriminate].
  - destruct (List.find _ _); [discriminate | reflexivity].
Qed.

Ltac enter_addDoctor Hg :=
  unfold AdminController.addDoctor, AdminController.addDoctor_try,
    AdminController.addDoctor_catch, findOne, save;
  cbv zeta; rewrite AddDoctorProps.fields_cond, AddDoctorProps.length_cond;
  WebhookProps.unfold_eff;
  destruct (gates_unfold _ _ Hg) as ((file & Hfile) & Hfields & Hemail & Hlen & Hfind);
  rewrite Hfile, Hfields, Hemail, Hlen;
  cbn [negb db console faults fst snd coll set_coll doctorModel with_db
         doctors users appointments].



(** Every run of [addDoctor] either leaves the database as it is or
    appends the document built from a request that passed every gate. *)
Lemma addDoctor_record `{Externals} req replies w :
  db (snd (AdminController.addDoctor req replies w)) = db w
  \/ (passes_gates req (db w) = true
      /\ exists parsedAddress,
           parsed_address (AdminController.address (AdminController.add_body req))
           = Some parsedAddress
           /\ db (snd (AdminController.addDoctor req replies w))
              = mkDatabase (doctors (db w) ++ [created_doctor req replies parsedAddress])
                  (users (db w)) (appointments (db w))).
Proof.
  unfold AdminController.addDoctor, AdminController.addDoctor_try,
    AdminController.addDoctor_catch, findOne, save.
  cbv zeta. rewrite AddDoctorProps.fields_cond, AddDoctorProps.length_cond.
  fold (parsed_address (AdminController.address (AdminController.add_body req))).
  WebhookProps.unfold_eff.
  unfold passes_gates, file_present, email_valid, email_unused, created_doctor,
    cleaned_password. unfold cleaned_email.
  rewrite AddDoctorProps.forallb_find.
  destruct (AdminController.add_file req) as [file|]; [|now left].
  destruct (fields_present (AdminController.add_body req)); cbn [negb andb]; [|now left].
  destruct (validator_isEmail _); cbn [negb andb]; [|now left].
  destruct (password_long_enough _); cbn [negb andb]; [|now left].
  AddDoctorProps.crunch; AddDoctorProps.reduce_world;
    first [ left; reflexivity
          | right; split; [reflexivity|]; eexists; split; reflexivity ].
Qed.

Lemma same_but_slots_emails (l l' : list Doctor) :
  Forall2 same_but_slots l l' -> List.map doc_email l = List.map doc_email l'.
Proof.
  induction 1 as [|d e l l' Hde _ IH]; simpl; [reflexivity|].
  rewrite IH. f_equal. exact (f_equal doc_email Hde).
Qed.

(** No handler that writes ever creates a second doctor with an email
    already in use: if the doctors' emails are pairwise distinct before a
    call of [addDoctor], [appointmentCancel] or either webhook handler,
    they are pairwise distinct after it, whatever fails on the way. *)
Theorem doctor_emails_stay_unique `{Externals}
    (env : ProcessEnv) (hook : Server.WebhookRequest)
    (cancel : AdminController.CancelRequest)
    (add : AdminController.AddDoctorRequest) (replies : AdminController.AddDoctorReplies)
    (w : World) :
  emails_unique (db w) ->
  emails_unique (db (snd (AdminController.addDoctor add replies w)))
  /\ emails_unique (db (snd (AdminController.appointmentCancel cancel w)))
  /\ emails_unique (db (snd (Server.webhook env hook w)))
  /\ emails_unique (db (snd (ServerBasic.webhook env hook w))).
Proof.
  unfold emails_unique. intros Hu. split; [|split; [|split]].
  - destruct (addDoctor_record add replies w) as [-> | (Hg & parsed & _ & ->)];
      [exact Hu|].
    cbn [doctors]. rewrite List.map_app. apply NoDup_app. split; [exact Hu|].
    split; [|apply NoDup_singleton].
    intros email Hin Hnew. apply list_elem_of_In, List.in_map_iff in Hin.
    destruct Hin as (doc & Hdoc & Hin).
    apply list_elem_of_singleton in Hnew. cbn in Hnew.
    unfold passes_gates in Hg. apply andb_prop in Hg as [_ Hunused].
    unfold email_unused in Hunused. rewrite forallb_forall in Hunused.
    specialize (Hunused doc Hin). rewrite Hdoc, Hnew, String.eqb_refl in Hunused.
    discriminate Hunused.
  - pose proof (CancelMore.cancel_keeps_doctor_fields cancel w) as Hdocs.
    now rewrite <- (same_but_slots_emails _ _ Hdocs).
  - now rewrite (proj1 (WebhookMore.webhook_keeps_doctors env hook w)).
  - now rewrite (proj2 (WebhookMore.webhook_keeps_doctors env hook w)).
Qed.

Lemma doctor_emails_stay_unique_witness :
  emails_unique Sample.db0
  /\ emails_unique (db (snd (@AdminController.addDoctor Sample.externals
                               Sample.new_doctor_request Sample.replies Sample.world0))).
Proof.
  assert (Hu : emails_unique Sample.db0).
  { unfold emails_unique. cbn. apply NoDup_singleton. }
  split; [exact Hu|].
  exact (proj1 (@doctor_emails_stay_unique Sample.externals Sample.env Sample.forged
                  (AdminController.mkCancelRequest None None) Sample.new_doctor_request
                  Sample.replies Sample.world0 Hu)).
Defined.

(** The address is looked at last: a request that passes every gate but
    whose address is a string that does not parse is answered 400 with
    nothing written, yet only after the lookup, the salt, the hash and the
    upload to the image host have all been awaited. *)
Theorem addDoctor_checks_address_after_upload `{Externals}
    (req : AdminController.AddDoctorRequest) (replies : AdminController.AddDoctorReplies)
    (w : World) (rest : list (option string)) :
  faults w = None :: None :: None :: None :: rest ->
  passes_gates req (db w) = true ->
  parsed_address (AdminController.address (AdminController.add_body req)) = None ->
  let run := AdminController.addDoctor req replies w in
  fst run
  = Ok (status_json 400
          (Json.Obj [("success", Json.Bool false);
                     ("message",
                      Json.Str "Invalid address format. Please provide a valid JSON object");
                     ("receivedAddress",
                      AdminController.value_to_json
                        (AdminController.address (AdminController.add_body req)))]))
  /\ db (snd run) = db w
  /\ faults (snd run) = rest.
Proof.
  intros Hf Hg Hparsed run. subst run.
  enter_addDoctor Hg. rewrite Hf. cbn [db faults coll doctorModel doctors].
  rewrite Hfind. cbn [db faults].
  fold (parsed_address (AdminController.address (AdminController.add_body req))).
  rewrite Hparsed. cbn [db faults fst snd]. repeat split; reflexivity.
Qed.

Lemma addDoctor_checks_address_after_upload_witness :
  @passes_gates Sample.externals Sample.bad_address_request Sample.db0 = true
  /\ faults (snd (@AdminController.addDoctor Sample.externals Sample.bad_address_request
                    Sample.replies
                    (mkWorld Sample.db0 [] [None; None; None; None; Some "later"])))
     = [Some "later"].
Proof.
  split; [reflexivity|].
  exact (proj2 (proj2 (@addDoctor_checks_address_after_upload Sample.externals
                         Sample.bad_address_request Sample.replies
                         (mkWorld Sample.db0 [] [None; None; None; None; Some "later"])
                         [Some "later"] eq_refl eq_refl eq_refl))).
Defined.

(** A doctor that was added is listed: after a successful [addDoctor],
    [allDoctors] answers the former list followed by the new document, and
    the new entry carries the cleaned name and email and no password. *)
Theorem added_doctor_is_listed_without_password `{Externals}
    (req : AdminController.AddDoctorRequest) (replies : AdminController.AddDoctorReplies)
    (w : World) (parsedAddress : Json.t) :
  quiet w ->
  passes_gates req (db w) = true ->
  parsed_address (AdminController.address (AdminController.add_body req))
  = Some parsedAddress ->
  let after := snd (AdminController.addDoctor req replies w) in
  exists entry,
    fst (AdminController.allDoctors after)
    = Ok (json (Json.Obj
                  [("success", Json.Bool true);
                   ("doctors",
                    Json.Arr (AdminController.select_without_password (doctors (db w))
                              ++ [entry]))]))
    /\ Json.get "password" entry = None
    /\ Json.get "email" entry
       = Some (Json.Str (cleaned_email (AdminController.add_body req)))
    /\ Json.get "name" entry
       = Some (Json.Str (AdminController.str
                           (Js.cleanQuotes
                              (AdminController.name (AdminController.add_body req))))).
Proof.
  intros Hq Hg Hparsed after.
  exists (Json.without "password" (doctor_to_json (created_doctor req replies parsedAddress))).
  split; [|split; [apply Facts.password_not_serialised|]].
  - subst after. unfold quiet in Hq.
    assert (Hrun :
              AdminController.addDoctor req replies w
              = (fst (AdminController.addDoctor req replies w),
                 mkWorld
                   (mkDatabase (doctors (db w) ++ [created_doctor req replies parsedAddress])
                      (users (db w)) (appointments (db w)))
                   (console w ++ [(Stdout, "Cleaned data:")]) [])).
    { enter_addDoctor Hg. rewrite Hq. cbn [db faults coll doctorModel doctors].
      rewrite Hfind. cbn [db faults].
      fold (parsed_address (AdminController.address (AdminController.add_body req))).
      rewrite Hparsed. cbn [db faults fst snd coll set_coll doctorModel with_db
                              doctors users appointments console]. reflexivity. }
    rewrite Hrun. cbn [snd].
    unfold AdminController.allDoctors, AdminController.allDoctors_try, tryCatch, find, bind,
      await_service, ret. cbn [faults db coll doctorModel doctors fst].
    unfold AdminController.select_without_password. now rewrite List.map_app.
  - destruct (created_doctor req replies parsedAddress) as [? ? ? ? ? ? ? ? ? ? ? ? [slots|]]
      eqn:Hd; apply (f_equal doc_email) in Hd as He;
      apply (f_equal doc_name) in Hd as Hn; cbn in He, Hn; subst; split; reflexivity.
Qed.

Lemma added_doctor_is_listed_without_password_witness :
  quiet Sample.world0
  /\ exists entry,
       fst (AdminController.allDoctors
              (snd (@AdminController.addDoctor Sample.externals Sample.new_doctor_request
                      Sample.replies Sample.world0)))
       = Ok (json (Json.Obj
                     [("success", Json.Bool true);
                      ("doctors",
                       Json.Arr (AdminController.select_without_password [Sample.d1]
                                 ++ [entry]))]))
       /\ Json.get "password" entry = None
       /\ Json.get "email" entry = Some (Json.Str "b@example.com").
Proof.
  split; [reflexivity|].
  destruct (@added_doctor_is_listed_without_password Sample.externals
              Sample.new_doctor_request Sample.replies Sample.world0 (Json.Obj [])
              eq_refl eq_refl eq_refl) as (entry & Hlist & Hpw & Hemail & _).
  exists entry. split; [exact Hlist|]. split; [exact Hpw | exact Hemail].
Defined.

End AdminMore.

(** ** Checkout sessions and the cross-origin policy *)
Module CheckoutProps.
Import Db Eff Http Orm Spec Laws.

Lemma listed_iff (o : string) :
  Cors.not_listed o = false <-> o ∈ Cors.allowedOrigins.
Proof.
  unfold Cors.not_listed. rewrite negb_false_iff, existsb_exists, list_elem_of_In.
  split.
  - intros (x & Hin & Heq). apply String.eqb_eq in Heq. now subst.
  - intros Hin. exists o. split; [exact Hin | apply String.eqb_refl].
Qed.

(** The origin policy lets a request through exactly when it has no
    origin (or an empty one) or its origin is one of the three listed; any
    other is stopped with "Not allowed by CORS".  For every request that
    got through and names an appointment, the base URL that
    [create-checkout-session] writes to the console is one of the listed
    origins. *)
Theorem checkout_base_url_is_an_allowed_origin
    (env : ProcessEnv) (req : Checkout.Request) (reply_id : string) (w0 w : World) :
  (fst (Cors.origin (Checkout.headers_origin req) w0) = Ok true
   <-> Js.truthy (Checkout.headers_origin req) = false
       \/ exists o, Checkout.headers_origin req = Some o /\ o ∈ Cors.allowedOrigins)
  /\ (fst (Cors.origin (Checkout.headers_origin req) w0) = Ok true
      \/ fst (Cors.origin (Checkout.headers_origin req) w0) = Throw "Not allowed by CORS")
  /\ (fst (Cors.origin (Checkout.headers_origin req) w0) = Ok true ->
      Js.truthy (Checkout.body_appointmentId req) = true ->
      exists base,
        base ∈ Cors.allowedOrigins
        /\ (Stdout, "Using base URL: " ++ base)
           ∈ console (snd (Server.create_checkout_session env req reply_id w))).
Proof.
  assert (Hpolicy :
            fst (Cors.origin (Checkout.headers_origin req) w0) = Ok true
            <-> Js.truthy (Checkout.headers_origin req) = false
                \/ exists o, Checkout.headers_origin req = Some o /\ o ∈ Cors.allowedOrigins).
  { unfold Cors.origin. WebhookProps.unfold_eff.
    destruct (Checkout.headers_origin req) as [o|]; simpl.
    - destruct (String.eqb_spec o "") as [->|Ho]; simpl.
      + split; [now left | reflexivity].
      + destruct (Cors.not_listed o) eqn:Hl; simpl.
        * split; [discriminate|]. intros [Hf | (o' & Ho' & Hin)]; [discriminate|].
          injection Ho' as <-. apply listed_iff in Hin. congruence.
        * split; [|reflexivity]. intros _. right. exists o. split; [reflexivity|].
          now apply listed_iff.
    - split; [now left | reflexivity]. }
  split; [exact Hpolicy|]. split.
  { unfold Cors.origin. WebhookProps.unfold_eff.
    destruct (negb (Js.truthy _)); [now left|].
    destruct (Cors.not_listed _); cbn [fst]; [now right | now left]. }
  intros Hok Hid. apply Hpolicy in Hok.
  unfold Server.create_checkout_session, Server.create_checkout_session_try,
    Server.create_checkout_session_catch, Checkout.sessions_create.
  WebhookProps.unfold_eff. cbv zeta. rewrite Hid. cbn [negb].
  set (base := if decide (NODE_ENV env = Some "production")
               then "https://doctor-appointment-frontend-eta.vercel.app"
               else Checkout.or_else (Checkout.headers_origin req) "http://localhost:5173").
  assert (Hlocal : "http://localhost:5173" ∈ Cors.allowedOrigins).
  { apply list_elem_of_In. simpl. auto. }
  assert (Hprod : "https://doctor-appointment-frontend-eta.vercel.app" ∈ Cors.allowedOrigins).
  { apply list_elem_of_In. simpl. auto. }
  exists base. split.
  - subst base. destruct (decide _); [exact Hprod|].
    unfold Checkout.or_else. destruct Hok as [Hf | (o & Ho & Hin)].
    + rewrite Hf. exact Hlocal.
    + rewrite Ho. simpl.
      destruct (String.eqb_spec o ""); simpl; [exact Hlocal | exact Hin].
  - cbn [fst snd db console faults].
    destruct (faults w) as [|[e|] rest]; cbn [fst snd db console faults];
      rewrite !elem_of_app; rewrite !list_elem_of_singleton; tauto.
Qed.

Lemma checkout_base_url_is_an_allowed_origin_witness :
  fst (Cors.origin (Some "http://localhost:5174") Sample.world0) = Ok true
  /\ exists base,
       base ∈ Cors.allowedOrigins
       /\ (Stdout, "Using base URL: " ++ base)
          ∈ console (snd (Server.create_checkout_session Sample.env
                            (Checkout.mkRequest (Some "a1") (Some "http://localhost:5174"))
                            "cs_test_1" Sample.world0)).
Proof.
  split; [reflexivity|].
  exact (proj2 (proj2 (checkout_base_url_is_an_allowed_origin Sample.env
                         (Checkout.mkRequest (Some "a1") (Some "http://localhost:5174"))
                         "cs_test_1" Sample.world0 Sample.world0))
           eq_refl eq_refl).
Defined.

(** The checkout endpoints never write to the database.  The one that
    checks its input answers a request without appointmentId with status
    500 before the provider is contacted; the other one contacts the
    provider even then.  When the provider call succeeds both answer
    {success:true, sessionId}; when it throws both answer 500 with the
    error text in the field error. *)
Theorem checkout_session_outcomes
    (env : ProcessEnv) (req : Checkout.Request) (reply_id : string) (w : World) :
  let guarded := Server.create_checkout_session env req reply_id w in
  let basic := ServerBasic.create_checkout_session req reply_id w in
  let created :=
    json (Json.Obj [("success", Json.Bool true); ("sessionId", Json.Str reply_id)]) in
  let failed (e : string) :=
    status_json 500 (Json.Obj [("success", Json.Bool false); ("error", Json.Str e)]) in
  (db (snd guarded) = db w /\ db (snd basic) = db w)
  /\ (Js.truthy (Checkout.body_appointmentId req) = false ->
      fst guarded = Ok (failed "Missing appointmentId in request body")
      /\ faults (snd guarded) = faults w)
  /\ (next_call_throws w = None ->
      fst basic = Ok created
      /\ (Js.truthy (Checkout.body_appointmentId req) = true -> fst guarded = Ok created))
  /\ (forall e, next_call_throws w = Some e ->
      fst basic = Ok (failed e)
      /\ faults (snd basic) = List.tl (faults w)
      /\ (Js.truthy (Checkout.body_appointmentId req) = true -> fst guarded = Ok (failed e))).
Proof.
  unfold Server.create_checkout_session, Server.create_checkout_session_try,
    Server.create_checkout_session_catch, ServerBasic.create_checkout_session,
    ServerBasic.create_checkout_session_try, ServerBasic.create_checkout_session_catch,
    Checkout.sessions_create, next_call_throws.
  WebhookProps.unfold_eff. cbv zeta.
  destruct (Js.truthy (Checkout.body_appointmentId req)); cbn [negb];
    destruct (faults w) as [|[e|] rest]; cbn [fst snd db faults List.tl];
    repeat split; try reflexivity; try discriminate; intros; try discriminate;
    try (match goal with Heq : Some _ = Some _ |- _ => injection Heq as <- end);
    reflexivity.
Qed.

End CheckoutProps.

(** ** A payment notice and a cancellation, in either order *)
Module OrderProps.
Import Db Eff Http Orm Spec Laws.

Ltac open_cancel :=
  unfold AdminController.appointmentCancel, AdminController.appointmentCancel_try,
    AdminController.appointmentCancel_catch, findById, findOne;
  WebhookProps.unfold_eff; simpl.

Lemma cancel_effect_spec `{Externals} (req : AdminController.CancelRequest) (w : World) :
  quiet w ->
  db (snd (AdminController.appointmentCancel req w)) = cancel_effect req (db w)
  /\ quiet (snd (AdminController.appointmentCancel req w)).
Proof.
  intros Hq. destruct req as [[uid|] [aid|]]; unfold cancel_effect;
    cbn [AdminController.cancel_userId AdminController.cancel_appointmentId].
  - destruct (String.eqb_spec uid "") as [->|Hu]; cbn [negb andb].
    { open_cancel. split; [reflexivity | exact Hq]. }
    destruct (String.eqb_spec aid "") as [->|Hi]; cbn [negb andb].
    { open_cancel. destruct (uid =? "")%string; (split; [reflexivity | exact Hq]). }
    destruct (lookup_id appointmentModel aid (db w)) as [a|] eqn:Ha.
    + destruct (bool_decide_reflect (appt_userId a = Some uid)) as [Hown|Hown].
      * rewrite (CancelProps.cancel_run w uid aid a Hu Hi Hq Ha Hown).
        destruct (lookup_id doctorModel (appt_docId a) (db w)) as [doctor|];
          [destruct (AdminController.release_slot _ _ _)|];
          (split; [reflexivity | exact Hq]).
      * open_cancel. unfold quiet in *. unfold lookup_id in Ha. simpl in Ha.
        destruct (String.eqb_spec uid "") as [|_]; [contradiction|].
        destruct (String.eqb_spec aid "") as [|_]; [contradiction|]. simpl.
        rewrite Hq. simpl. rewrite Ha. simpl.
        destruct (appt_userId a) as [owner|]; simpl; [|now split].
        destruct (String.eqb_spec owner "") as [|_]; simpl; [now split|].
        destruct (String.eqb_spec owner uid) as [->|_]; simpl; [|now split].
        now contradiction Hown.
    + open_cancel. unfold quiet in *. unfold lookup_id in Ha. simpl in Ha.
      destruct (String.eqb_spec uid "") as [|_]; [contradiction|].
      destruct (String.eqb_spec aid "") as [|_]; [contradiction|]. simpl.
      rewrite Hq. simpl. rewrite Ha. simpl. now split.
  - open_cancel. destruct (uid =? "")%string; (split; [reflexivity | exact Hq]).
  - open_cancel. split; [reflexivity | exact Hq].
  - open_cancel. split; [reflexivity | exact Hq].
Qed.

Lemma set_flags_commute (a : Appointment) :
  set_cancelled true (set_payment true a) = set_payment true (set_cancelled true a).
Proof. now destruct a. Qed.

Lemma cancel_effect_mark_paid `{Externals}
    (req : AdminController.CancelRequest) (target : option (option string)) (d : Database) :
  cancel_effect req (mark_paid target d) = mark_paid target (cancel_effect req d).
Proof.
  destruct target as [id|]; [|reflexivity].
  destruct req as [[uid|] [aid|]]; unfold cancel_effect; simpl; try reflexivity.
  destruct (negb (uid =? "")%string && negb (aid =? "")%string); [|reflexivity].
  assert (Hcomm :
            update_first (by_id appointmentModel (Some aid)) (set_cancelled true)
              (update_first (by_id appointmentModel id) (set_payment true) (appointments d))
            = update_first (by_id appointmentModel id) (set_payment true)
                (update_first (by_id appointmentModel (Some aid)) (set_cancelled true)
                   (appointments d))).
  { apply ListProps.update_first_comm.
    - intros a. exact (WebhookMore.by_id_set_payment (Some aid) true a).
    - intros a. exact (CancelMore.by_id_set_cancelled id true a).
    - intros a. apply set_flags_commute. }
  pose proof (ListProps.find_update_first_other
                (by_id appointmentModel id)
                (fun a => String.eqb (appt_id a) aid)
                (set_payment true) (appointments d)
                (fun a => WebhookMore.by_id_set_payment (Some aid) true a)) as Hfind.
  unfold lookup_id. simpl. simpl in Hfind.
  destruct (List.find (fun a => String.eqb (appt_id a) aid) (appointments d)) as [a|].
  - destruct Hfind as [Hfind | Hfind]; rewrite Hfind; clear Hfind;
      destruct a as [i u doc date time paid cancelled more];
      cbn [set_payment appt_userId appt_docId appt_slotDate appt_slotTime];
      (destruct (bool_decide (u = Some uid)); [|reflexivity]);
      (destruct (List.find _ (doctors d)) as [doctor|];
       [destruct (AdminController.release_slot _ _ _)|];
       unfold after_release, after_cancel, mark_paid;
       cbn [doctors users appointments appt_userId appt_docId appt_slotDate appt_slotTime];
       f_equal; exact Hcomm).
  - rewrite Hfind. reflexivity.
Qed.

(** A payment notice and a cancellation do not look at each other's flag:
    when no database call fails, the database after the webhook and then
    the cancellation is the database after the cancellation and then the
    webhook.  In particular a cancelled appointment is still marked as
    paid, and a paid one is still cancelled. *)
Theorem webhook_and_cancellation_commute `{Externals}
    (env : ProcessEnv) (notice : Server.WebhookRequest)
    (req : AdminController.CancelRequest) (w : World) :
  quiet w ->
  db (snd (AdminController.appointmentCancel req (snd (Server.webhook env notice w))))
  = db (snd (Server.webhook env notice (snd (AdminController.appointmentCancel req w))))
  /\ db (snd (AdminController.appointmentCancel req (snd (ServerBasic.webhook env notice w))))
     = db (snd (ServerBasic.webhook env notice
                  (snd (AdminController.appointmentCancel req w)))).
Proof.
  intros Hq. destruct (cancel_effect_spec req w Hq) as [Hc Hqc]. split.
  - destruct (WebhookMore.guarded_effect env notice w Hq) as [Hh Hqh].
    destruct (cancel_effect_spec req _ Hqh) as [Hc' _].
    destruct (WebhookMore.guarded_effect env notice _ Hqc) as [Hh' _].
    rewrite Hc', Hh', Hh, Hc. apply cancel_effect_mark_paid.
  - destruct (WebhookMore.basic_effect env notice w Hq) as [Hh Hqh].
    destruct (cancel_effect_spec req _ Hqh) as [Hc' _].
    destruct (WebhookMore.basic_effect env notice _ Hqc) as [Hh' _].
    rewrite Hc', Hh', Hh, Hc. apply cancel_effect_mark_paid.
Qed.

Lemma webhook_and_cancellation_commute_witness :
  quiet Sample.world0
  /\ List.map (fun a => (appt_payment a, appt_cancelled a))
       (appointments
          (db (snd (@Server.webhook Sample.externals Sample.env (Sample.signed "paid a1")
                      (snd (@AdminController.appointmentCancel Sample.externals
                              (AdminController.mkCancelRequest (Some "u1") (Some "a1"))
                              Sample.world0))))))
     = [(true, true); (false, false)].
Proof.
  split; [reflexivity|].
  rewrite <- (proj1 (@webhook_and_cancellation_commute Sample.externals Sample.env
                       (Sample.signed "paid a1")
                       (AdminController.mkCancelRequest (Some "u1") (Some "a1"))
                       Sample.world0 eq_refl)).
  reflexivity.
Defined.

End OrderProps.

(** ** Adding a doctor, for any body the form parser can leave *)
Module FormProps.
Import Db Eff Http Orm Spec Laws.
Import AdminController (BodyValue, VUndefined, VString, VObject, value_truthy, value_to_json,
                        AddDoctorReplies, reply_salt, reply_secure_url, reply_now,
                        reply_new_id, new_doctor, addDoctor_catch).

(** *** What cleaning removes *)

Lemma dropLeadingQuote_length (s : string) :
  (String.length (Js.dropLeadingQuote s) <= String.length s)%nat
  /\ (starts_with is_quote s = true ->
      (String.length (Js.dropLeadingQuote s) < String.length s)%nat)
  /\ (starts_with is_quote s = false -> Js.dropLeadingQuote s = s).
Proof.
  destruct s as [|c s]; simpl; [repeat split; try lia; discriminate|].
  unfold is_quote. destruct (Ascii.eqb c Js.dquote); simpl; repeat split; try lia;
    discriminate.
Qed.

Lemma dropTrailingQuote_length (s : string) :
  (String.length (Js.dropTrailingQuote s) <= String.length s)%nat
  /\ (ends_with is_quote s = true ->
      (String.length (Js.dropTrailingQuote s) < String.length s)%nat).
Proof.
  induction s as [|c s IH]; [split; [simpl; lia | discriminate]|].
  destruct s as [|a r].
  - simpl. unfold is_quote. destruct (Ascii.eqb c Js.dquote); simpl; split; try lia;
      discriminate.
  - destruct IH as [IH1 IH2].
    change (Js.dropTrailingQuote (String c (String a r)))
      with (String c (Js.dropTrailingQuote (String a r))).
    change (ends_with is_quote (String c (String a r)))
      with (ends_with is_quote (String a r)).
    remember (String a r) as t. simpl String.length.
    split; [lia|]. intros He. specialize (IH2 He). lia.
Qed.

Lemma trim_length (s : string) : (String.length (Js.trim s) <= String.length s)%nat.
Proof.
  destruct (StringProps.trim_split s) as (pre & post & Hs).
  rewrite Hs at 2. rewrite !StringProps.length_app. lia.
Qed.

Lemma cleaned_shorter (s : string) :
  starts_with is_quote s = true \/ ends_with is_quote s = true ->
  (String.length (Js.trim (Js.dropTrailingQuote (Js.dropLeadingQuote s)))
   < String.length s)%nat.
Proof.
  intros Hq.
  pose proof (trim_length (Js.dropTrailingQuote (Js.dropLeadingQuote s))) as Ht.
  destruct (dropLeadingQuote_length s) as (Hl & Hls & Hlid).
  destruct (dropTrailingQuote_length (Js.dropLeadingQuote s)) as (Hr & Hrs).
  destruct (starts_with is_quote s) eqn:Hstart.
  - specialize (Hls eq_refl). lia.
  - destruct Hq as [Hq|Hq]; [discriminate|].
    rewrite (Hlid eq_refl) in *. specialize (Hrs Hq). lia.
Qed.

(** *** The runs of the handler *)

Lemma form_fields_cond (b : Multipart.Body) :
  negb (value_truthy (Multipart.cleanQuotes (Multipart.name b)))
  || negb (value_truthy (Multipart.cleanQuotes (Multipart.email b)))
  || negb (value_truthy (Multipart.cleanQuotes (Multipart.password b)))
  || negb (value_truthy (Multipart.cleanQuotes (Multipart.speciality b)))
  || negb (value_truthy (Multipart.cleanQuotes (Multipart.degree b)))
  || negb (value_truthy (Multipart.cleanQuotes (Multipart.experience b)))
  || negb (value_truthy (Multipart.cleanQuotes (Multipart.about b)))
  || negb (value_truthy (Multipart.cleanQuotes (Multipart.fees b)))
  || negb (value_truthy (Multipart.address b))
  = negb (Multipart.fields_present b).
Proof. unfold Multipart.fields_present. now rewrite !negb_andb. Qed.

Ltac unchanged := intros Hchanged; exfalso; apply Hchanged; reflexivity.

(** A run that writes to the database passed every check on its way: the
    email and the password are strings after cleaning, every cast and the
    address parse succeeded, and the record and the answer are as given. *)
Lemma addDoctor_created `{Externals} req replies w :
  let b := Multipart.body req in
  db (snd (Multipart.addDoctor req replies w)) <> db w ->
  exists plain mail n sp dg ex ab parsed,
    Multipart.cleanQuotes (Multipart.password b) = VString plain
    /\ Multipart.cleanQuotes (Multipart.email b) = VString mail
    /\ Multipart.cast_String (Multipart.cleanQuotes (Multipart.name b)) = Ok n
    /\ Multipart.cast_String (Multipart.cleanQuotes (Multipart.speciality b)) = Ok sp
    /\ Multipart.cast_String (Multipart.cleanQuotes (Multipart.degree b)) = Ok dg
    /\ Multipart.cast_String (Multipart.cleanQuotes (Multipart.experience b)) = Ok ex
    /\ Multipart.cast_String (Multipart.cleanQuotes (Multipart.about b)) = Ok ab
    /\ Multipart.parse (Multipart.address b) = Some parsed
    /\ Multipart.file req <> None
    /\ Multipart.fields_present b = true
    /\ validator_isEmail mail = true
    /\ (N.of_nat (String.length plain) <? 8) = false
    /\ List.find (Multipart.by_email (VString mail)) (doctors (db w)) = None
    /\ let d :=
         new_doctor (reply_new_id replies) n mail (reply_secure_url replies)
           (bcrypt_hash plain (reply_salt replies)) sp dg ex ab
           (Multipart.Number (Multipart.cleanQuotes (Multipart.fees b))) parsed
           (reply_now replies) in
       db (snd (Multipart.addDoctor req replies w))
       = mkDatabase (doctors (db w) ++ [d]) (users (db w)) (appointments (db w))
       /\ fst (Multipart.addDoctor req replies w)
          = Ok (status_json 201
                  (Json.Obj [("success", Json.Bool true);
                             ("message", Json.Str "Doctor added successfully");
                             ("doctor",
                              Json.Obj [("name", Json.Str n);
                                        ("email", Json.Str mail);
                                        ("speciality", Json.Str sp);
                                        ("image", Json.Str (reply_secure_url replies))])])).
Proof.
  intros b. subst b.
  unfold Multipart.addDoctor, Multipart.addDoctor_try, addDoctor_catch, findOne, save.
  cbv zeta. rewrite form_fields_cond.
  WebhookProps.unfold_eff.
  destruct (Multipart.file req) as [file|] eqn:Hfile; [|unchanged].
  destruct (Multipart.fields_present (Multipart.body req)) eqn:Hfields; cbn [negb];
    [|unchanged].
  destruct (Multipart.cleanQuotes (Multipart.email (Multipart.body req)))
    as [|mail|j] eqn:Hmail; cbn [Multipart.isEmail]; [unchanged| |unchanged].
  destruct (validator_isEmail mail) eqn:Hvalid; cbn [negb]; [|unchanged].
  destruct (Multipart.cleanQuotes (Multipart.password (Multipart.body req)))
    as [|plain|j] eqn:Hplain; cbn [Multipart.length_below Multipart.hash]; [unchanged| |].
  2:{ AddDoctorProps.crunch; AddDoctorProps.reduce_world; unchanged. }
  destruct (N.of_nat (String.length plain) <? 8) eqn:Hlen; [unchanged|].
  cbn [Multipart.cast_String].
  AddDoctorProps.crunch; AddDoctorProps.reduce_world;
    first [ unchanged | idtac ].
  all: intros _; do 8 eexists; repeat split; try eassumption; try reflexivity;
    try discriminate.
Qed.

Ltac rejected := split; [reflexivity | eexists; split; reflexivity].

(** When the email and the password are strings or absent, a gate that
    fails is answered with 400 and nothing is written. *)
Lemma addDoctor_rejected `{Externals} req replies w :
  let run := Multipart.addDoctor req replies w in
  let b := Multipart.body req in
  Multipart.is_text (Multipart.email b) = true ->
  Multipart.is_text (Multipart.password b) = true ->
  (Multipart.static_gates req = false ->
   db (snd run) = db w /\ exists r, fst run = Ok r /\ status r = 400)
  /\ (Multipart.passes_gates req (db w) = false -> next_call_throws w = None ->
      db (snd run) = db w /\ exists r, fst run = Ok r /\ status r = 400).
Proof.
  intros run b Hmail Hpass. subst run b.
  unfold Multipart.addDoctor, Multipart.addDoctor_try, addDoctor_catch, findOne, save.
  cbv zeta. rewrite form_fields_cond.
  WebhookProps.unfold_eff.
  unfold Multipart.passes_gates, Multipart.static_gates, Multipart.email_valid,
    Multipart.password_long_enough, Multipart.email_unused, next_call_throws.
  rewrite AddDoctorProps.forallb_find.
  destruct (Multipart.file req) as [file|]; [|split; intros; rejected].
  destruct (Multipart.fields_present (Multipart.body req)) eqn:Hf; cbn [negb andb];
    [|split; intros; rejected].
  assert (Htruthy :
            value_truthy (Multipart.cleanQuotes (Multipart.email (Multipart.body req))) = true
            /\ value_truthy (Multipart.cleanQuotes (Multipart.password (Multipart.body req)))
               = true).
  { unfold Multipart.fields_present in Hf.
    repeat (apply andb_prop in Hf as [Hf ?]). now split. }
  destruct Htruthy as [Hte Htp].
  destruct (Multipart.email (Multipart.body req)) as [|mail|j];
    [discriminate Hte| |discriminate Hmail].
  destruct (Multipart.password (Multipart.body req)) as [|plain|j];
    [discriminate Htp| |discriminate Hpass].
  cbn [Multipart.cleanQuotes Multipart.of_option Js.cleanQuotes Multipart.isEmail
         Multipart.length_below Multipart.hash Multipart.by_email andb].
  destruct (validator_isEmail _); cbn [negb andb]; [|split; intros; rejected].
  rewrite N.leb_antisym.
  destruct (N.of_nat (String.length _) <? 8); cbn [negb andb]; [split; intros; rejected|].
  split; [discriminate|].
  AddDoctorProps.crunch; AddDoctorProps.reduce_world; intros Hg Hn;
    first [discriminate Hg | discriminate Hn | rejected | exfalso; congruence].
Qed.

(** What [cleanQuotes] returns for a string, described without it. *)
Lemma cleaned_piece (s : string) :
  exists pre post,
    s = pre ++ Js.trim (Js.dropTrailingQuote (Js.dropLeadingQuote s)) ++ post.
Proof.
  destruct (StringProps.dropLeadingQuote_split s) as (q1 & H1 & _).
  destruct (StringProps.dropTrailingQuote_split (Js.dropLeadingQuote s)) as (q2 & H2 & _).
  destruct (StringProps.trim_split (Js.dropTrailingQuote (Js.dropLeadingQuote s)))
    as (p & q & H3).
  exists (q1 ++ p), (q ++ q2).
  rewrite H1 at 1. rewrite H2 at 1. rewrite H3 at 1.
  now rewrite !Facts.append_assoc.
Qed.

Lemma cleaned_string (v : BodyValue) (plain : string) :
  Multipart.cleanQuotes v = VString plain ->
  exists raw,
    v = VString raw
    /\ trimmed plain
    /\ (exists pre post, raw = pre ++ plain ++ post)
    /\ (starts_with is_quote raw = true \/ ends_with is_quote raw = true ->
        (String.length plain < String.length raw)%nat).
Proof.
  destruct v as [|raw|j]; try discriminate. intros [= <-].
  exists raw. split; [reflexivity|]. split; [apply StringProps.trim_trimmed|].
  split; [apply cleaned_piece | apply cleaned_shorter].
Qed.




(** *** Requests whose text fields are strings *)

Lemma truthy_of_option (v : option string) :
  value_truthy (Multipart.cleanQuotes (Multipart.of_option v)) = Js.truthy (Js.cleanQuotes v).
Proof. now destruct v. Qed.

Lemma fields_present_of_text (req : AdminController.AddDoctorRequest) :
  Multipart.fields_present (Multipart.body (Multipart.of_text req))
  = fields_present (AdminController.add_body req).
Proof.
  unfold Multipart.fields_present, fields_present, Multipart.of_text.
  cbn [Multipart.body Multipart.name Multipart.email Multipart.password
         Multipart.speciality Multipart.degree Multipart.experience Multipart.about
         Multipart.fees Multipart.address].
  now rewrite !truthy_of_option.
Qed.

Lemma truthy_some (v : option string) :
  Js.truthy (Js.cleanQuotes v) = true -> exists s, v = Some s.
Proof. destruct v as [s|]; [now exists s | discriminate]. Qed.

(** On a request whose text fields are strings or absent the handler runs
    as [AdminController.addDoctor] says, so what is proved of that one
    holds of the handler on such requests. *)
Lemma addDoctor_on_text `{Externals} (req : AdminController.AddDoctorRequest)
    (replies : AddDoctorReplies) (w : World) :
  Multipart.addDoctor (Multipart.of_text req) replies w
  = AdminController.addDoctor req replies w.
Proof.
  unfold Multipart.addDoctor, Multipart.addDoctor_try, AdminController.addDoctor,
    AdminController.addDoctor_try.
  cbv zeta. rewrite form_fields_cond, AddDoctorProps.fields_cond, fields_present_of_text.
  destruct (fields_present (AdminController.add_body req)) eqn:Hf.
  - unfold fields_present in Hf.
    repeat (apply andb_prop in Hf as [Hf ?]).
    repeat match goal with
           | Ht : Js.truthy (Js.cleanQuotes _) = true |- _ =>
               apply truthy_some in Ht as [? ?]
           end.
    destruct req as [[fn fe fp fs fd fx fa ff addr] file]. simpl in *. subst. reflexivity.
  - unfold Multipart.of_text.
    cbn [Multipart.body Multipart.name Multipart.email Multipart.password
           Multipart.speciality Multipart.degree Multipart.experience Multipart.about
           Multipart.fees Multipart.address Multipart.file negb].
    rewrite !truthy_of_option. reflexivity.
Qed.

End FormProps.
